(** * mcpforge: project generation, static analysis and structural validation

    A shallow embedding of the command implementations of the mcpforge CLI
    (the [new], [diagram], [validate] and [add] commands) together with the
    properties its specification states about them.

    Conventions of the embedding.
    - A JavaScript string is a [string]; the character [ascii] n stands for
      the code unit n.  Case conversion and the regular-expression classes
      are those of JavaScript on the ASCII range, which covers every text
      the generators write and every project name made of letters, digits,
      hyphens and underscores.
    - A path is the list of its segments below the current working
      directory; the file system is a finite map from paths to nodes.
    - A call that can throw returns an [option]; [None] is the exception
      that the command catches at its boundary. *)

From Stdlib Require Import String Ascii List Bool Arith Lia QArith DecimalString.
From stdpp Require Import base option gmap strings.

Import ListNotations.
Local Open Scope string_scope.
Local Open Scope list_scope.

(** ** Characters and strings *)

Definition in_range (lo hi : nat) (c : ascii) : bool :=
  let n := nat_of_ascii c in (lo <=? n)%nat && (n <=? hi)%nat.

Definition is_upper (c : ascii) : bool := in_range 65 90 c.
Definition is_lower (c : ascii) : bool := in_range 97 122 c.
Definition is_digit (c : ascii) : bool := in_range 48 57 c.

Definition char_toLowerCase (c : ascii) : ascii :=
  if is_upper c then ascii_of_nat (nat_of_ascii c + 32) else c.

Definition char_toUpperCase (c : ascii) : ascii :=
  if is_lower c then ascii_of_nat (nat_of_ascii c - 32) else c.

Fixpoint map_chars (f : ascii -> ascii) (s : string) : string :=
  match s with
  | EmptyString => EmptyString
  | String c s' => String (f c) (map_chars f s')
  end.

Definition toLowerCase : string -> string := map_chars char_toLowerCase.
Definition toUpperCase : string -> string := map_chars char_toUpperCase.

(** [s.charAt(0)] and [s.slice(1)]. *)
Definition charAt0 (s : string) : string :=
  match s with
  | EmptyString => EmptyString
  | String c _ => String c EmptyString
  end.

Definition slice1 (s : string) : string :=
  match s with
  | EmptyString => EmptyString
  | String _ s' => s'
  end.

(** [hay.includes(needle)]. *)
Fixpoint includes (hay needle : string) : bool :=
  String.prefix needle hay ||
  match hay with
  | EmptyString => false
  | String _ hay' => includes hay' needle
  end.

(** [s.replace(/[class]/g, f)] for a pattern that is one character class:
    every character of the class is replaced by what [f] gives for it. *)
Fixpoint replace_class (p : ascii -> bool) (f : ascii -> string) (s : string) : string :=
  match s with
  | EmptyString => EmptyString
  | String c s' =>
      (if p c then f c else String c EmptyString) ++ replace_class p f s'
  end.

(** [s.replace(/^c/, '')]: one leading [c] is dropped. *)
Definition strip_leading (c : ascii) (s : string) : string :=
  match s with
  | String a s' => if Ascii.eqb a c then s' else s
  | EmptyString => s
  end.

(** [s.replace(/suffix$/, '')] for a literal, non-empty suffix. *)
Fixpoint strip_suffix (suffix s : string) : string :=
  match s with
  | EmptyString => EmptyString
  | String c s' =>
      if String.eqb s suffix then EmptyString else String c (strip_suffix suffix s')
  end.

(** [s.split(/[class]/)]. *)
Fixpoint split_class (p : ascii -> bool) (s : string) : list string :=
  match s with
  | EmptyString => [EmptyString]
  | String c s' =>
      if p c then EmptyString :: split_class p s'
      else match split_class p s' with
           | w :: ws => String c w :: ws
           | [] => [String c EmptyString]
           end
  end.

(** [words.join('')]. *)
Definition join_empty (ws : list string) : string :=
  fold_right String.append EmptyString ws.

Definition is_hyphen (c : ascii) : bool := Ascii.eqb c "-".
Definition is_underscore (c : ascii) : bool := Ascii.eqb c "_".
Definition is_separator (c : ascii) : bool := is_hyphen c || is_underscore c.

(** ** Naming normalizer (the utility functions of the [new] command) *)

Definition toSnakeCase (str : string) : string :=
  replace_class is_hyphen (fun _ => "_")
    (strip_leading "_"
       (toLowerCase
          (replace_class is_upper (fun c => String "_" (String c EmptyString)) str))).

Definition capitalize (word : string) : string :=
  toUpperCase (charAt0 word) ++ toLowerCase (slice1 word).

Definition toPascalCase (str : string) : string :=
  join_empty (map capitalize (split_class is_separator str)).

Definition toKebabCase (str : string) : string :=
  replace_class is_underscore (fun _ => "-")
    (strip_leading "-"
       (toLowerCase
          (replace_class is_upper (fun c => String "-" (String c EmptyString)) str))).

(** A project name as the specification admits it: non-empty, made of
    letters, digits, hyphens and underscores. *)
Definition is_name_char (c : ascii) : bool :=
  is_upper c || is_lower c || is_digit c || is_separator c.

Fixpoint all_chars (p : ascii -> bool) (s : string) : bool :=
  match s with
  | EmptyString => true
  | String c s' => p c && all_chars p s'
  end.

Definition valid_name (s : string) : bool :=
  negb (String.eqb s EmptyString) && all_chars is_name_char s.

Definition no_upper (c : ascii) : bool := negb (is_upper c).

(** ** Regular expressions of the static analyzer

    The analyzer's patterns are sequences of quantified character classes
    with one capture group.  [Atom c q] is the class [c] under the
    quantifier [q]; [Open] and [Close] delimit the capture group.  The
    matcher backtracks in the order of a JavaScript regular expression: a
    greedy quantifier tries the longest repetition first, a lazy one the
    shortest. *)

Inductive quant := Once | Star | Plus | LazyStar.

Inductive tok :=
| Atom (c : ascii -> bool) (q : quant)
| Open
| Close.

Definition push (ing : bool) (a : ascii) (acc : list ascii) : list ascii :=
  if ing then a :: acc else acc.

Section Repeat.
(** [k] continues with the rest of the pattern. *)
Variable c : ascii -> bool.
Variable ing : bool.
Variable k : list ascii -> string -> option (string * string).

Fixpoint greedy (acc : list ascii) (s : string) : option (string * string) :=
  match s with
  | String a s' =>
      if c a then
        match greedy (push ing a acc) s' with
        | Some r => Some r
        | None => k acc s
        end
      else k acc s
  | EmptyString => k acc s
  end.

Fixpoint lazy (acc : list ascii) (s : string) : option (string * string) :=
  match k acc s with
  | Some r => Some r
  | None =>
      match s with
      | String a s' => if c a then lazy (push ing a acc) s' else None
      | EmptyString => None
      end
  end.
End Repeat.

(** [exec r ing acc s] matches [r] at the start of [s]; it returns the text
    of the capture group and what follows the match. *)
Fixpoint exec (r : list tok) (ing : bool) (acc : list ascii) (s : string)
  : option (string * string) :=
  match r with
  | [] => Some (string_of_list_ascii (rev acc), s)
  | Open :: r' => exec r' true acc s
  | Close :: r' => exec r' false acc s
  | Atom c Once :: r' =>
      match s with
      | String a s' => if c a then exec r' ing (push ing a acc) s' else None
      | EmptyString => None
      end
  | Atom c Star :: r' => greedy c ing (exec r' ing) acc s
  | Atom c LazyStar :: r' => lazy c ing (exec r' ing) acc s
  | Atom c Plus :: r' =>
      match s with
      | String a s' =>
          if c a then greedy c ing (exec r' ing) (push ing a acc) s' else None
      | EmptyString => None
      end
  end.

(** [content.matchAll(/r/g)], keeping the first group of every match.  The
    search resumes where the previous match ended, one character further
    after an empty match; [skip] counts the characters still to pass. *)
Fixpoint matchAll_from (r : list tok) (skip : nat) (s : string) : list string :=
  match skip with
  | S n =>
      match s with
      | String _ s' => matchAll_from r n s'
      | EmptyString => []
      end
  | O =>
      match exec r false [] s with
      | Some (cap, rest) =>
          cap ::
          match s with
          | String _ s' =>
              matchAll_from r (String.length s - String.length rest - 1) s'
          | EmptyString => []
          end
      | None =>
          match s with
          | String _ s' => matchAll_from r 0 s'
          | EmptyString => []
          end
      end
  end.

Definition matchAll (r : list tok) (content : string) : list string :=
  matchAll_from r 0 content.

(** Character classes. *)
Definition is_word (c : ascii) : bool :=
  is_upper c || is_lower c || is_digit c || is_underscore c.
Definition is_word_or_hyphen (c : ascii) : bool := is_word c || is_hyphen c.
Definition is_space (c : ascii) : bool :=
  let n := nat_of_ascii c in
  in_range 9 13 c || (n =? 32)%nat || (n =? 160)%nat.
Definition is_newline (c : ascii) : bool := (nat_of_ascii c =? 10)%nat.
Definition is_line_terminator (c : ascii) : bool :=
  let n := nat_of_ascii c in (n =? 10)%nat || (n =? 13)%nat.
Definition is_dot (c : ascii) : bool := negb (is_line_terminator c).
Definition is_any (c : ascii) : bool := true.
Definition is_quote (c : ascii) : bool :=
  let n := nat_of_ascii c in (n =? 39)%nat || (n =? 34)%nat.
Definition is_not_quote (c : ascii) : bool := negb (is_quote c).

(** A literal piece of a pattern. *)
Fixpoint lit (s : string) : list tok :=
  match s with
  | EmptyString => []
  | String c s' => Atom (Ascii.eqb c) Once :: lit s'
  end.

(** ** File system

    Paths are lists of segments below the working directory, which always
    exists.  [path_join] is [path.join]: zero-length segments are dropped.
    Segments are plain names (no separator, neither [.] nor [..]), which
    is what the commands build from a valid project name. *)

Inductive node :=
| File (content : string)
| Dir.

Definition nonempty (seg : string) : bool := negb (String.eqb seg EmptyString).

Definition path_join (base : list string) (segs : list string) : list string :=
  base ++ List.filter nonempty segs.

(** [path.basename] of a path with at least one segment below the working
    directory.  The name of the working directory itself is not part of
    the model: the properties that follow a directory name to the places
    where a command looks are stated of paths with a segment. *)
Definition basename (p : list string) : string := List.last p EmptyString.

Definition stat (fs : gmap (list string) node) (p : list string) : option node :=
  match p with
  | [] => Some Dir
  | _ => fs !! p
  end.

(** A path as the commands print it. *)
Definition show_path (p : list string) : string :=
  fold_right (fun seg rest => ("/" ++ seg ++ rest)%string) EmptyString p.

(** [fs.pathExists]. *)
Definition pathExists (fs : gmap (list string) node) (p : list string) : bool :=
  match stat fs p with
  | Some _ => true
  | None => false
  end.

(** [fs.readFile(p, 'utf-8')]; it throws on a missing path and on a directory. *)
Definition readFile (fs : gmap (list string) node) (p : list string) : option string :=
  match stat fs p with
  | Some (File content) => Some content
  | _ => None
  end.

(** [fs.writeFile]: the parent must be a directory and the target must not be one. *)
Definition writeFile (fs : gmap (list string) node) (p : list string) (content : string)
  : option (gmap (list string) node) :=
  match stat fs (removelast p), stat fs p with
  | Some Dir, Some (File _) | Some Dir, None => Some (<[p := File content]> fs)
  | _, _ => None
  end.

(** [fs.ensureDir]: the directory and its missing ancestors are created; a
    file standing in the way makes it throw. *)
Fixpoint mkdirs (fs : gmap (list string) node) (pre rest : list string)
  : option (gmap (list string) node) :=
  match rest with
  | [] => Some fs
  | d :: rest' =>
      let p := pre ++ [d] in
      match fs !! p with
      | Some (File _) => None
      | Some Dir => mkdirs fs p rest'
      | None => mkdirs (<[p := Dir]> fs) p rest'
      end
  end.

Definition ensureDir (fs : gmap (list string) node) (p : list string)
  : option (gmap (list string) node) :=
  mkdirs fs [] p.

(** ** Project specification *)

Inductive language := python | typescript | go | rust.
Inductive pattern := basic | enterprise | microservices.
Inductive transport := stdio | sse | http.

Definition language_name (l : language) : string :=
  match l with
  | python => "python"
  | typescript => "typescript"
  | go => "go"
  | rust => "rust"
  end.

Definition pattern_name (p : pattern) : string :=
  match p with
  | basic => "basic"
  | enterprise => "enterprise"
  | microservices => "microservices"
  end.

Definition transport_name (t : transport) : string :=
  match t with
  | stdio => "stdio"
  | sse => "sse"
  | http => "http"
  end.

(** ** Template materializer *)

(** [value] as a replacement string of [String.prototype.replace]: [$$] is a
    dollar sign, [$&] the match, [$`] and [$'] what precedes and follows
    it; a pattern without groups leaves every other [$] as it is. *)
Fixpoint expand_replacement (value matched before after : string) : string :=
  match value with
  | EmptyString => EmptyString
  | String a rest =>
      if Ascii.eqb a "$" then
        match rest with
        | String b rest' =>
            if Ascii.eqb b "$" then String "$" (expand_replacement rest' matched before after)
            else if Ascii.eqb b "&" then matched ++ expand_replacement rest' matched before after
            else if Ascii.eqb b "`" then before ++ expand_replacement rest' matched before after
            else if Ascii.eqb b "'" then after ++ expand_replacement rest' matched before after
            else String a (expand_replacement rest matched before after)
        | EmptyString => String a EmptyString
        end
      else String a (expand_replacement rest matched before after)
  end.

Fixpoint drop_chars (n : nat) (s : string) : string :=
  match n, s with
  | S n', String _ s' => drop_chars n' s'
  | _, _ => s
  end.

(** [s.replace(new RegExp(pat, 'g'), value)] for a pattern that is a literal
    text, as [__key__] is for the keys of the template context. *)
Fixpoint replace_literal_from (pat value : string) (before : list ascii) (skip : nat)
    (s : string) : string :=
  match s with
  | EmptyString => EmptyString
  | String c s' =>
      match skip with
      | S n => replace_literal_from pat value (c :: before) n s'
      | O =>
          if String.prefix pat s then
            expand_replacement value pat (string_of_list_ascii (rev before))
              (drop_chars (String.length pat) s)
            ++ replace_literal_from pat value (c :: before) (String.length pat - 1) s'
          else String c (replace_literal_from pat value (c :: before) 0 s')
      end
  end.

Definition replace_literal (pat value s : string) : string :=
  replace_literal_from pat value [] 0 s.

(** The loop over [Object.entries(context)] that renames an entry. *)
Definition substitute_name (context : list (string * string)) (name : string) : string :=
  fold_left (fun targetName kv => replace_literal ("__" ++ fst kv ++ "__") (snd kv) targetName)
    context name.

#[local] Set Warnings "-register-all".

(** What [fs.readdir(dir, {withFileTypes: true})] and [fs.readFile] show of
    a template tree, in the order [readdir] lists it. *)
Inductive entry :=
| TemplateFile (name : string) (content : string)
| TemplateDir (name : string) (children : list entry).

Section Materializer.
(** [Handlebars.compile(content)(context)]; the engine is a dependency of
    the package and may throw on a malformed template. *)
Variable Handlebars : string -> list (string * string) -> option string.

Fixpoint copyTemplateEntry (context : list (string * string)) (targetPath : list string)
    (file : entry) (fs : gmap (list string) node) : option (gmap (list string) node) :=
  match file with
  | TemplateFile name content =>
      let targetName := strip_suffix ".hbs" (substitute_name context name) in
      let targetFilePath := path_join targetPath [targetName] in
      processed ← Handlebars content context;
      writeFile fs targetFilePath processed
  | TemplateDir name children =>
      let targetName := strip_suffix ".hbs" (substitute_name context name) in
      let targetFilePath := path_join targetPath [targetName] in
      fs1 ← ensureDir fs targetFilePath;
      (fix each (files : list entry) (fs : gmap (list string) node) :=
         match files with
         | [] => Some fs
         | f :: files' =>
             fs' ← copyTemplateEntry context targetFilePath f fs;
             each files' fs'
         end) children fs1
  end.

Fixpoint copyTemplateFiles (files : list entry) (targetPath : list string)
    (context : list (string * string)) (fs : gmap (list string) node)
  : option (gmap (list string) node) :=
  match files with
  | [] => Some fs
  | f :: files' =>
      fs' ← copyTemplateEntry context targetPath f fs;
      copyTemplateFiles files' targetPath context fs'
  end.
End Materializer.

(** Induction on a template tree, with the children of a directory. *)
Section EntryInduction.
Variable P : entry -> Prop.
Hypothesis P_file : forall name content, P (TemplateFile name content).
Hypothesis P_dir : forall name children, Forall P children -> P (TemplateDir name children).

Fixpoint entry_induction (e : entry) : P e :=
  match e with
  | TemplateFile name content => P_file name content
  | TemplateDir name children =>
      P_dir name children
        ((fix all (l : list entry) : Forall P l :=
            match l with
            | [] => @List.Forall_nil entry P
            | x :: l' => @List.Forall_cons entry P x l' (entry_induction x) (all l')
            end) children)
  end.
End EntryInduction.

(** ** Procedural generators

    The texts below are the template literals of the generators.  The
    character [~] occurs in none of them; it is written where the source
    has a double quote, and [q] puts the double quote back. *)

Definition double_quote : ascii := ascii_of_nat 34.

Definition q : string -> string :=
  map_chars (fun c => if Ascii.eqb c "~" then double_quote else c).

(** [pyproject.toml] *)
Definition pyproject_toml (nameSnake : string) : string :=
  q "[build-system]
requires = [~setuptools>=61.0~, ~wheel~]
build-backend = ~setuptools.build_meta~

[project]
name = ~" ++
  nameSnake ++
  q "~
version = ~0.1.0~
description = ~MCP server created with MCPForge~
readme = ~README.md~
requires-python = ~>=3.11~
dependencies = [
    ~mcp>=1.0.0~,
    ~fastmcp>=2.0.0~,
]

[project.optional-dependencies]
dev = [
    ~pytest>=8.0.0~,
    ~pytest-asyncio>=0.24.0~,
    ~ruff>=0.8.0~,
]

[tool.ruff]
line-length = 100
target-version = ~py311~

[tool.ruff.lint]
select = [~E~, ~F~, ~I~, ~N~, ~W~]
".

(** [__init__.py] *)
Definition python_init (namePascal : string) : string :=
  q "~~~" ++
  namePascal ++
  q " MCP Server~~~
".

(** [__main__.py] *)
Definition python_main (namePascal : string) (transport : string) : string :=
  q "~~~Entry point for " ++
  namePascal ++
  q " MCP Server~~~
from .server import server

if __name__ == ~__main__~:
    server.run(transport=~" ++
  transport ++
  q "~)
".

(** [README.md] of a Python project *)
Definition python_readme (nameSnake : string) (namePascal : string) : string :=
  q "# " ++
  namePascal ++
  q "

MCP server created with [MCPForge](https://github.com/Richardmsbr/mcpforge).

## Installation

```bash
pip install -e .
```

## Usage

```bash
python -m " ++
  nameSnake ++
  q "
```

## Development

```bash
pip install -e ~.[dev]~
pytest
```
".

(** [.gitignore] of a Python project *)
Definition python_gitignore : string :=
  q "__pycache__/
*.py[cod]
*$py.class
*.egg-info/
dist/
build/
.eggs/
.pytest_cache/
.ruff_cache/
.venv/
venv/
.env
".

Definition generatePythonBasicServer (nameSnake : string) (namePascal : string) : string :=
  q "~~~" ++
  namePascal ++
  q " MCP Server~~~
from fastmcp import FastMCP

server = FastMCP(~" ++
  nameSnake ++
  q "~)


@server.tool()
async def hello(name: str = ~World~) -> str:
    ~~~Say hello to someone.

    Args:
        name: The name to greet

    Returns:
        A greeting message
    ~~~
    return f~Hello, {name}!~


@server.tool()
async def add(a: int, b: int) -> int:
    ~~~Add two numbers.

    Args:
        a: First number
        b: Second number

    Returns:
        The sum of a and b
    ~~~
    return a + b


@server.resource(~config://settings~)
async def get_settings() -> str:
    ~~~Get server configuration settings.~~~
    return ~~~
    {
        ~version~: ~0.1.0~,
        ~name~: ~" ++
  nameSnake ++
  q "~,
        ~created_with~: ~mcpforge~
    }
    ~~~
".

Definition generatePythonEnterpriseServer (nameSnake : string) (namePascal : string) : string :=
  q "~~~" ++
  namePascal ++
  q " MCP Server - Enterprise Edition~~~
import logging
import os
from contextlib import asynccontextmanager
from typing import AsyncIterator

from fastmcp import FastMCP
from fastmcp.security import OAuth2Provider

# Configure logging
logging.basicConfig(
    level=logging.INFO,
    format=~%(asctime)s - %(name)s - %(levelname)s - %(message)s~
)
logger = logging.getLogger(~" ++
  nameSnake ++
  q "~)


@asynccontextmanager
async def lifespan(server: FastMCP) -> AsyncIterator[dict]:
    ~~~Manage server lifecycle - startup and shutdown.~~~
    logger.info(~Starting " ++
  namePascal ++
  q " server...~)

    # Initialize resources (database connections, caches, etc.)
    resources = {
        ~startup_time~: __import__(~datetime~).datetime.now().isoformat(),
    }

    yield resources

    logger.info(~Shutting down " ++
  namePascal ++
  q " server...~)
    # Cleanup resources


server = FastMCP(
    ~" ++
  nameSnake ++
  q "~,
    lifespan=lifespan,
)

# Configure OAuth2 authentication (if enabled)
if os.getenv(~OAUTH2_ENABLED~):
    server.use_auth(OAuth2Provider(
        issuer=os.getenv(~OAUTH2_ISSUER~, ~https://auth.example.com~),
        audience=os.getenv(~OAUTH2_AUDIENCE~, ~" ++
  nameSnake ++
  q "~),
    ))


@server.tool()
async def hello(name: str = ~World~) -> str:
    ~~~Say hello to someone.

    Args:
        name: The name to greet

    Returns:
        A greeting message
    ~~~
    logger.info(f~hello called with name={name}~)
    return f~Hello, {name}!~


@server.tool()
async def health_check() -> dict:
    ~~~Check server health status.

    Returns:
        Health status information
    ~~~
    return {
        ~status~: ~healthy~,
        ~version~: ~0.1.0~,
        ~uptime~: server.context.get(~startup_time~, ~unknown~),
    }


@server.resource(~config://settings~)
async def get_settings() -> str:
    ~~~Get server configuration settings.~~~
    return ~~~
    {
        ~version~: ~0.1.0~,
        ~name~: ~" ++
  nameSnake ++
  q "~,
        ~created_with~: ~mcpforge~,
        ~pattern~: ~enterprise~
    }
    ~~~


@server.prompt()
async def system_prompt() -> str:
    ~~~Get the system prompt for this server.~~~
    return ~~~You are an assistant with access to the " ++
  namePascal ++
  q " MCP server.

Available tools:
- hello: Greet someone by name
- health_check: Check server health status

Use these tools to help the user with their requests.~~~
".

(** [package.json]: the text [JSON.stringify(manifest, null, 2)] gives for a name that needs no escaping *)
Definition package_json (nameKebab : string) : string :=
  q "{
  ~name~: ~" ++
  nameKebab ++
  q "~,
  ~version~: ~0.1.0~,
  ~description~: ~MCP server created with MCPForge~,
  ~type~: ~module~,
  ~main~: ~dist/index.js~,
  ~scripts~: {
    ~build~: ~tsc~,
    ~dev~: ~tsc --watch~,
    ~start~: ~node dist/index.js~,
    ~test~: ~vitest~,
    ~lint~: ~eslint src --ext .ts~
  },
  ~dependencies~: {
    ~@modelcontextprotocol/sdk~: ~^1.0.0~
  },
  ~devDependencies~: {
    ~@types/node~: ~^22.0.0~,
    ~typescript~: ~^5.7.0~,
    ~vitest~: ~^2.1.0~,
    ~eslint~: ~^9.0.0~
  }
}".

(** [tsconfig.json] *)
Definition tsconfig_json : string :=
  q "{
  ~compilerOptions~: {
    ~target~: ~ES2022~,
    ~module~: ~ESNext~,
    ~moduleResolution~: ~bundler~,
    ~lib~: [
      ~ES2022~
    ],
    ~outDir~: ~./dist~,
    ~rootDir~: ~./src~,
    ~strict~: true,
    ~esModuleInterop~: true,
    ~skipLibCheck~: true,
    ~declaration~: true
  },
  ~include~: [
    ~src/**/*~
  ],
  ~exclude~: [
    ~node_modules~,
    ~dist~
  ]
}".

(** [README.md] of a TypeScript project *)
Definition typescript_readme (namePascal : string) : string :=
  q "# " ++
  namePascal ++
  q "

MCP server created with [MCPForge](https://github.com/Richardmsbr/mcpforge).

## Installation

```bash
npm install
```

## Usage

```bash
npm run build
npm start
```

## Development

```bash
npm run dev
```
".

(** [.gitignore] of a TypeScript project *)
Definition typescript_gitignore : string :=
  q "node_modules/
dist/
.env
*.log
".

Definition generateTypeScriptBasicServer (nameKebab : string) (namePascal : string) : string :=
  q "/**
 * " ++
  namePascal ++
  q " MCP Server
 * Created with MCPForge
 */
import { Server } from '@modelcontextprotocol/sdk/server/index.js';
import { StdioServerTransport } from '@modelcontextprotocol/sdk/server/stdio.js';
import {
  CallToolRequestSchema,
  ListToolsRequestSchema,
  ListResourcesRequestSchema,
  ReadResourceRequestSchema,
} from '@modelcontextprotocol/sdk/types.js';

const server = new Server(
  {
    name: '" ++
  nameKebab ++
  q "',
    version: '0.1.0',
  },
  {
    capabilities: {
      tools: {},
      resources: {},
    },
  }
);

// List available tools
server.setRequestHandler(ListToolsRequestSchema, async () => {
  return {
    tools: [
      {
        name: 'hello',
        description: 'Say hello to someone',
        inputSchema: {
          type: 'object',
          properties: {
            name: {
              type: 'string',
              description: 'The name to greet',
              default: 'World',
            },
          },
        },
      },
      {
        name: 'add',
        description: 'Add two numbers',
        inputSchema: {
          type: 'object',
          properties: {
            a: { type: 'number', description: 'First number' },
            b: { type: 'number', description: 'Second number' },
          },
          required: ['a', 'b'],
        },
      },
    ],
  };
});

// Handle tool calls
server.setRequestHandler(CallToolRequestSchema, async (request) => {
  const { name, arguments: args } = request.params;

  switch (name) {
    case 'hello': {
      const greeting = `Hello, ${(args as { name?: string }).name || 'World'}!`;
      return { content: [{ type: 'text', text: greeting }] };
    }
    case 'add': {
      const { a, b } = args as { a: number; b: number };
      return { content: [{ type: 'text', text: String(a + b) }] };
    }
    default:
      throw new Error(`Unknown tool: ${name}`);
  }
});

// List available resources
server.setRequestHandler(ListResourcesRequestSchema, async () => {
  return {
    resources: [
      {
        uri: 'config://settings',
        name: 'Settings',
        description: 'Server configuration settings',
        mimeType: 'application/json',
      },
    ],
  };
});

// Read resource content
server.setRequestHandler(ReadResourceRequestSchema, async (request) => {
  const { uri } = request.params;

  if (uri === 'config://settings') {
    return {
      contents: [
        {
          uri,
          mimeType: 'application/json',
          text: JSON.stringify(
            {
              version: '0.1.0',
              name: '" ++
  nameKebab ++
  q "',
              created_with: 'mcpforge',
            },
            null,
            2
          ),
        },
      ],
    };
  }

  throw new Error(`Unknown resource: ${uri}`);
});

// Start the server
async function main() {
  const transport = new StdioServerTransport();
  await server.connect(transport);
  console.error('" ++
  namePascal ++
  q " MCP server running on stdio');
}

main().catch(console.error);
".

Definition generateTypeScriptEnterpriseServer (nameKebab : string) (namePascal : string) : string :=
  q "/**
 * " ++
  namePascal ++
  q " MCP Server - Enterprise Edition
 * Created with MCPForge
 */
import { Server } from '@modelcontextprotocol/sdk/server/index.js';
import { StdioServerTransport } from '@modelcontextprotocol/sdk/server/stdio.js';
import {
  CallToolRequestSchema,
  ListToolsRequestSchema,
  ListResourcesRequestSchema,
  ReadResourceRequestSchema,
  ListPromptsRequestSchema,
  GetPromptRequestSchema,
} from '@modelcontextprotocol/sdk/types.js';

const startupTime = new Date().toISOString();

const server = new Server(
  {
    name: '" ++
  nameKebab ++
  q "',
    version: '0.1.0',
  },
  {
    capabilities: {
      tools: {},
      resources: {},
      prompts: {},
    },
  }
);

console.error('Starting " ++
  namePascal ++
  q " server...');

// List available tools
server.setRequestHandler(ListToolsRequestSchema, async () => {
  return {
    tools: [
      {
        name: 'hello',
        description: 'Say hello to someone',
        inputSchema: {
          type: 'object',
          properties: {
            name: {
              type: 'string',
              description: 'The name to greet',
              default: 'World',
            },
          },
        },
      },
      {
        name: 'health_check',
        description: 'Check server health status',
        inputSchema: {
          type: 'object',
          properties: {},
        },
      },
    ],
  };
});

// Handle tool calls
server.setRequestHandler(CallToolRequestSchema, async (request) => {
  const { name, arguments: args } = request.params;

  switch (name) {
    case 'hello': {
      const userName = (args as { name?: string }).name || 'World';
      console.error(`hello called with name=${userName}`);
      return { content: [{ type: 'text', text: `Hello, ${userName}!` }] };
    }
    case 'health_check': {
      return {
        content: [{
          type: 'text',
          text: JSON.stringify({
            status: 'healthy',
            version: '0.1.0',
            uptime: startupTime,
          }, null, 2),
        }],
      };
    }
    default:
      throw new Error(`Unknown tool: ${name}`);
  }
});

// List available resources
server.setRequestHandler(ListResourcesRequestSchema, async () => {
  return {
    resources: [
      {
        uri: 'config://settings',
        name: 'Settings',
        description: 'Server configuration settings',
        mimeType: 'application/json',
      },
    ],
  };
});

// Read resource content
server.setRequestHandler(ReadResourceRequestSchema, async (request) => {
  const { uri } = request.params;

  if (uri === 'config://settings') {
    return {
      contents: [{
        uri,
        mimeType: 'application/json',
        text: JSON.stringify({
          version: '0.1.0',
          name: '" ++
  nameKebab ++
  q "',
          created_with: 'mcpforge',
          pattern: 'enterprise',
        }, null, 2),
      }],
    };
  }

  throw new Error(`Unknown resource: ${uri}`);
});

// List available prompts
server.setRequestHandler(ListPromptsRequestSchema, async () => {
  return {
    prompts: [
      {
        name: 'system',
        description: 'System prompt for this server',
      },
    ],
  };
});

// Get prompt content
server.setRequestHandler(GetPromptRequestSchema, async (request) => {
  const { name } = request.params;

  if (name === 'system') {
    return {
      messages: [{
        role: 'user',
        content: {
          type: 'text',
          text: `You are an assistant with access to the " ++
  namePascal ++
  q " MCP server.

Available tools:
- hello: Greet someone by name
- health_check: Check server health status

Use these tools to help the user with their requests.`,
        },
      }],
    };
  }

  throw new Error(`Unknown prompt: ${name}`);
});

// Start the server
async function main() {
  const transport = new StdioServerTransport();
  await server.connect(transport);
  console.error('" ++
  namePascal ++
  q " MCP server running on stdio');
}

main().catch(console.error);
".

(** [go.mod] *)
Definition go_mod (nameSnake : string) : string :=
  q "module " ++
  nameSnake ++
  q "

go 1.21

require (
    github.com/mark3labs/mcp-go v0.6.0
)
".

(** [main.go] *)
Definition main_go (nameSnake : string) (namePascal : string) : string :=
  q "// " ++
  namePascal ++
  q " MCP Server
// Created with MCPForge
package main

import (
    ~context~
    ~fmt~
    ~log~

    ~github.com/mark3labs/mcp-go/mcp~
    ~github.com/mark3labs/mcp-go/server~
)

func main() {
    s := server.NewMCPServer(
        ~" ++
  nameSnake ++
  q "~,
        ~0.1.0~,
    )

    // Register tools
    s.AddTool(mcp.NewTool(~hello~,
        mcp.WithDescription(~Say hello to someone~),
        mcp.WithString(~name~,
            mcp.Description(~The name to greet~),
            mcp.DefaultString(~World~),
        ),
    ), helloHandler)

    s.AddTool(mcp.NewTool(~add~,
        mcp.WithDescription(~Add two numbers~),
        mcp.WithNumber(~a~, mcp.Description(~First number~), mcp.Required()),
        mcp.WithNumber(~b~, mcp.Description(~Second number~), mcp.Required()),
    ), addHandler)

    // Start server
    if err := server.ServeStdio(s); err != nil {
        log.Fatalf(~Server error: %v~, err)
    }
}

func helloHandler(ctx context.Context, request mcp.CallToolRequest) (*mcp.CallToolResult, error) {
    name, _ := request.Params.Arguments[~name~].(string)
    if name == ~~ {
        name = ~World~
    }

    return mcp.NewToolResultText(fmt.Sprintf(~Hello, %s!~, name)), nil
}

func addHandler(ctx context.Context, request mcp.CallToolRequest) (*mcp.CallToolResult, error) {
    a, _ := request.Params.Arguments[~a~].(float64)
    b, _ := request.Params.Arguments[~b~].(float64)

    return mcp.NewToolResultText(fmt.Sprintf(~%v~, a+b)), nil
}
".

(** [README.md] of a Go project *)
Definition go_readme (nameSnake : string) (namePascal : string) : string :=
  q "# " ++
  namePascal ++
  q "

MCP server created with [MCPForge](https://github.com/Richardmsbr/mcpforge).

## Installation

```bash
go mod tidy
```

## Usage

```bash
go run .
```

## Build

```bash
go build -o " ++
  nameSnake ++
  q "
```
".

(** [.gitignore] of a Go project *)
Definition go_gitignore (nameSnake : string) : string :=
  nameSnake ++
  q "
*.exe
.env
".

(** [Cargo.toml] *)
Definition cargo_toml (nameSnake : string) : string :=
  q "[package]
name = ~" ++
  nameSnake ++
  q "~
version = ~0.1.0~
edition = ~2021~
description = ~MCP server created with MCPForge~

[dependencies]
rmcp = { version = ~0.8~, features = [~server~] }
tokio = { version = ~1~, features = [~full~] }
serde = { version = ~1~, features = [~derive~] }
serde_json = ~1~
".

(** [src/main.rs] *)
Definition main_rs (nameSnake : string) (namePascal : string) : string :=
  q "//! " ++
  namePascal ++
  q " MCP Server
//! Created with MCPForge

use rmcp::{server::Server, tool, Error, Result};
use serde::{Deserialize, Serialize};

#[derive(Debug, Serialize, Deserialize)]
struct HelloArgs {
    #[serde(default = ~default_name~)]
    name: String,
}

fn default_name() -> String {
    ~World~.to_string()
}

#[derive(Debug, Serialize, Deserialize)]
struct AddArgs {
    a: f64,
    b: f64,
}

#[tool(name = ~hello~, description = ~Say hello to someone~)]
async fn hello(args: HelloArgs) -> Result<String> {
    Ok(format!(~Hello, {}!~, args.name))
}

#[tool(name = ~add~, description = ~Add two numbers~)]
async fn add(args: AddArgs) -> Result<String> {
    Ok(format!(~{}~, args.a + args.b))
}

#[tokio::main]
async fn main() -> Result<()> {
    let server = Server::new(~" ++
  nameSnake ++
  q "~, ~0.1.0~)
        .tool(hello)
        .tool(add);

    server.run_stdio().await
}
".

(** [README.md] of a Rust project *)
Definition rust_readme (namePascal : string) : string :=
  q "# " ++
  namePascal ++
  q "

MCP server created with [MCPForge](https://github.com/Richardmsbr/mcpforge).

## Installation

```bash
cargo build --release
```

## Usage

```bash
cargo run
```
".

(** [.gitignore] of a Rust project *)
Definition rust_gitignore : string :=
  q "target/
Cargo.lock
.env
".

Definition is_enterprise (pat : pattern) : bool :=
  String.eqb (pattern_name pat) "enterprise".

Definition generatePythonProject (projectPath : list string)
    (name nameSnake namePascal : string) (pat : pattern) (tr : transport)
    (fs : gmap (list string) node) : option (gmap (list string) node) :=
  let srcDir := path_join projectPath [nameSnake] in
  fs ← ensureDir fs srcDir;
  fs ← writeFile fs (path_join projectPath ["pyproject.toml"]) (pyproject_toml nameSnake);
  fs ← writeFile fs (path_join srcDir ["__init__.py"]) (python_init namePascal);
  fs ← writeFile fs (path_join srcDir ["__main__.py"])
         (python_main namePascal (transport_name tr));
  let serverContent :=
    if is_enterprise pat
    then generatePythonEnterpriseServer nameSnake namePascal
    else generatePythonBasicServer nameSnake namePascal in
  fs ← writeFile fs (path_join srcDir ["server.py"]) serverContent;
  fs ← writeFile fs (path_join projectPath ["README.md"]) (python_readme nameSnake namePascal);
  writeFile fs (path_join projectPath [".gitignore"]) python_gitignore.

Definition generateTypeScriptProject (projectPath : list string)
    (_name nameKebab namePascal : string) (pat : pattern) (_transport : transport)
    (fs : gmap (list string) node) : option (gmap (list string) node) :=
  let srcDir := path_join projectPath ["src"] in
  fs ← ensureDir fs srcDir;
  fs ← writeFile fs (path_join projectPath ["package.json"]) (package_json nameKebab);
  fs ← writeFile fs (path_join projectPath ["tsconfig.json"]) tsconfig_json;
  let serverContent :=
    if is_enterprise pat
    then generateTypeScriptEnterpriseServer nameKebab namePascal
    else generateTypeScriptBasicServer nameKebab namePascal in
  fs ← writeFile fs (path_join srcDir ["index.ts"]) serverContent;
  fs ← writeFile fs (path_join projectPath ["README.md"]) (typescript_readme namePascal);
  writeFile fs (path_join projectPath [".gitignore"]) typescript_gitignore.

Definition generateGoProject (projectPath : list string)
    (_name nameSnake namePascal : string) (_pattern : pattern) (_transport : transport)
    (fs : gmap (list string) node) : option (gmap (list string) node) :=
  fs ← writeFile fs (path_join projectPath ["go.mod"]) (go_mod nameSnake);
  fs ← writeFile fs (path_join projectPath ["main.go"]) (main_go nameSnake namePascal);
  fs ← writeFile fs (path_join projectPath ["README.md"]) (go_readme nameSnake namePascal);
  writeFile fs (path_join projectPath [".gitignore"]) (go_gitignore nameSnake).

Definition generateRustProject (projectPath : list string)
    (_name nameSnake namePascal : string) (_pattern : pattern) (_transport : transport)
    (fs : gmap (list string) node) : option (gmap (list string) node) :=
  let srcDir := path_join projectPath ["src"] in
  fs ← ensureDir fs srcDir;
  fs ← writeFile fs (path_join projectPath ["Cargo.toml"]) (cargo_toml nameSnake);
  fs ← writeFile fs (path_join srcDir ["main.rs"]) (main_rs nameSnake namePascal);
  fs ← writeFile fs (path_join projectPath ["README.md"]) (rust_readme namePascal);
  writeFile fs (path_join projectPath [".gitignore"]) rust_gitignore.

Definition generateProject (projectPath : list string) (name : string)
    (lang : language) (pat : pattern) (tr : transport)
    (fs : gmap (list string) node) : option (gmap (list string) node) :=
  let nameSnake := toSnakeCase name in
  let namePascal := toPascalCase name in
  let nameKebab := toKebabCase name in
  match lang with
  | python => generatePythonProject projectPath name nameSnake namePascal pat tr fs
  | typescript => generateTypeScriptProject projectPath name nameKebab namePascal pat tr fs
  | go => generateGoProject projectPath name nameSnake namePascal pat tr fs
  | rust => generateRustProject projectPath name nameSnake namePascal pat tr fs
  end.

(** The context [newCommand] hands to the materializer. *)
Definition template_context (name : string) (pat : pattern) (tr : transport)
  : list (string * string) :=
  [ ("projectName", name);
    ("projectNameSnake", toSnakeCase name);
    ("projectNamePascal", toPascalCase name);
    ("projectNameKebab", toKebabCase name);
    ("transport", transport_name tr);
    ("pattern", pattern_name pat) ].

Section NewCommand.
Variable Handlebars : string -> list (string * string) -> option string.

(** The file-system part of [newCommand], run without git initialisation
    and dependency installation.  [template] is what the resolver found
    under [templates/<lang>/<pattern>]: the listing of that directory, or
    [None] when it does not exist.  [None] as a result is the failure
    path of the command (exit status 1). *)
Definition newCommand (template : option (list entry)) (name : string)
    (lang : language) (pat : pattern) (tr : transport)
    (fs : gmap (list string) node) : option (gmap (list string) node) :=
  let projectPath := path_join [] [name] in
  if pathExists fs projectPath then None
  else
    fs ← ensureDir fs projectPath;
    match template with
    | Some files =>
        copyTemplateFiles Handlebars files projectPath (template_context name pat tr) fs
    | None => generateProject projectPath name lang pat tr fs
    end.
End NewCommand.

(** ** Language detector *)

Definition detectLanguage (fs : gmap (list string) node) (projectPath : list string)
  : option language :=
  if pathExists fs (path_join projectPath ["pyproject.toml"]) then Some python
  else if pathExists fs (path_join projectPath ["package.json"]) then Some typescript
  else if pathExists fs (path_join projectPath ["go.mod"]) then Some go
  else if pathExists fs (path_join projectPath ["Cargo.toml"]) then Some rust
  else None.

(** ** Static analyzer (the [diagram] command) *)

Record ProjectAnalysis := {
  name : string;
  language_of : language;
  tools : list string;
  resources : list string;
  prompts : list string;
}.

Definition push_tools (found : list string) (a : ProjectAnalysis) : ProjectAnalysis :=
  {| name := name a; language_of := language_of a; tools := tools a ++ found;
     resources := resources a; prompts := prompts a |}.

Definition push_resources (found : list string) (a : ProjectAnalysis) : ProjectAnalysis :=
  {| name := name a; language_of := language_of a; tools := tools a;
     resources := resources a ++ found; prompts := prompts a |}.

Definition push_prompts (found : list string) (a : ProjectAnalysis) : ProjectAnalysis :=
  {| name := name a; language_of := language_of a; tools := tools a;
     resources := resources a; prompts := prompts a ++ found |}.

(** [replace(/-/g, '_')] *)
Definition hyphens_to_underscores : string -> string :=
  replace_class is_hyphen (fun _ => "_").

Definition findFile (fs : gmap (list string) node) (basePath : list string)
    (filename : string) (subdir : option string) : option (list string) :=
  let paths :=
    match subdir with
    | Some d => [path_join basePath [d; filename]; path_join basePath [filename]]
    | None => [path_join basePath [filename]]
    end in
  let projectName := hyphens_to_underscores (basename basePath) in
  let paths := paths ++ [path_join basePath [projectName; filename]] in
  List.find (pathExists fs) paths.

(** The patterns of the analyzer; in the comments [~] stands for the double
    quote, as in the templates. *)

(** [\s*\n\s*] *)
Definition blank_line : list tok :=
  [Atom is_space Star; Atom is_newline Once; Atom is_space Star].

(** [/@server\.tool\(\)\s*\n\s*async def (\w+)/g] *)
Definition python_tool_re : list tok :=
  lit "@server.tool()" ++ blank_line ++ lit "async def " ++ [Open; Atom is_word Plus; Close].

(** [/@server\.resource\(['~](.*?)['~]\)/g] *)
Definition python_resource_re : list tok :=
  lit "@server.resource(" ++
  [Atom is_quote Once; Open; Atom is_dot LazyStar; Close; Atom is_quote Once] ++ lit ")".

(** [/@server\.prompt\(\)\s*\n\s*async def (\w+)/g] *)
Definition python_prompt_re : list tok :=
  lit "@server.prompt()" ++ blank_line ++ lit "async def " ++ [Open; Atom is_word Plus; Close].

(** [/server\.tool\(\{[\s\S]*?name:\s*['~](\w+)['~]/g] *)
Definition typescript_tool_re : list tok :=
  lit "server.tool({" ++ [Atom is_any LazyStar] ++ lit "name:" ++
  [Atom is_space Star; Atom is_quote Once; Open; Atom is_word Plus; Close; Atom is_quote Once].

(** [/server\.resource\(\{[\s\S]*?uri:\s*['~]([^'~]+)['~]/g] *)
Definition typescript_resource_re : list tok :=
  lit "server.resource({" ++ [Atom is_any LazyStar] ++ lit "uri:" ++
  [Atom is_space Star; Atom is_quote Once; Open; Atom is_not_quote Plus; Close; Atom is_quote Once].

(** [/server\.prompt\(\{[\s\S]*?name:\s*['~](\w+)['~]/g] *)
Definition typescript_prompt_re : list tok :=
  lit "server.prompt({" ++ [Atom is_any LazyStar] ++ lit "name:" ++
  [Atom is_space Star; Atom is_quote Once; Open; Atom is_word Plus; Close; Atom is_quote Once].

(** [/mcp\.NewTool\(['~]([\w-]+)['~]/g] *)
Definition go_tool_re : list tok :=
  lit "mcp.NewTool(" ++
  [Atom is_quote Once; Open; Atom is_word_or_hyphen Plus; Close; Atom is_quote Once].

(** [/#\[tool\(name\s*=\s*['~]([\w-]+)['~]/g] *)
Definition rust_tool_re : list tok :=
  lit "#[tool(name" ++ [Atom is_space Star] ++ lit "=" ++
  [Atom is_space Star; Atom is_quote Once; Open; Atom is_word_or_hyphen Plus; Close;
   Atom is_quote Once].

Definition analyzePython (fs : gmap (list string) node) (projectPath : list string)
    (analysis : ProjectAnalysis) : option ProjectAnalysis :=
  match findFile fs projectPath "server.py" None with
  | None => Some analysis
  | Some serverFile =>
      content ← readFile fs serverFile;
      let analysis := push_tools (matchAll python_tool_re content) analysis in
      let analysis := push_resources (matchAll python_resource_re content) analysis in
      Some (push_prompts (matchAll python_prompt_re content) analysis)
  end.

Definition analyzeTypeScript (fs : gmap (list string) node) (projectPath : list string)
    (analysis : ProjectAnalysis) : option ProjectAnalysis :=
  match findFile fs projectPath "index.ts" (Some "src") with
  | None => Some analysis
  | Some indexFile =>
      content ← readFile fs indexFile;
      let analysis := push_tools (matchAll typescript_tool_re content) analysis in
      let analysis := push_resources (matchAll typescript_resource_re content) analysis in
      Some (push_prompts (matchAll typescript_prompt_re content) analysis)
  end.

Definition analyzeGo (fs : gmap (list string) node) (projectPath : list string)
    (analysis : ProjectAnalysis) : option ProjectAnalysis :=
  let mainFile := path_join projectPath ["main.go"] in
  if negb (pathExists fs mainFile) then Some analysis
  else
    content ← readFile fs mainFile;
    Some (push_tools (matchAll go_tool_re content) analysis).

Definition analyzeRust (fs : gmap (list string) node) (projectPath : list string)
    (analysis : ProjectAnalysis) : option ProjectAnalysis :=
  let mainFile := path_join projectPath ["src"; "main.rs"] in
  if negb (pathExists fs mainFile) then Some analysis
  else
    content ← readFile fs mainFile;
    Some (push_tools (matchAll rust_tool_re content) analysis).

Definition analyzeProject (fs : gmap (list string) node) (projectPath : list string)
    (lang : language) : option ProjectAnalysis :=
  let analysis :=
    {| name := basename projectPath; language_of := lang;
       tools := []; resources := []; prompts := [] |} in
  match lang with
  | python => analyzePython fs projectPath analysis
  | typescript => analyzeTypeScript fs projectPath analysis
  | go => analyzeGo fs projectPath analysis
  | rust => analyzeRust fs projectPath analysis
  end.

(** ** Structural validator (the [validate] command) *)

Record ValidationResult := {
  valid : bool;
  errors : list string;
  warnings : list string;
}.

(** [result.errors.push(msg)], [result.valid = false] and
    [result.warnings.push(msg)]. *)
Definition push_error (msg : string) (r : ValidationResult) : ValidationResult :=
  {| valid := valid r; errors := errors r ++ [msg]; warnings := warnings r |}.

Definition set_invalid (r : ValidationResult) : ValidationResult :=
  {| valid := false; errors := errors r; warnings := warnings r |}.

Definition push_warning (msg : string) (r : ValidationResult) : ValidationResult :=
  {| valid := valid r; errors := errors r; warnings := warnings r ++ [msg] |}.

Definition validateCommon (fs : gmap (list string) node) (projectPath : list string)
    (result : ValidationResult) : ValidationResult :=
  let result :=
    if negb (pathExists fs (path_join projectPath ["README.md"]))
    then push_warning "Missing README.md" result else result in
  let result :=
    if negb (pathExists fs (path_join projectPath [".gitignore"]))
    then push_warning "Missing .gitignore" result else result in
  if pathExists fs (path_join projectPath [".env"])
  then push_warning ".env file found - ensure it is in .gitignore" result else result.

Definition validatePython (fs : gmap (list string) node) (projectPath : list string)
    (result : ValidationResult) : option ValidationResult :=
  let pyprojectPath := path_join projectPath ["pyproject.toml"] in
  if negb (pathExists fs pyprojectPath)
  then Some (set_invalid (push_error "Missing pyproject.toml" result))
  else
    pyproject ← readFile fs pyprojectPath;
    let result :=
      if negb (includes pyproject "mcp") && negb (includes pyproject "fastmcp")
      then set_invalid (push_error "Missing MCP dependency (mcp or fastmcp)" result)
      else result in
    let result :=
      if negb (includes pyproject "requires-python")
      then push_warning "Missing requires-python in pyproject.toml" result
      else result in
    let projectName := hyphens_to_underscores (basename projectPath) in
    let serverPaths :=
      [ path_join projectPath [projectName; "server.py"];
        path_join projectPath ["src"; "server.py"];
        path_join projectPath ["server.py"] ] in
    match List.find (pathExists fs) serverPaths with
    | Some serverPath =>
        content ← readFile fs serverPath;
        Some (if negb (includes content "@server.tool") && negb (includes content ".tool(")
              then push_warning "No tools defined in server" result
              else result)
    | None => Some (set_invalid (push_error "Missing server.py file" result))
    end.

(** Values of [JSON.parse].  An object lists one binding per key. *)
Inductive json :=
| JNull
| JBool (b : bool)
| JNumber (x : Q)
| JString (s : string)
| JArray (items : list json)
| JObject (members : list (string * json)).

Fixpoint assoc (key : string) (members : list (string * json)) : option json :=
  match members with
  | [] => None
  | (k, v) :: rest => if String.eqb k key then Some v else assoc key rest
  end.

(** [value.key] for a key that no prototype defines: it throws on [null],
    and is [undefined] on everything but an object that has the key. *)
Definition get_property (value : json) (key : string) : option (option json) :=
  match value with
  | JNull => None
  | JObject members => Some (assoc key members)
  | _ => Some None
  end.

(** [{...first, ...second}[key]] for a key that is not an array index:
    only objects contribute, and the second spread overrides the first. *)
Definition spread_lookup (first second : option json) (key : string) : option json :=
  let own (v : option json) :=
    match v with
    | Some (JObject members) => assoc key members
    | _ => None
    end in
  match own second with
  | Some v => Some v
  | None => own first
  end.

(** JavaScript truthiness of a looked-up value; [None] is [undefined]. *)
Definition truthy (v : option json) : bool :=
  match v with
  | None | Some JNull => false
  | Some (JBool b) => b
  | Some (JNumber x) => negb (Qeq_bool x 0)
  | Some (JString s) => nonempty s
  | Some (JArray _) | Some (JObject _) => true
  end.

Section Validator.
(** [JSON.parse]; [None] when it throws. *)
Variable JSON_parse : string -> option json.

Definition validateTypeScript (fs : gmap (list string) node) (projectPath : list string)
    (result : ValidationResult) : option ValidationResult :=
  let packagePath := path_join projectPath ["package.json"] in
  if negb (pathExists fs packagePath)
  then Some (set_invalid (push_error "Missing package.json" result))
  else
    text ← readFile fs packagePath;
    packageJson ← JSON_parse text;
    dependencies ← get_property packageJson "dependencies";
    devDependencies ← get_property packageJson "devDependencies";
    let result :=
      if negb (truthy (spread_lookup dependencies devDependencies "@modelcontextprotocol/sdk"))
      then set_invalid (push_error "Missing MCP dependency (@modelcontextprotocol/sdk)" result)
      else result in
    let result :=
      if negb (pathExists fs (path_join projectPath ["tsconfig.json"]))
      then push_warning "Missing tsconfig.json" result
      else result in
    let indexPath := path_join projectPath ["src"; "index.ts"] in
    if negb (pathExists fs indexPath)
    then Some (set_invalid (push_error "Missing src/index.ts" result))
    else
      content ← readFile fs indexPath;
      Some (if negb (includes content "ListToolsRequestSchema") && negb (includes content ".tool(")
            then push_warning "No tools defined in server" result
            else result).

Definition validateGo (fs : gmap (list string) node) (projectPath : list string)
    (result : ValidationResult) : option ValidationResult :=
  let goModPath := path_join projectPath ["go.mod"] in
  if negb (pathExists fs goModPath)
  then Some (set_invalid (push_error "Missing go.mod" result))
  else
    goMod ← readFile fs goModPath;
    let result :=
      if negb (includes goMod "mcp-go") && negb (includes goMod "go-sdk")
      then set_invalid (push_error "Missing MCP dependency (mcp-go or go-sdk)" result)
      else result in
    let mainPath := path_join projectPath ["main.go"] in
    if negb (pathExists fs mainPath)
    then Some (set_invalid (push_error "Missing main.go" result))
    else
      content ← readFile fs mainPath;
      Some (if negb (includes content "AddTool")
            then push_warning "No tools defined in server" result
            else result).

Definition validateRust (fs : gmap (list string) node) (projectPath : list string)
    (result : ValidationResult) : option ValidationResult :=
  let cargoPath := path_join projectPath ["Cargo.toml"] in
  if negb (pathExists fs cargoPath)
  then Some (set_invalid (push_error "Missing Cargo.toml" result))
  else
    cargo ← readFile fs cargoPath;
    let result :=
      if negb (includes cargo "rmcp")
      then set_invalid (push_error "Missing MCP dependency (rmcp)" result)
      else result in
    let mainPath := path_join projectPath ["src"; "main.rs"] in
    if negb (pathExists fs mainPath)
    then Some (set_invalid (push_error "Missing src/main.rs" result))
    else
      content ← readFile fs mainPath;
      Some (if negb (includes content "#[tool")
            then push_warning "No tools defined in server" result
            else result).

Definition validateProject (fs : gmap (list string) node) (projectPath : list string)
    (lang : language) : option ValidationResult :=
  let result := {| valid := true; errors := []; warnings := [] |} in
  let result := validateCommon fs projectPath result in
  match lang with
  | python => validatePython fs projectPath result
  | typescript => validateTypeScript fs projectPath result
  | go => validateGo fs projectPath result
  | rust => validateRust fs projectPath result
  end.
End Validator.

(** ** Incremental add (the [add] command) *)

Inductive AddType := tool | resource | prompt.

Definition AddType_name (t : AddType) : string :=
  match t with
  | tool => "tool"
  | resource => "resource"
  | prompt => "prompt"
  end.

Definition SUPPORTED_TYPES : list AddType := [tool; resource; prompt].

(** [SUPPORTED_TYPES.includes(type)] together with the cast [type as AddType]. *)
Definition parse_AddType (type : string) : option AddType :=
  List.find (fun t => String.eqb (AddType_name t) type) SUPPORTED_TYPES.

Definition python_tool_snippet (name : string) (nameSnake : string) : string :=
  q "@server.tool()
async def " ++
  nameSnake ++
  q "(param: str) -> str:
    ~~~Description of " ++
  name ++
  q ".

    Args:
        param: Description of parameter

    Returns:
        Description of return value
    ~~~
    # Implementation here
    return f~Result: {param}~".

Definition python_resource_snippet (name : string) (nameSnake : string) : string :=
  q "@server.resource(~resource://" ++
  nameSnake ++
  q "~)
async def " ++
  nameSnake ++
  q "_resource() -> str:
    ~~~Get " ++
  name ++
  q " resource.~~~
    return ~~~
    {
        ~key~: ~value~
    }
    ~~~".

Definition python_prompt_snippet (name : string) (nameSnake : string) : string :=
  q "@server.prompt()
async def " ++
  nameSnake ++
  q "_prompt() -> str:
    ~~~" ++
  name ++
  q " prompt template.~~~
    return ~~~Your prompt template here.

Use {{variable}} for template variables.~~~".

Definition typescript_tool_snippet (name : string) : string :=
  q "// Add to ListToolsRequestSchema handler:
{
  name: '" ++
  name ++
  q "',
  description: 'Description of " ++
  name ++
  q "',
  inputSchema: {
    type: 'object',
    properties: {
      param: { type: 'string', description: 'Description of parameter' },
    },
    required: ['param'],
  },
}

// Add to CallToolRequestSchema handler switch:
case '" ++
  name ++
  q "': {
  const { param } = args as { param: string };
  return { content: [{ type: 'text', text: `Result: ${param}` }] };
}".

Definition typescript_resource_snippet (name : string) : string :=
  q "// Add to ListResourcesRequestSchema handler:
{
  uri: 'resource://" ++
  name ++
  q "',
  name: '" ++
  name ++
  q "',
  description: 'Description of " ++
  name ++
  q " resource',
  mimeType: 'application/json',
}

// Add to ReadResourceRequestSchema handler:
if (uri === 'resource://" ++
  name ++
  q "') {
  return {
    contents: [{
      uri,
      mimeType: 'application/json',
      text: JSON.stringify({ key: 'value' }, null, 2),
    }],
  };
}".

Definition typescript_prompt_snippet (name : string) : string :=
  q "// Add to ListPromptsRequestSchema handler:
{
  name: '" ++
  name ++
  q "',
  description: '" ++
  name ++
  q " prompt template',
}

// Add to GetPromptRequestSchema handler:
if (name === '" ++
  name ++
  q "') {
  return {
    messages: [{
      role: 'user',
      content: { type: 'text', text: 'Your prompt template here.' },
    }],
  };
}".

Definition go_tool_snippet (name : string) (namePascal : string) : string :=
  q "// Add tool registration
s.AddTool(mcp.NewTool(~" ++
  name ++
  q "~,
    mcp.WithDescription(~Description of " ++
  name ++
  q "~),
    mcp.WithString(~param~, mcp.Description(~Description of parameter~)),
), " ++
  toLowerCase namePascal ++
  q "Handler)

// Add handler function
func " ++
  toLowerCase namePascal ++
  q "Handler(ctx context.Context, request mcp.CallToolRequest) (*mcp.CallToolResult, error) {
    param, _ := request.Params.Arguments[~param~].(string)
    return mcp.NewToolResultText(fmt.Sprintf(~Result: %s~, param)), nil
}".

Definition go_resource_snippet : string :=
  q "// Resource support requires additional implementation in mcp-go".

Definition go_prompt_snippet : string :=
  q "// Prompt support requires additional implementation in mcp-go".

Definition rust_tool_snippet (name : string) (nameSnake : string) (namePascal : string) : string :=
  q "#[derive(Debug, Serialize, Deserialize)]
struct " ++
  namePascal ++
  q "Args {
    param: String,
}

#[tool(name = ~" ++
  name ++
  q "~, description = ~Description of " ++
  name ++
  q "~)]
async fn " ++
  nameSnake ++
  q "(args: " ++
  namePascal ++
  q "Args) -> Result<String> {
    Ok(format!(~Result: {}~, args.param))
}

// Add to server builder:
// .tool(" ++
  nameSnake ++
  q ")".

Definition rust_resource_snippet : string :=
  q "// Resource support - implement custom handler".

Definition rust_prompt_snippet : string :=
  q "// Prompt support - implement custom handler".

(** [name.split('-').map(w => w.charAt(0).toUpperCase() + w.slice(1)).join('')] *)
Definition snippet_pascal (name : string) : string :=
  join_empty (map (fun w => (toUpperCase (charAt0 w) ++ slice1 w)%string) (split_class is_hyphen name)).

(** [name.replace(/-/g, '_').toLowerCase()] *)
Definition snippet_snake (name : string) : string :=
  toLowerCase (hyphens_to_underscores name).

Definition generatePythonSnippet (type : AddType) (name : string) : string :=
  let nameSnake := snippet_snake name in
  match type with
  | tool => python_tool_snippet name nameSnake
  | resource => python_resource_snippet name nameSnake
  | prompt => python_prompt_snippet name nameSnake
  end.

Definition generateTypeScriptSnippet (type : AddType) (name : string) : string :=
  match type with
  | tool => typescript_tool_snippet name
  | resource => typescript_resource_snippet name
  | prompt => typescript_prompt_snippet name
  end.

Definition generateGoSnippet (type : AddType) (name : string) : string :=
  let namePascal := snippet_pascal name in
  match type with
  | tool => go_tool_snippet name namePascal
  | resource => go_resource_snippet
  | prompt => go_prompt_snippet
  end.

Definition generateRustSnippet (type : AddType) (name : string) : string :=
  let nameSnake := snippet_snake name in
  let namePascal := snippet_pascal name in
  match type with
  | tool => rust_tool_snippet name nameSnake namePascal
  | resource => rust_resource_snippet
  | prompt => rust_prompt_snippet
  end.

(** What a command can do to its surroundings: the files on disk, the
    lines it printed (colours left out) and, once it has called
    [process.exit], the exit status. *)
Inductive output :=
| Log (line : string)
| Error (line : string)
| Spinner (text : string).

Record world := {
  files : gmap (list string) node;
  console : list output;
  exited : option nat;
}.

Definition print (o : output) (w : world) : world :=
  {| files := files w; console := console w ++ [o]; exited := exited w |}.

Definition exit (status : nat) (w : world) : world :=
  {| files := files w; console := console w; exited := Some status |}.

Definition addToPython (serverPath : list string) (type : AddType) (name : string)
    (w : world) : world :=
  let snippet := generatePythonSnippet type name in
  let w := print (Log "") w in
  let w := print (Log "Add this to your server.py:") w in
  let w := print (Log "") w in
  print (Log snippet) w.

Definition addToTypeScript (serverPath : list string) (type : AddType) (name : string)
    (w : world) : world :=
  let snippet := generateTypeScriptSnippet type name in
  let w := print (Log "") w in
  let w := print (Log "Add this to your src/index.ts:") w in
  let w := print (Log "") w in
  print (Log snippet) w.

Definition addToGo (serverPath : list string) (type : AddType) (name : string)
    (w : world) : world :=
  let snippet := generateGoSnippet type name in
  let w := print (Log "") w in
  let w := print (Log "Add this to your main.go:") w in
  let w := print (Log "") w in
  print (Log snippet) w.

Definition addToRust (serverPath : list string) (type : AddType) (name : string)
    (w : world) : world :=
  let snippet := generateRustSnippet type name in
  let w := print (Log "") w in
  let w := print (Log "Add this to your src/main.rs:") w in
  let w := print (Log "") w in
  print (Log snippet) w.

(** [addCommand(type, name, {server})]; [server] is the resolved path of the
    project. *)
Definition addCommand (type name : string) (server : list string) (w : world) : world :=
  match parse_AddType type with
  | None =>
      let w := print (Error ("Unsupported type: " ++ type)) w in
      let w := print (Log "Supported types: tool, resource, prompt") w in
      exit 1 w
  | Some addType =>
      let serverPath := server in
      if negb (pathExists (files w) serverPath) then
        exit 1 (print (Error ("Server path not found: " ++ show_path serverPath)) w)
      else
        match detectLanguage (files w) serverPath with
        | None =>
            let w := print (Error "Could not detect project language") w in
            let w := print (Log "Make sure you are in an MCP server project directory") w in
            exit 1 w
        | Some lang =>
            let w := print (Log "") w in
            let w := print (Log ("MCPForge - Adding " ++ type)) w in
            let w := print (Log "") w in
            let w := print (Log ("  Type:     " ++ type)) w in
            let w := print (Log ("  Name:     " ++ name)) w in
            let w := print (Log ("  Language: " ++ language_name lang)) w in
            let w := print (Log "") w in
            let w := print (Spinner ("Adding " ++ type ++ q " ~" ++ name ++ q "~...")) w in
            let w :=
              match lang with
              | python => addToPython serverPath addType name w
              | typescript => addToTypeScript serverPath addType name w
              | go => addToGo serverPath addType name w
              | rust => addToRust serverPath addType name w
              end in
            let w := print (Spinner (type ++ q " ~" ++ name ++ q "~ added successfully")) w in
            let w := print (Log "") w in
            let w := print (Log ("Edit the generated code in your server file to customize the "
                                 ++ type ++ ".")) w in
            print (Log "") w
        end
  end.

(** ** Matching a text whose continuation is not known

    The generated files are literal texts with names in between.  [exec_open]
    runs a pattern on a literal piece like [exec], and answers [Unknown] when
    the outcome depends on what follows the piece. *)

Inductive outcome :=
| Matched (cap rest : string)
| Failed
| Unknown.

Section RepeatOpen.
Variable c : ascii -> bool.
Variable ing : bool.
Variable k : list ascii -> string -> outcome.

Fixpoint greedy_open (acc : list ascii) (s : string) : outcome :=
  match s with
  | String a s' =>
      if c a then
        match greedy_open (push ing a acc) s' with
        | Failed => k acc s
        | decided => decided
        end
      else k acc s
  | EmptyString => Unknown
  end.

Fixpoint lazy_open (acc : list ascii) (s : string) : outcome :=
  match k acc s with
  | Failed =>
      match s with
      | String a s' => if c a then lazy_open (push ing a acc) s' else Failed
      | EmptyString => Unknown
      end
  | decided => decided
  end.
End RepeatOpen.

Fixpoint exec_open (r : list tok) (ing : bool) (acc : list ascii) (s : string) : outcome :=
  match r with
  | [] => Matched (string_of_list_ascii (rev acc)) s
  | Open :: r' => exec_open r' true acc s
  | Close :: r' => exec_open r' false acc s
  | Atom c Once :: r' =>
      match s with
      | String a s' => if c a then exec_open r' ing (push ing a acc) s' else Failed
      | EmptyString => Unknown
      end
  | Atom c Star :: r' => greedy_open c ing (exec_open r' ing) acc s
  | Atom c LazyStar :: r' => lazy_open c ing (exec_open r' ing) acc s
  | Atom c Plus :: r' =>
      match s with
      | String a s' =>
          if c a then greedy_open c ing (exec_open r' ing) (push ing a acc) s' else Failed
      | EmptyString => Unknown
      end
  end.

(** The captures that [matchAll_from] finds in the piece [t], with the number
    of characters still to pass in what follows; [None] when a match could
    reach beyond the piece. *)
Fixpoint scan_from (r : list tok) (skip : nat) (t : string) : option (list string * nat) :=
  match t with
  | EmptyString => Some ([], skip)
  | String _ t' =>
      match skip with
      | S n => scan_from r n t'
      | O =>
          match exec_open r false [] t with
          | Matched cap rest =>
              match scan_from r (String.length t - String.length rest - 1) t' with
              | Some (caps, k) => Some (cap :: caps, k)
              | None => None
              end
          | Failed => scan_from r 0 t'
          | Unknown => None
          end
      end
  end.

(** What [exec_open] decides on a piece holds of every text that begins
    with the piece. *)
Definition agrees (k3 : list ascii -> string -> outcome)
    (k : list ascii -> string -> option (string * string)) : Prop :=
  forall acc s w,
    match k3 acc s with
    | Matched cap rest => k acc (s ++ w)%string = Some (cap, (rest ++ w)%string)
    | Failed => k acc (s ++ w)%string = None
    | Unknown => True
    end.

(** [blocked p b]: a match of the literal [p] that has begun inside a name
    cannot go on with the character [b]: [p] asks for something else at
    every position up to its first character that no name has. *)
Fixpoint blocked (p : string) (b : ascii) : bool :=
  match p with
  | EmptyString => false
  | String c p' => negb (Ascii.eqb c b) && (negb (is_name_char c) || blocked p' b)
  end.

Definition head_blocked (p : string) (w : string) : bool :=
  match w with
  | String b _ => blocked p b
  | EmptyString => false
  end.

(** ** Vocabulary of the validation properties *)

(** The manifest that identifies a language. *)
Definition manifest_file (lang : language) : string :=
  match lang with
  | python => "pyproject.toml"
  | typescript => "package.json"
  | go => "go.mod"
  | rust => "Cargo.toml"
  end.

(** The places where the validator looks for the entry point. *)
Definition entry_point_paths (lang : language) (projectPath : list string)
  : list (list string) :=
  match lang with
  | python =>
      [ path_join projectPath [hyphens_to_underscores (basename projectPath); "server.py"];
        path_join projectPath ["src"; "server.py"];
        path_join projectPath ["server.py"] ]
  | typescript => [path_join projectPath ["src"; "index.ts"]]
  | go => [path_join projectPath ["main.go"]]
  | rust => [path_join projectPath ["src"; "main.rs"]]
  end.

Definition entry_point_file (lang : language) : string :=
  match lang with
  | python => "server.py"
  | typescript => "src/index.ts"
  | go => "main.go"
  | rust => "src/main.rs"
  end.

(** The manifest text declares the MCP dependency the validator asks for. *)
Definition declares_mcp_dependency (JSON_parse : string -> option json)
    (lang : language) (manifest : string) : bool :=
  match lang with
  | python => includes manifest "mcp" || includes manifest "fastmcp"
  | typescript =>
      match JSON_parse manifest with
      | Some packageJson =>
          match get_property packageJson "dependencies",
                get_property packageJson "devDependencies" with
          | Some dependencies, Some devDependencies =>
              truthy (spread_lookup dependencies devDependencies "@modelcontextprotocol/sdk")
          | _, _ => false
          end
      | None => false
      end
  | go => includes manifest "mcp-go" || includes manifest "go-sdk"
  | rust => includes manifest "rmcp"
  end.

(** The paths that validation reads when they exist. *)
Definition read_paths (lang : language) (projectPath : list string) : list (list string) :=
  path_join projectPath [manifest_file lang] :: entry_point_paths lang projectPath.

(** ** Vocabulary of the materializer properties *)

(** [has_file files rel content]: the template tree listed by [files] holds
    a file with text [content] at the relative path [rel]. *)
Inductive has_file : list entry -> list string -> string -> Prop :=
| has_file_here files name content :
    In (TemplateFile name content) files ->
    has_file files [name] content
| has_file_below files dir children rel content :
    In (TemplateDir dir children) files ->
    has_file children rel content ->
    has_file files (dir :: rel) content.

(** Where the materializer puts what the template holds at [rel]. *)
Fixpoint materialized_path (context : list (string * string)) (targetPath rel : list string)
  : list string :=
  match rel with
  | [] => targetPath
  | seg :: rel' =>
      materialized_path context
        (path_join targetPath [strip_suffix ".hbs" (substitute_name context seg)]) rel'
  end.

Definition is_file (fs : gmap (list string) node) (p : list string) : Prop :=
  exists content, fs !! p = Some (File content).

(** ** Vocabulary of the generation properties *)

(** [content] mentions [word], letter case apart. *)
Definition mentions (content word : string) : bool :=
  includes (toLowerCase content) word.

(** What an enterprise server has to show in any language: a health check,
    a prompt, an environment flag and a shutdown step are named in it. *)
Definition names_enterprise_features (content : string) : bool :=
  mentions content "health" && mentions content "prompt"
  && mentions content "env" && mentions content "shutdown".

(** The enterprise additions as the Python generator writes them, next to
    the greeting tool and the settings resource. *)
Definition python_enterprise_content (content : string) : bool :=
  includes content "@asynccontextmanager
async def lifespan(server: FastMCP)"
  && includes content "    lifespan=lifespan,"
  && includes content (q "logger.info(~Shutting down ")
  && includes content "@server.tool()
async def health_check()"
  && includes content (q "if os.getenv(~OAUTH2_ENABLED~):
    server.use_auth(OAuth2Provider(")
  && includes content "@server.prompt()
async def system_prompt()"
  && includes content "@server.tool()
async def hello("
  && includes content (q "@server.resource(~config://settings~)").

(** The enterprise additions as the TypeScript generator writes them. *)
Definition typescript_enterprise_content (content : string) : bool :=
  includes content "        name: 'health_check',"
  && includes content "    case 'health_check': {"
  && includes content "server.setRequestHandler(ListPromptsRequestSchema,"
  && includes content "        name: 'system',"
  && includes content "        name: 'hello',"
  && includes content "        uri: 'config://settings',".

(** The identifiers that the generated servers register. *)
Definition emitted_tools (lang : language) (pat : pattern) : list string :=
  match lang with
  | python | typescript => if is_enterprise pat then ["hello"; "health_check"] else ["hello"; "add"]
  | go | rust => ["hello"; "add"]
  end.

Definition emitted_resources (lang : language) : list string :=
  match lang with
  | python | typescript => ["config://settings"]
  | go | rust => []
  end.

Definition emitted_prompts (lang : language) (pat : pattern) : list string :=
  match lang with
  | python => if is_enterprise pat then ["system_prompt"] else []
  | typescript => if is_enterprise pat then ["system"] else []
  | go | rust => []
  end.

(** The invariant that ties [valid] to [errors]. *)
Definition consistent (r : ValidationResult) : Prop :=
  valid r = true <-> errors r = [].

(** Nothing stands at [projectPath] or below it. *)
Definition fresh (fs : gmap (list string) node) (projectPath : list string) : Prop :=
  forall p, fs !! (projectPath ++ p) = None.

(** A package directory of this name would stand where the generator writes
    one of the project's own files. *)
Definition clashes (nameSnake : string) : bool :=
  String.eqb nameSnake "pyproject.toml" || String.eqb nameSnake "README.md"
  || String.eqb nameSnake ".gitignore".

(** ** Diagram synthesizer (the [diagram] command) *)

(** [`${i}`] for an array index. *)
Definition index_text (i : nat) : string := NilEmpty.string_of_uint (Nat.to_uint i).

Definition newline : string := String (ascii_of_nat 10) EmptyString.

(** [lines.join('\n')] *)
Fixpoint join_lines (lines : list string) : string :=
  match lines with
  | [] => EmptyString
  | [line] => line
  | line :: rest => line ++ newline ++ join_lines rest
  end.

(** The block that [generateMermaidDiagram] writes for one kind of
    capability; the source has it three times, with [T], [R] and [P] for
    the node ids. *)
Definition capability_lines (title id : string) (items : list string) : list string :=
  if (0 <? length items)%nat then
    [(q "        subgraph ~" ++ title ++ q "~")%string]
    ++ imap (fun i item =>
               ("            " ++ id ++ index_text i ++ q "[~" ++ item ++ q "~]")%string) items
    ++ ["        end"]
    ++ imap (fun i _ => ("        SERVER --> " ++ id ++ index_text i)%string) items
  else [].

Definition diagram_lines (analysis : ProjectAnalysis) : list string :=
  [ "graph TB";
    (q "    subgraph ~" ++ name analysis ++ q " MCP Server~")%string;
    "        direction TB" ]
  ++ [ (q "        SERVER[(~" ++ name analysis ++ "<br/>Language: "
        ++ language_name (language_of analysis) ++ q "~)]")%string ]
  ++ capability_lines "Tools" "T" (tools analysis)
  ++ capability_lines "Resources" "R" (resources analysis)
  ++ capability_lines "Prompts" "P" (prompts analysis)
  ++ [ "    end";
       q "    CLIENT[(~MCP Client<br/>(Claude, etc.)~)]";
       q "    CLIENT <-->|~MCP Protocol~| SERVER" ].

Definition generateMermaidDiagram (analysis : ProjectAnalysis) : string :=
  join_lines (diagram_lines analysis).

Inductive diagram_format := svg | png | mermaid.

Definition diagram_format_name (f : diagram_format) : string :=
  match f with
  | svg => "svg"
  | png => "png"
  | mermaid => "mermaid"
  end.

(** A relative path as the user gave it. *)
Definition relative_path (p : list string) : string :=
  match p with
  | [] => EmptyString
  | seg :: rest => fold_left (fun text s => (text ++ "/" ++ s)%string) rest seg
  end.

Section Commands.
(** [JSON.parse], and the message of the error that a file-system call or
    the parser has thrown and the command has caught. *)
Variable JSON_parse : string -> option json.
Variable caught_message : string.

(** [diagramCommand(project, {output, file})]: [project] is the resolved
    project path, [file] the path of the [--file] option by its segments,
    [None] when the option is absent or empty. *)
Definition diagramCommand (project : list string) (output : diagram_format)
    (file : option (list string)) (w : world) : world :=
  let projectPath := project in
  if negb (pathExists (files w) projectPath) then
    exit 1 (print (Error ("Project path not found: " ++ show_path projectPath)) w)
  else
    let w := print (Log "") w in
    let w := print (Log "MCPForge - Generating diagram") w in
    let w := print (Log "") w in
    let w := print (Spinner "Analyzing project structure...") w in
    let failed (w : world) :=
      let w := print (Spinner "Failed to generate diagram") w in
      exit 1 (print (Error caught_message) w) in
    match detectLanguage (files w) projectPath with
    | None => exit 1 (print (Spinner "Could not detect project language") w)
    | Some lang =>
        match analyzeProject (files w) projectPath lang with
        | None => failed w
        | Some analysis =>
            let w := print (Spinner "Generating diagram...") w in
            let mermaidCode := generateMermaidDiagram analysis in
            match output, file with
            | mermaid, _ | _, None =>
                let w := print (Spinner "Diagram generated") w in
                let w := print (Log "") w in
                let w := print (Log "Mermaid diagram:") w in
                let w := print (Log "") w in
                let w := print (Log mermaidCode) w in
                let w := print (Log "") w in
                print (Log "Paste this into https://mermaid.live to visualize") w
            | _, Some outputPath =>
                match writeFile (files w) outputPath mermaidCode with
                | None => failed w
                | Some fs' =>
                    print (Spinner ("Diagram saved to " ++ relative_path outputPath))
                      {| files := fs'; console := console w; exited := exited w |}
                end
            end
        end
    end.

(** [validateCommand(project, _options)]; the options, [--fix] among them,
    are not read. *)
Definition validateCommand (project : list string) (fix_option : bool) (w : world) : world :=
  let projectPath := project in
  if negb (pathExists (files w) projectPath) then
    exit 1 (print (Error ("Project path not found: " ++ show_path projectPath)) w)
  else
    let w := print (Log "") w in
    let w := print (Log "MCPForge - Validating project") w in
    let w := print (Log "") w in
    let w := print (Spinner "Analyzing project...") w in
    match detectLanguage (files w) projectPath with
    | None => exit 1 (print (Spinner "Could not detect project language") w)
    | Some lang =>
        match validateProject JSON_parse (files w) projectPath lang with
        | None =>
            let w := print (Spinner "Validation failed") w in
            exit 1 (print (Error caught_message) w)
        | Some result =>
            if valid result && (length (warnings result) =? 0)%nat then
              let w := print (Spinner "Project is valid") w in
              let w := print (Log "") w in
              print (Log "All checks passed!") w
            else
              let w := print (Log "") w in
              let w :=
                if (0 <? length (errors result))%nat then
                  let w := print (Log "Errors:") w in
                  let w := fold_left (fun w error => print (Log ("  - " ++ error)) w)
                             (errors result) w in
                  print (Log "") w
                else w in
              let w :=
                if (0 <? length (warnings result))%nat then
                  let w := print (Log "Warnings:") w in
                  let w := fold_left (fun w warning => print (Log ("  - " ++ warning)) w)
                             (warnings result) w in
                  print (Log "") w
                else w in
              if (0 <? length (errors result))%nat then exit 1 w else w
        end
    end.

(** [findPackageRoot(startDir)] on absolute paths, given by their segments
    below the root.  The loop goes from [startDir] up to the root, which it
    does not look at; [rdir] is the directory, last segment first.  The
    result of [search] is [None] when reading or parsing a manifest throws,
    and [Some None] when the loop ends without a find. *)
Fixpoint search_package_root (fs : gmap (list string) node) (rdir : list string)
  : option (option (list string)) :=
  match rdir with
  | [] => Some None
  | _ :: parent =>
      let dir := rev rdir in
      if pathExists fs (path_join dir ["package.json"]) then
        text ← readFile fs (path_join dir ["package.json"]);
        pkg ← JSON_parse text;
        pkg_name ← get_property pkg "name";
        match pkg_name with
        | Some (JString s) =>
            if String.eqb s "mcpforge" then Some (Some dir)
            else search_package_root fs parent
        | _ => search_package_root fs parent
        end
      else search_package_root fs parent
  end.

Definition findPackageRoot (fs : gmap (list string) node) (startDir : list string)
  : option (list string) :=
  found ← search_package_root fs (rev startDir);
  Some (match found with
        | Some dir => dir
        | None => startDir
        end).
End Commands.

(** ** Vocabulary of the further properties *)

(** The order in which [detectLanguage] tries the manifests. *)
Definition detection_rank (lang : language) : nat :=
  match lang with
  | python => 0
  | typescript => 1
  | go => 2
  | rust => 3
  end.

(** The places where the analyzer looks for the file it reads. *)
Definition analyzed_paths (lang : language) (projectPath : list string)
  : list (list string) :=
  let projectName := hyphens_to_underscores (basename projectPath) in
  match lang with
  | python =>
      [ path_join projectPath ["server.py"];
        path_join projectPath [projectName; "server.py"] ]
  | typescript =>
      [ path_join projectPath ["src"; "index.ts"];
        path_join projectPath ["index.ts"];
        path_join projectPath [projectName; "index.ts"] ]
  | go => [path_join projectPath ["main.go"]]
  | rust => [path_join projectPath ["src"; "main.rs"]]
  end.

(** [dir] holds the manifest of the mcpforge package. *)
Definition is_package_root (JSON_parse : string -> option json)
    (fs : gmap (list string) node) (dir : list string) : Prop :=
  exists text pkg,
    readFile fs (path_join dir ["package.json"]) = Some text
    /\ JSON_parse text = Some pkg
    /\ get_property pkg "name" = Some (Some (JString "mcpforge")).

(** ** Vocabulary of the naming and generation properties *)

(** The name starts with a hyphen or an underscore. *)
Definition leading_separator (s : string) : bool :=
  match s with
  | String c _ => is_separator c
  | EmptyString => false
  end.

(** [s.replace(/_/g, '-')]. *)
Definition underscores_to_hyphens : string -> string :=
  replace_class is_underscore (fun _ => "-").

(** The characters a snake form, a kebab form and a Pascal form are free of. *)
Definition snake_char (c : ascii) : bool := negb (is_upper c) && negb (is_hyphen c).
Definition kebab_char (c : ascii) : bool := negb (is_upper c) && negb (is_underscore c).
Definition pascal_char (c : ascii) : bool := negb (is_separator c).

(** [fs'] holds what [fs] holds at every path that does not start with [seg]. *)
Definition same_outside (seg : string) (fs fs' : gmap (list string) node) : Prop :=
  forall p, head p <> Some seg -> fs' !! p = fs !! p.

(** Every directory of [fs] is a directory of [fs']. *)
Definition keeps_dirs (fs fs' : gmap (list string) node) : Prop :=
  forall p, fs !! p = Some Dir -> fs' !! p = Some Dir.

(** A step that changes nothing outside [seg] and removes no directory. *)
Definition stays_under (seg : string) (fs fs' : gmap (list string) node) : Prop :=
  same_outside seg fs fs' /\ keeps_dirs fs fs'.

(** [text.split('\n')], and a text without a line break. *)
Definition text_lines (text : string) : list string := split_class is_newline text.

Definition one_line (s : string) : bool := all_chars (fun c => negb (is_newline c)) s.

(** * Properties *)

(** ** Checks of the string functions on examples *)

Example toSnake_ex : toSnakeCase "MyProject" = "my_project" /\ toSnakeCase "my-project" = "my_project".
Proof. split; reflexivity. Qed.
Example toKebab_ex : toKebabCase "MyProject" = "my-project" /\ toKebabCase "my_project" = "my-project".
Proof. split; reflexivity. Qed.
Example toPascal_ex : toPascalCase "my-project" = "MyProject" /\ toPascalCase "my_project" = "MyProject"
  /\ toPascalCase "project" = "Project".
Proof. repeat split; reflexivity. Qed.
Example strip_suffix_ex : strip_suffix ".hbs" "a.hbs.conf.hbs" = "a.hbs.conf" /\ strip_suffix ".hbs" "a.hbsx" = "a.hbsx".
Proof. split; reflexivity. Qed.

Example exec_ex :
  matchAll (lit "a" ++ [Atom is_space Star] ++ lit "=" ++ [Open; Atom is_word Plus; Close]) "a =xy, a=z;a = ;a=_"
  = ["xy"; "z"; "_"].
Proof. reflexivity. Qed.
Example lazy_ex :
  matchAll (lit "(" ++ [Atom is_any LazyStar] ++ lit "n:" ++ [Open; Atom is_dot LazyStar; Close] ++ lit ")") "(xxn:ab)) (n:) (n:c"
  = ["ab"; ""].
Proof. reflexivity. Qed.

Example replace_literal_ex :
  substitute_name [("projectName", "x"); ("projectNameSnake", "foo_bar")] "__projectNameSnake__.conf.hbs"
  = "foo_bar.conf.hbs"
  /\ replace_literal "__k__" "<$&|$$|$'>" "a__k__b__k____k" = "a<__k__|$|b__k____k>b<__k__|$|__k>__k".
Proof. split; reflexivity. Qed.
Example copy_ex :
  (copyTemplateFiles (fun c _ => Some c)
    [TemplateDir "__projectNameSnake__" [TemplateFile "__projectNameSnake__.conf.hbs" "body"]]
    ["out"] [("projectNameSnake", "foo_bar")] (<[ ["out"] := Dir ]> ∅))
  ≫= (fun fs => fs !! ["out"; "foo_bar"; "foo_bar.conf"]) = Some (File "body").
Proof. vm_compute. reflexivity. Qed.

(** ** Naming normalizer *)

Lemma char_upper_lower (c : ascii) :
  char_toUpperCase (char_toLowerCase c) = char_toUpperCase c.
Proof. destruct c as [[] [] [] [] [] [] [] []]; reflexivity. Qed.

Lemma char_lower_lower (c : ascii) :
  char_toLowerCase (char_toLowerCase c) = char_toLowerCase c.
Proof. destruct c as [[] [] [] [] [] [] [] []]; reflexivity. Qed.

Lemma toLowerCase_idem (s : string) : toLowerCase (toLowerCase s) = toLowerCase s.
Proof.
  induction s as [|c s IH]; [reflexivity|].
  cbn. rewrite char_lower_lower. f_equal. exact IH.
Qed.

Lemma capitalize_toLowerCase (w : string) : capitalize (toLowerCase w) = capitalize w.
Proof.
  destruct w as [|c w]; [reflexivity|].
  unfold capitalize. cbn. rewrite char_upper_lower. f_equal.
  apply toLowerCase_idem.
Qed.

Lemma toPascalCase_segments (s : string) :
  toPascalCase s = join_empty (map capitalize (map toLowerCase (split_class is_separator s))).
Proof.
  unfold toPascalCase. rewrite map_map. f_equal.
  apply map_ext. intros w. symmetry. apply capitalize_toLowerCase.
Qed.

Lemma split_replace_underscore (s : string) :
  split_class is_hyphen (replace_class is_underscore (fun _ => "-") s)
  = split_class is_separator (replace_class is_underscore (fun _ => "-") s).
Proof.
  induction s as [|c s IH]; [reflexivity|].
  cbn [replace_class]. destruct (is_underscore c) eqn:Hu.
  - change ("-" ++ ?x)%string with (String "-" x). cbn [split_class].
    change (is_hyphen "-") with true. change (is_separator "-") with true. cbn iota.
    rewrite IH. reflexivity.
  - change (String c "" ++ ?x)%string with (String c x). cbn [split_class].
    unfold is_separator. rewrite Hu, orb_false_r.
    destruct (is_hyphen c); rewrite IH; reflexivity.
Qed.

Lemma replace_upper_id (mark : ascii) (s : string) :
  all_chars no_upper s = true ->
  replace_class is_upper (fun c => String mark (String c EmptyString)) s = s.
Proof.
  induction s as [|c s IH]; [reflexivity|].
  cbn [all_chars replace_class]. intros H. apply andb_true_iff in H as [Hc Hs].
  unfold no_upper in Hc. apply negb_true_iff in Hc. rewrite Hc, (IH Hs). reflexivity.
Qed.

Lemma toLowerCase_id (s : string) : all_chars no_upper s = true -> toLowerCase s = s.
Proof.
  induction s as [|c s IH]; [reflexivity|].
  cbn [all_chars]. intros H. apply andb_true_iff in H as [Hc Hs].
  unfold no_upper in Hc. apply negb_true_iff in Hc.
  unfold toLowerCase in *. cbn [map_chars]. unfold char_toLowerCase at 1.
  rewrite Hc, (IH Hs). reflexivity.
Qed.

Lemma split_underscores_to_hyphens (s : string) :
  split_class is_separator (replace_class is_underscore (fun _ => "-") s)
  = split_class is_separator s.
Proof.
  induction s as [|c s IH]; [reflexivity|].
  cbn [replace_class]. destruct (is_underscore c) eqn:Hu.
  - change ("-" ++ ?x)%string with (String "-" x). cbn [split_class].
    change (is_separator "-") with true. cbn iota.
    unfold is_separator at 2. rewrite Hu, orb_true_r, IH. reflexivity.
  - change (String c "" ++ ?x)%string with (String c x). cbn [split_class].
    rewrite IH. reflexivity.
Qed.

Lemma toPascalCase_strip_hyphen (s : string) :
  toPascalCase (strip_leading "-" s) = toPascalCase s.
Proof.
  destruct s as [|c s]; [reflexivity|]. cbn [strip_leading].
  destruct (Ascii.eqb_spec c "-") as [->|Hc]; reflexivity.
Qed.

(** A name without capital letters has the Pascal form of its kebab form. *)
Lemma toPascal_toKebab_lowercase (N : string) :
  all_chars no_upper N = true -> toPascalCase (toKebabCase N) = toPascalCase N.
Proof.
  intros H. unfold toKebabCase. rewrite (replace_upper_id "-" N H), (toLowerCase_id N H).
  unfold toPascalCase at 1. rewrite split_underscores_to_hyphens.
  apply toPascalCase_strip_hyphen.
Qed.

(** C9: for a valid project name the Pascal form of the kebab form is the
    kebab form with each of its hyphen-delimited segments capitalized; and
    when the kebab form splits into the same segments as the name itself
    (letter case apart, since the kebab form is lower case), it is the
    Pascal form of the name. *)
Theorem toPascal_toKebab (N : string) :
  valid_name N = true ->
  toPascalCase (toKebabCase N)
  = join_empty (map capitalize (split_class is_hyphen (toKebabCase N)))
  /\ (map toLowerCase (split_class is_separator (toKebabCase N))
      = map toLowerCase (split_class is_separator N) ->
      toPascalCase (toKebabCase N) = toPascalCase N).
Proof.
  intros _. split.
  - unfold toPascalCase, toKebabCase. rewrite split_replace_underscore. reflexivity.
  - intros Hseg. rewrite !toPascalCase_segments, Hseg. reflexivity.
Qed.

Lemma toPascal_toKebab_witness :
  toPascalCase (toKebabCase "My_project-v2") = toPascalCase "My_project-v2".
Proof. apply (proj2 (toPascal_toKebab "My_project-v2" eq_refl)). reflexivity. Defined.

(** Without the condition on the segments the two differ: an inner capital
    opens a segment in the kebab form only. *)
Example toPascal_toKebab_inner_capital :
  toPascalCase (toKebabCase "MyProject") = "MyProject"
  /\ toPascalCase "MyProject" = "Myproject".
Proof. split; reflexivity. Qed.

(** ** Generation: the microservices pattern *)

Lemma is_enterprise_microservices : is_enterprise microservices = is_enterprise basic.
Proof. reflexivity. Qed.

Lemma generateProject_microservices (projectPath : list string) (name : string)
    (lang : language) (tr : transport) (fs : gmap (list string) node) :
  generateProject projectPath name lang microservices tr fs
  = generateProject projectPath name lang basic tr fs.
Proof. destruct lang; reflexivity. Qed.

(** C6: when no template tree exists, generating with the microservices
    pattern leaves exactly the files, with exactly the contents, that
    generating with the basic pattern leaves, for every language, project
    name and transport. *)
Theorem newCommand_microservices_is_basic
    (Handlebars : string -> list (string * string) -> option string)
    (name : string) (lang : language) (tr : transport) (fs : gmap (list string) node) :
  newCommand Handlebars None name lang microservices tr fs
  = newCommand Handlebars None name lang basic tr fs.
Proof.
  unfold newCommand. destruct (pathExists fs (path_join [] [name])); [reflexivity|].
  destruct (ensureDir fs (path_join [] [name])) as [fs1|]; [|reflexivity].
  cbn. apply generateProject_microservices.
Qed.

(** ** The add command *)

Lemma files_print (o : output) (w : world) : files (print o w) = files w.
Proof. reflexivity. Qed.

Lemma files_exit (n : nat) (w : world) : files (exit n w) = files w.
Proof. reflexivity. Qed.

Lemma addToPython_files sp t n w : files (addToPython sp t n w) = files w.
Proof. reflexivity. Qed.
Lemma addToTypeScript_files sp t n w : files (addToTypeScript sp t n w) = files w.
Proof. reflexivity. Qed.
Lemma addToGo_files sp t n w : files (addToGo sp t n w) = files w.
Proof. reflexivity. Qed.
Lemma addToRust_files sp t n w : files (addToRust sp t n w) = files w.
Proof. reflexivity. Qed.

(** C10: the add command leaves every file of the project as it was,
    whatever the capability type, the name and the project directory; it
    only prints. *)
Theorem addCommand_files (type name : string) (server : list string) (w : world) :
  files (addCommand type name server w) = files w.
Proof.
  unfold addCommand.
  destruct (parse_AddType type) as [t|]; [|reflexivity].
  destruct (pathExists (files w) server); [|reflexivity]. cbn [negb].
  destruct (detectLanguage (files w) server) as [[]|]; reflexivity.
Qed.

(** X24: what a successful run of the add command prints contains the
    snippet of the detected language, and the run sets no exit status. *)
Lemma addCommand_prints_snippet (t : AddType) (name : string) (server : list string)
    (w : world) (lang : language) :
  pathExists (files w) server = true ->
  detectLanguage (files w) server = Some lang ->
  let snippet :=
    match lang with
    | python => generatePythonSnippet t name
    | typescript => generateTypeScriptSnippet t name
    | go => generateGoSnippet t name
    | rust => generateRustSnippet t name
    end in
  In (Log snippet) (console (addCommand (AddType_name t) name server w))
  /\ exited (addCommand (AddType_name t) name server w) = exited w.
Proof.
  intros Hp Hl. unfold addCommand.
  assert (parse_AddType (AddType_name t) = Some t) as -> by (destruct t; reflexivity).
  rewrite Hp, Hl. cbn [negb].
  destruct lang; cbn; (split; [|reflexivity]);
    rewrite !in_app_iff; cbn; tauto.
Qed.

(** ** Structural validator: [valid] and [errors] *)

Lemma consistent_initial : consistent {| valid := true; errors := []; warnings := [] |}.
Proof. unfold consistent. cbn. tauto. Qed.

Lemma consistent_warning (msg : string) (r : ValidationResult) :
  consistent r -> consistent (push_warning msg r).
Proof. unfold consistent. cbn. tauto. Qed.

Lemma consistent_error (msg : string) (r : ValidationResult) :
  consistent (set_invalid (push_error msg r)).
Proof.
  unfold consistent. cbn. split; [discriminate|].
  intros H. apply app_eq_nil in H as [_ H]. discriminate.
Qed.

Lemma consistent_if_error (b : bool) (msg : string) (r : ValidationResult) :
  consistent r -> consistent (if b then set_invalid (push_error msg r) else r).
Proof. destruct b; [intros _; apply consistent_error | tauto]. Qed.

Lemma consistent_if_warning (b : bool) (msg : string) (r : ValidationResult) :
  consistent r -> consistent (if b then push_warning msg r else r).
Proof. destruct b; [apply consistent_warning | tauto]. Qed.

Create HintDb validator.

#[local] Hint Resolve consistent_initial consistent_warning consistent_error
  consistent_if_error consistent_if_warning : validator.

Lemma validateCommon_consistent fs p r :
  consistent r -> consistent (validateCommon fs p r).
Proof. intros H. unfold validateCommon. auto 10 with validator. Qed.

Lemma validatePython_consistent fs p r r' :
  consistent r -> validatePython fs p r = Some r' -> consistent r'.
Proof.
  intros H. unfold validatePython.
  destruct (negb (pathExists fs (path_join p ["pyproject.toml"]))).
  { intros [= <-]. auto with validator. }
  destruct (readFile fs (path_join p ["pyproject.toml"])) as [pyproject|]; [cbn [mbind option_bind]|discriminate].
  destruct (List.find (pathExists fs) _) as [serverPath|].
  - destruct (readFile fs serverPath) as [content|]; [cbn [mbind option_bind]|discriminate].
    intros [= <-]. auto 10 with validator.
  - intros [= <-]. auto with validator.
Qed.

Section ValidatorProperties.
Variable JSON_parse : string -> option json.

Lemma validateTypeScript_consistent fs p r r' :
  consistent r -> validateTypeScript JSON_parse fs p r = Some r' -> consistent r'.
Proof.
  intros H. unfold validateTypeScript.
  destruct (negb (pathExists fs (path_join p ["package.json"]))).
  { intros [= <-]. auto with validator. }
  destruct (readFile fs (path_join p ["package.json"])) as [text|]; [cbn [mbind option_bind]|discriminate].
  destruct (JSON_parse text) as [packageJson|]; [cbn [mbind option_bind]|discriminate].
  destruct (get_property packageJson "dependencies") as [deps|]; [cbn [mbind option_bind]|discriminate].
  destruct (get_property packageJson "devDependencies") as [devDeps|]; [cbn [mbind option_bind]|discriminate].
  destruct (negb (pathExists fs (path_join p ["src"; "index.ts"]))).
  { intros [= <-]. auto with validator. }
  destruct (readFile fs (path_join p ["src"; "index.ts"])) as [content|]; [cbn [mbind option_bind]|discriminate].
  intros [= <-]. auto 10 with validator.
Qed.

Lemma validateGo_consistent fs p r r' :
  consistent r -> validateGo fs p r = Some r' -> consistent r'.
Proof.
  intros H. unfold validateGo.
  destruct (negb (pathExists fs (path_join p ["go.mod"]))).
  { intros [= <-]. auto with validator. }
  destruct (readFile fs (path_join p ["go.mod"])) as [goMod|]; [cbn [mbind option_bind]|discriminate].
  destruct (negb (pathExists fs (path_join p ["main.go"]))).
  { intros [= <-]. auto with validator. }
  destruct (readFile fs (path_join p ["main.go"])) as [content|]; [cbn [mbind option_bind]|discriminate].
  intros [= <-]. auto 10 with validator.
Qed.

Lemma validateRust_consistent fs p r r' :
  consistent r -> validateRust fs p r = Some r' -> consistent r'.
Proof.
  intros H. unfold validateRust.
  destruct (negb (pathExists fs (path_join p ["Cargo.toml"]))).
  { intros [= <-]. auto with validator. }
  destruct (readFile fs (path_join p ["Cargo.toml"])) as [cargo|]; [cbn [mbind option_bind]|discriminate].
  destruct (negb (pathExists fs (path_join p ["src"; "main.rs"]))).
  { intros [= <-]. auto with validator. }
  destruct (readFile fs (path_join p ["src"; "main.rs"])) as [content|]; [cbn [mbind option_bind]|discriminate].
  intros [= <-]. auto 10 with validator.
Qed.

(** C2: whatever the project directory holds and whatever language was
    detected, the result that [validateProject] returns has [valid] true
    exactly when its list of errors is empty; the warnings play no part. *)
Theorem validateProject_valid_iff_no_errors (fs : gmap (list string) node)
    (projectPath : list string) (lang : language) (r : ValidationResult) :
  validateProject JSON_parse fs projectPath lang = Some r ->
  (valid r = true <-> errors r = []).
Proof.
  unfold validateProject. intros Hr. change (consistent r).
  assert (consistent (validateCommon fs projectPath
                        {| valid := true; errors := []; warnings := [] |})) as Hc
    by auto using validateCommon_consistent with validator.
  destruct lang;
    eauto using validatePython_consistent, validateTypeScript_consistent,
      validateGo_consistent, validateRust_consistent.
Qed.
End ValidatorProperties.

Lemma validateProject_valid_iff_no_errors_witness :
  valid {| valid := false; errors := ["Missing go.mod"];
           warnings := ["Missing README.md"; "Missing .gitignore"] |} = true
  <-> errors {| valid := false; errors := ["Missing go.mod"];
                warnings := ["Missing README.md"; "Missing .gitignore"] |} = [].
Proof.
  apply (validateProject_valid_iff_no_errors (fun _ => None) ∅ ["demo"] go).
  vm_compute. reflexivity.
Defined.

(** ** Structural validator: a manifest without an entry point *)

Lemma pathExists_readFile fs p text : readFile fs p = Some text -> pathExists fs p = true.
Proof. unfold readFile, pathExists. destruct (stat fs p) as [[]|]; congruence. Qed.

Lemma errors_validateCommon fs p r :
  errors (validateCommon fs p r) = errors r /\ valid (validateCommon fs p r) = valid r.
Proof.
  unfold validateCommon.
  repeat match goal with |- context [if ?b then _ else _] => destruct b end;
    split; reflexivity.
Qed.

Lemma find_none_all {A} (f : A -> bool) (l : list A) :
  Forall (fun x => f x = false) l -> List.find f l = None.
Proof. induction 1 as [|x l Hx _ IH]; cbn; [reflexivity|]. rewrite Hx. exact IH. Qed.

Section MissingEntryPoint.
Variable JSON_parse : string -> option json.

(** C7: when the project directory holds the manifest of its language with
    the MCP dependency declared and no entry-point file, validation returns
    exactly one error, the one that names the missing entry point, and
    [valid] is false.  For Python, whose validator looks first under the
    name of the project directory, the project path has a segment. *)
Theorem validateProject_missing_entry_point (fs : gmap (list string) node)
    (projectPath : list string) (lang : language) (manifest : string) :
  (lang = python -> projectPath <> []) ->
  readFile fs (path_join projectPath [manifest_file lang]) = Some manifest ->
  declares_mcp_dependency JSON_parse lang manifest = true ->
  Forall (fun p => pathExists fs p = false) (entry_point_paths lang projectPath) ->
  exists r,
    validateProject JSON_parse fs projectPath lang = Some r
    /\ errors r = [("Missing " ++ entry_point_file lang ++
                      match lang with python => " file" | _ => "" end)%string]
    /\ valid r = false.
Proof.
  intros _ Hread Hdep Hentry. unfold validateProject.
  destruct (errors_validateCommon fs projectPath
              {| valid := true; errors := []; warnings := [] |}) as [He Hv].
  set (r0 := validateCommon fs projectPath _) in *. cbn in He, Hv.
  pose proof (pathExists_readFile _ _ _ Hread) as Hex.
  destruct lang; cbn [manifest_file entry_point_paths entry_point_file
                      declares_mcp_dependency] in *.
  - unfold validatePython. rewrite Hex, Hread. cbn [negb mbind option_bind].
    apply orb_true_iff in Hdep.
    assert (negb (includes manifest "mcp") && negb (includes manifest "fastmcp") = false) as ->
      by (destruct Hdep as [-> | ->]; [reflexivity | apply andb_false_r]).
    rewrite (find_none_all _ _ Hentry).
    eexists. split; [reflexivity|].
    destruct (negb (includes manifest "requires-python")); cbn; rewrite He; split; reflexivity.
  - unfold validateTypeScript. rewrite Hex, Hread. cbn [negb mbind option_bind].
    destruct (JSON_parse manifest) as [packageJson|]; [|discriminate].
    cbn [mbind option_bind].
    destruct (get_property packageJson "dependencies") as [deps|]; [|discriminate].
    destruct (get_property packageJson "devDependencies") as [devDeps|]; [|discriminate].
    cbn [mbind option_bind]. rewrite Hdep. cbn [negb].
    inversion Hentry as [|? ? Hidx _]; subst. rewrite Hidx. cbn [negb].
    eexists. split; [reflexivity|].
    destruct (negb (pathExists fs (path_join projectPath ["tsconfig.json"])));
      cbn; rewrite He; split; reflexivity.
  - unfold validateGo. rewrite Hex, Hread. cbn [negb mbind option_bind].
    apply orb_true_iff in Hdep.
    assert (negb (includes manifest "mcp-go") && negb (includes manifest "go-sdk") = false) as ->
      by (destruct Hdep as [-> | ->]; [reflexivity | apply andb_false_r]).
    inversion Hentry as [|? ? Hmain _]; subst. rewrite Hmain. cbn [negb].
    eexists. split; [reflexivity|]. cbn. rewrite He. split; reflexivity.
  - unfold validateRust. rewrite Hex, Hread. cbn [negb mbind option_bind].
    rewrite Hdep. cbn [negb].
    inversion Hentry as [|? ? Hmain _]; subst. rewrite Hmain. cbn [negb].
    eexists. split; [reflexivity|]. cbn. rewrite He. split; reflexivity.
Qed.
End MissingEntryPoint.

Lemma validateProject_missing_entry_point_witness :
  exists r,
    validateProject (fun _ => None)
      (<[ ["demo"; "Cargo.toml"] := File (cargo_toml "demo") ]> (<[ ["demo"] := Dir ]> ∅))
      ["demo"] rust = Some r
    /\ errors r = ["Missing src/main.rs"] /\ valid r = false.
Proof.
  apply (validateProject_missing_entry_point (fun _ => None) _ ["demo"] rust (cargo_toml "demo")).
  - intros _. discriminate.
  - vm_compute. reflexivity.
  - vm_compute. reflexivity.
  - repeat constructor.
Defined.

(** ** File-system steps on a fresh project directory *)

Lemma writeFile_new fs p content :
  stat fs (removelast p) = Some Dir -> stat fs p = None ->
  writeFile fs p content = Some (<[p := File content]> fs).
Proof. unfold writeFile. intros -> ->. reflexivity. Qed.



Ltac fs_lookup Hfresh :=
  repeat first
    [ rewrite lookup_insert_eq
    | rewrite lookup_insert_ne by discriminate
    | rewrite (Hfresh []) | rewrite (Hfresh [_]) | rewrite (Hfresh [_; _]) ].

Ltac fs_write Hfresh :=
  repeat (rewrite writeFile_new
            by (cbn [stat removelast]; fs_lookup Hfresh; reflexivity);
          cbn [mbind option_bind]).

Arguments generatePythonBasicServer : simpl never.
Arguments generatePythonEnterpriseServer : simpl never.
Arguments pyproject_toml : simpl never.
Arguments python_init : simpl never.
Arguments python_main : simpl never.
Arguments python_readme : simpl never.
Arguments python_gitignore : simpl never.

Lemma hello_mcp_generated (Handlebars : string -> list (string * string) -> option string)
    (tr : transport) (fs : gmap (list string) node) :
  fresh fs ["hello-mcp"] ->
  exists fs',
    newCommand Handlebars None "hello-mcp" python basic tr fs = Some fs'
    /\ fs' !! ["hello-mcp"; "server.py"] = None
    /\ fs' !! ["hello-mcp"; "hello_mcp"; "server.py"]
       = Some (File (generatePythonBasicServer "hello_mcp" "HelloMcp")).
Proof.
  intros Hfresh. unfold fresh in Hfresh. cbn [app] in Hfresh.
  unfold newCommand, generateProject, generatePythonProject, ensureDir.
  change (toSnakeCase "hello-mcp") with "hello_mcp".
  change (toPascalCase "hello-mcp") with "HelloMcp".
  cbn [path_join List.filter nonempty String.eqb negb app mkdirs is_enterprise].
  unfold pathExists. cbn [stat]. rewrite (Hfresh []).
  cbn [mbind option_bind mkdirs app].
  fs_lookup Hfresh. cbn [mbind option_bind mkdirs app].
  fs_write Hfresh.
  eexists. split; [reflexivity|].
  split; fs_lookup Hfresh; reflexivity.
Qed.

Lemma python_basic_capabilities :
  let content := generatePythonBasicServer "hello_mcp" "HelloMcp" in
  matchAll python_tool_re content = ["hello"; "add"]
  /\ matchAll python_resource_re content = ["config://settings"]
  /\ matchAll python_prompt_re content = [].
Proof. vm_compute. repeat split; reflexivity. Qed.

(** C5: generating a basic Python project named hello-mcp where no such
    directory stood, and analyzing the directory that results, gives the
    tools hello and add, in this order, and the resource config://settings. *)
Theorem analyze_hello_mcp (Handlebars : string -> list (string * string) -> option string)
    (tr : transport) (fs : gmap (list string) node) :
  fresh fs ["hello-mcp"] ->
  exists fs' analysis,
    newCommand Handlebars None "hello-mcp" python basic tr fs = Some fs'
    /\ analyzeProject fs' ["hello-mcp"] python = Some analysis
    /\ tools analysis = ["hello"; "add"]
    /\ resources analysis = ["config://settings"]
    /\ prompts analysis = [].
Proof.
  intros Hfresh.
  destruct (hello_mcp_generated Handlebars tr fs Hfresh) as (fs' & Hgen & Hroot & Hserver).
  destruct python_basic_capabilities as (Ht & Hr & Hp).
  exists fs'. eexists. split; [exact Hgen|].
  unfold analyzeProject, analyzePython, findFile, pathExists.
  change (hyphens_to_underscores (basename ["hello-mcp"])) with "hello_mcp".
  cbn [path_join List.filter nonempty String.eqb negb app List.find stat].
  rewrite Hroot, Hserver.
  unfold readFile. cbn [stat]. rewrite Hserver. cbn [mbind option_bind].
  split; [reflexivity|]. cbn [tools resources prompts push_tools push_resources push_prompts app].
  rewrite Ht, Hr, Hp. repeat split; reflexivity.
Qed.

Lemma analyze_hello_mcp_witness :
  exists fs' analysis,
    newCommand (fun c _ => Some c) None "hello-mcp" python basic stdio ∅ = Some fs'
    /\ analyzeProject fs' ["hello-mcp"] python = Some analysis
    /\ tools analysis = ["hello"; "add"]
    /\ resources analysis = ["config://settings"]
    /\ prompts analysis = [].
Proof.
  apply (analyze_hello_mcp (fun c _ => Some c) stdio ∅).
  intros p. apply lookup_empty.
Defined.

(** ** Template materializer *)

Lemma writeFile_lookup fs p content fs' :
  writeFile fs p content = Some fs' ->
  fs' = <[p := File content]> fs /\ p <> [].
Proof.
  unfold writeFile. intros H.
  destruct p as [|seg p].
  { cbn in H. discriminate. }
  destruct (stat fs (removelast (seg :: p))) as [[]|]; try discriminate.
  destruct (stat fs (seg :: p)) as [[]|]; try discriminate;
    injection H as <-; split; congruence.
Qed.

Lemma writeFile_is_file fs p content fs' :
  writeFile fs p content = Some fs' -> is_file fs' p.
Proof.
  intros H. apply writeFile_lookup in H as [-> _].
  exists content. apply lookup_insert_eq.
Qed.

Lemma writeFile_keeps_files fs p content fs' q :
  writeFile fs p content = Some fs' -> is_file fs q -> is_file fs' q.
Proof.
  intros H [c Hq]. apply writeFile_lookup in H as [-> _].
  destruct (decide (p = q)) as [->|Hne].
  - exists content. apply lookup_insert_eq.
  - exists c. rewrite lookup_insert_ne by exact Hne. exact Hq.
Qed.

Lemma mkdirs_keeps_files rest : forall fs pre fs' q,
  mkdirs fs pre rest = Some fs' -> is_file fs q -> is_file fs' q.
Proof.
  induction rest as [|d rest IH]; intros fs pre fs' q; cbn [mkdirs].
  - intros [= <-]. tauto.
  - destruct (fs !! (pre ++ [d])) as [[]|] eqn:Hd; [discriminate| |].
    + apply IH.
    + intros Hm [c Hq]. eapply IH; [exact Hm|].
      exists c. rewrite lookup_insert_ne; [exact Hq|]. congruence.
Qed.

Section MaterializerProperties.
Variable Handlebars : string -> list (string * string) -> option string.
Variable context : list (string * string).

(** The loop over the children of a directory is [copyTemplateFiles]. *)
Lemma copyTemplateEntry_dir name children targetPath fs :
  copyTemplateEntry Handlebars context targetPath (TemplateDir name children) fs
  = fs1 ← ensureDir fs
            (path_join targetPath [strip_suffix ".hbs" (substitute_name context name)]);
    copyTemplateFiles Handlebars children
      (path_join targetPath [strip_suffix ".hbs" (substitute_name context name)])
      context fs1.
Proof.
  cbn [copyTemplateEntry].
  destruct (ensureDir fs _) as [fs1|]; [cbn [mbind option_bind]|reflexivity].
  revert fs1. induction children as [|c children IH]; intros fs1; [reflexivity|].
  cbn [copyTemplateFiles].
  destruct (copyTemplateEntry Handlebars context _ c fs1); [cbn [mbind option_bind]|reflexivity].
  apply IH.
Qed.

Lemma copyTemplateFiles_keeps_files_from files :
  Forall (fun e => forall targetPath fs fs' q,
            copyTemplateEntry Handlebars context targetPath e fs = Some fs' ->
            is_file fs q -> is_file fs' q) files ->
  forall targetPath fs fs' q,
    copyTemplateFiles Handlebars files targetPath context fs = Some fs' ->
    is_file fs q -> is_file fs' q.
Proof.
  induction 1 as [|e files He _ IH]; intros targetPath fs fs' q; cbn [copyTemplateFiles].
  - intros [= <-]. tauto.
  - destruct (copyTemplateEntry Handlebars context targetPath e fs) as [fs1|] eqn:H1;
      [cbn [mbind option_bind]|discriminate].
    intros H2 Hq. eapply IH; [exact H2|]. eapply He; eassumption.
Qed.

(** A file, once written, stays a file: later entries can only overwrite it. *)
Lemma copyTemplateEntry_keeps_files e : forall targetPath fs fs' q,
  copyTemplateEntry Handlebars context targetPath e fs = Some fs' ->
  is_file fs q -> is_file fs' q.
Proof.
  induction e as [name content|name children IH] using entry_induction;
    intros targetPath fs fs' q.
  - cbn [copyTemplateEntry].
    destruct (Handlebars content context) as [processed|]; [cbn [mbind option_bind]|discriminate].
    apply writeFile_keeps_files.
  - rewrite copyTemplateEntry_dir.
    destruct (ensureDir fs _) as [fs1|] eqn:Hd; [cbn [mbind option_bind]|discriminate].
    intros Hc Hq. eapply copyTemplateFiles_keeps_files_from; [exact IH|exact Hc|].
    eapply mkdirs_keeps_files; eassumption.
Qed.

Lemma copyTemplateFiles_keeps_files files targetPath fs fs' q :
  copyTemplateFiles Handlebars files targetPath context fs = Some fs' ->
  is_file fs q -> is_file fs' q.
Proof.
  apply copyTemplateFiles_keeps_files_from.
  apply Forall_forall. intros e _. apply copyTemplateEntry_keeps_files.
Qed.

Lemma copyTemplateFiles_In e files targetPath fs fs' :
  In e files ->
  copyTemplateFiles Handlebars files targetPath context fs = Some fs' ->
  exists fs1 fs2,
    copyTemplateEntry Handlebars context targetPath e fs1 = Some fs2
    /\ forall q, is_file fs2 q -> is_file fs' q.
Proof.
  revert fs. induction files as [|f files IH]; intros fs; [intros []|].
  cbn [copyTemplateFiles].
  destruct (copyTemplateEntry Handlebars context targetPath f fs) as [fs1|] eqn:H1;
    [cbn [mbind option_bind]|intros _; discriminate].
  intros [->|Hin] H2.
  - exists fs, fs1. split; [exact H1|].
    intros q. eapply copyTemplateFiles_keeps_files; exact H2.
  - eapply IH; eassumption.
Qed.

(** Every file of the template tree ends up as a file at its materialized
    path whenever the materializer completes. *)
Lemma copyTemplateFiles_materializes files rel content :
  has_file files rel content ->
  forall targetPath fs fs',
    copyTemplateFiles Handlebars files targetPath context fs = Some fs' ->
    is_file fs' (materialized_path context targetPath rel).
Proof.
  induction 1 as [files name content Hin|files dir children rel content Hin _ IH];
    intros targetPath fs fs' Hcopy.
  - destruct (copyTemplateFiles_In _ _ _ _ _ Hin Hcopy) as (fs1 & fs2 & He & Hkeep).
    apply Hkeep. cbn [copyTemplateEntry] in He. cbn [materialized_path].
    destruct (Handlebars content context) as [processed|]; [cbn [mbind option_bind] in He|discriminate].
    eapply writeFile_is_file; exact He.
  - destruct (copyTemplateFiles_In _ _ _ _ _ Hin Hcopy) as (fs1 & fs2 & He & Hkeep).
    apply Hkeep. rewrite copyTemplateEntry_dir in He. cbn [materialized_path].
    destruct (ensureDir fs1 _) as [fs3|]; [cbn [mbind option_bind] in He|discriminate].
    eapply IH; exact He.
Qed.
End MaterializerProperties.




(** ** What generation leaves on disk *)

Arguments package_json : simpl never.
Arguments tsconfig_json : simpl never.
Arguments typescript_readme : simpl never.
Arguments typescript_gitignore : simpl never.
Arguments generateTypeScriptBasicServer : simpl never.
Arguments generateTypeScriptEnterpriseServer : simpl never.
Arguments go_mod : simpl never.
Arguments main_go : simpl never.
Arguments go_readme : simpl never.
Arguments go_gitignore : simpl never.
Arguments cargo_toml : simpl never.
Arguments main_rs : simpl never.
Arguments rust_readme : simpl never.
Arguments rust_gitignore : simpl never.
Arguments toSnakeCase : simpl never.
Arguments toPascalCase : simpl never.
Arguments toKebabCase : simpl never.

Lemma project_path (name : string) : nonempty name = true -> path_join [] [name] = [name].
Proof. unfold path_join. cbn. intros ->. reflexivity. Qed.

(** The first steps of [newCommand] in a directory that has no entry of the
    project's name. *)
Lemma newCommand_fresh (Handlebars : string -> list (string * string) -> option string)
    (name : string) (lang : language) (pat : pattern) (tr : transport)
    (fs : gmap (list string) node) :
  nonempty name = true -> fresh fs [name] ->
  newCommand Handlebars None name lang pat tr fs
  = generateProject [name] name lang pat tr (<[ [name] := Dir ]> fs).
Proof.
  intros Hname Hfresh. unfold newCommand. rewrite (project_path name Hname).
  pose proof (Hfresh []) as Hroot. cbn [app] in Hroot.
  unfold pathExists, ensureDir. cbn [stat mkdirs app].
  rewrite Hroot. reflexivity.
Qed.

Lemma generateTypeScriptProject_fresh (name nameKebab namePascal : string) (pat : pattern)
    (tr : transport) (fs : gmap (list string) node) :
  fresh fs [name] ->
  generateTypeScriptProject [name] name nameKebab namePascal pat tr (<[ [name] := Dir ]> fs)
  = Some (<[ [name; ".gitignore"] := File typescript_gitignore ]>
         (<[ [name; "README.md"] := File (typescript_readme namePascal) ]>
         (<[ [name; "src"; "index.ts"] :=
               File (if is_enterprise pat
                     then generateTypeScriptEnterpriseServer nameKebab namePascal
                     else generateTypeScriptBasicServer nameKebab namePascal) ]>
         (<[ [name; "tsconfig.json"] := File tsconfig_json ]>
         (<[ [name; "package.json"] := File (package_json nameKebab) ]>
         (<[ [name; "src"] := Dir ]>
         (<[ [name] := Dir ]> fs))))))).
Proof.
  intros Hfresh. unfold fresh in Hfresh. cbn [app] in Hfresh.
  unfold generateTypeScriptProject, ensureDir.
  cbn [path_join List.filter nonempty String.eqb negb app mkdirs].
  fs_lookup Hfresh. cbn [mbind option_bind mkdirs app].
  fs_write Hfresh. reflexivity.
Qed.

Lemma generateGoProject_fresh (name nameSnake namePascal : string) (pat : pattern)
    (tr : transport) (fs : gmap (list string) node) :
  fresh fs [name] ->
  generateGoProject [name] name nameSnake namePascal pat tr (<[ [name] := Dir ]> fs)
  = Some (<[ [name; ".gitignore"] := File (go_gitignore nameSnake) ]>
         (<[ [name; "README.md"] := File (go_readme nameSnake namePascal) ]>
         (<[ [name; "main.go"] := File (main_go nameSnake namePascal) ]>
         (<[ [name; "go.mod"] := File (go_mod nameSnake) ]>
         (<[ [name] := Dir ]> fs))))).
Proof.
  intros Hfresh. unfold fresh in Hfresh. cbn [app] in Hfresh.
  unfold generateGoProject.
  cbn [path_join List.filter nonempty String.eqb negb app].
  fs_write Hfresh. reflexivity.
Qed.

Lemma generateRustProject_fresh (name nameSnake namePascal : string) (pat : pattern)
    (tr : transport) (fs : gmap (list string) node) :
  fresh fs [name] ->
  generateRustProject [name] name nameSnake namePascal pat tr (<[ [name] := Dir ]> fs)
  = Some (<[ [name; ".gitignore"] := File rust_gitignore ]>
         (<[ [name; "README.md"] := File (rust_readme namePascal) ]>
         (<[ [name; "src"; "main.rs"] := File (main_rs nameSnake namePascal) ]>
         (<[ [name; "Cargo.toml"] := File (cargo_toml nameSnake) ]>
         (<[ [name; "src"] := Dir ]>
         (<[ [name] := Dir ]> fs)))))).
Proof.
  intros Hfresh. unfold fresh in Hfresh. cbn [app] in Hfresh.
  unfold generateRustProject, ensureDir.
  cbn [path_join List.filter nonempty String.eqb negb app mkdirs].
  fs_lookup Hfresh. cbn [mbind option_bind mkdirs app].
  fs_write Hfresh. reflexivity.
Qed.

Ltac fs_lookup_ne Hfresh :=
  repeat first
    [ rewrite lookup_insert_eq
    | rewrite lookup_insert_ne by (discriminate || congruence)
    | rewrite (Hfresh []) | rewrite (Hfresh [_]) | rewrite (Hfresh [_; _]) ].

Ltac fs_write_ne Hfresh :=
  repeat (rewrite writeFile_new
            by (cbn [stat removelast]; fs_lookup_ne Hfresh; reflexivity);
          cbn [mbind option_bind]).

Lemma generatePythonProject_fresh (name nameSnake namePascal : string) (pat : pattern)
    (tr : transport) (fs : gmap (list string) node) :
  clashes nameSnake = false ->
  fresh fs [name] ->
  let srcDir := path_join [name] [nameSnake] in
  generatePythonProject [name] name nameSnake namePascal pat tr (<[ [name] := Dir ]> fs)
  = Some (<[ [name; ".gitignore"] := File python_gitignore ]>
         (<[ [name; "README.md"] := File (python_readme nameSnake namePascal) ]>
         (<[ srcDir ++ ["server.py"] :=
               File (if is_enterprise pat
                     then generatePythonEnterpriseServer nameSnake namePascal
                     else generatePythonBasicServer nameSnake namePascal) ]>
         (<[ srcDir ++ ["__main__.py"] := File (python_main namePascal (transport_name tr)) ]>
         (<[ srcDir ++ ["__init__.py"] := File (python_init namePascal) ]>
         (<[ [name; "pyproject.toml"] := File (pyproject_toml nameSnake) ]>
         (<[ srcDir := Dir ]>
         (<[ [name] := Dir ]> fs)))))))).
Proof.
  intros Hclash Hfresh. unfold fresh in Hfresh. cbn [app] in Hfresh.
  unfold clashes in Hclash.
  apply orb_false_iff in Hclash as [Hclash H3].
  apply orb_false_iff in Hclash as [H1 H2].
  apply String.eqb_neq in H1, H2, H3.
  unfold generatePythonProject, ensureDir.
  cbn [path_join List.filter app].
  destruct (nonempty nameSnake) eqn:Hne;
    cbn [path_join List.filter nonempty String.eqb negb app mkdirs].
  - fs_lookup_ne Hfresh. cbn [mbind option_bind mkdirs app].
    fs_write_ne Hfresh. reflexivity.
  - fs_lookup_ne Hfresh. cbn [mbind option_bind mkdirs app].
    fs_write_ne Hfresh. rewrite insert_insert_eq. reflexivity.
Qed.

(** ** Texts with a name inside *)

Lemma prefix_app (needle a b : string) :
  String.prefix needle a = true -> String.prefix needle (a ++ b)%string = true.
Proof.
  revert a. induction needle as [|c needle IH]; intros a.
  { intros _. destruct (a ++ b)%string; reflexivity. }
  destruct a as [|c' a]; simpl; [discriminate|].
  destruct (ascii_dec c c'); [apply IH|discriminate].
Qed.

Lemma includes_cons (c : ascii) (s needle : string) :
  includes (String c s) needle = String.prefix needle (String c s) || includes s needle.
Proof. reflexivity. Qed.

Lemma includes_app_l (a b needle : string) :
  includes a needle = true -> includes (a ++ b)%string needle = true.
Proof.
  induction a as [|c a IH].
  - destruct needle; [|discriminate]. intros _. destruct b; reflexivity.
  - change (String c a ++ b)%string with (String c (a ++ b)%string).
    rewrite !includes_cons. intros H. apply orb_true_iff in H as [H|H]; apply orb_true_iff.
    + left. exact (prefix_app needle (String c a) b H).
    + right. apply IH, H.
Qed.

Lemma includes_app_r (a b needle : string) :
  includes b needle = true -> includes (a ++ b)%string needle = true.
Proof.
  intros H. induction a as [|c a IH]; [exact H|].
  change (String c a ++ b)%string with (String c (a ++ b)%string).
  rewrite includes_cons, IH. apply orb_true_r.
Qed.

(** The needle is looked for in the literal pieces of a text, whatever stands
    in between. *)
Ltac find_in_pieces :=
  repeat first
    [ apply includes_app_l; vm_compute; reflexivity
    | apply includes_app_r ];
  vm_compute; reflexivity.

(** ** Names and the directories they give *)

Lemma all_chars_app (p : ascii -> bool) (a b : string) :
  all_chars p (a ++ b)%string = all_chars p a && all_chars p b.
Proof.
  induction a as [|c a IH]; simpl; [reflexivity|].
  rewrite IH. apply andb_assoc.
Qed.

Lemma all_chars_replace_class (p cls : ascii -> bool) (f : ascii -> string) (s : string) :
  (forall c, p c = true -> all_chars p (if cls c then f c else String c EmptyString) = true) ->
  all_chars p s = true -> all_chars p (replace_class cls f s) = true.
Proof.
  intros Hf. induction s as [|c s IH]; simpl; [reflexivity|].
  intros H. apply andb_true_iff in H as [Hc Hs].
  rewrite all_chars_app, (Hf c Hc), (IH Hs). reflexivity.
Qed.

Lemma all_chars_map (p : ascii -> bool) (f : ascii -> ascii) (s : string) :
  (forall c, p c = true -> p (f c) = true) ->
  all_chars p s = true -> all_chars p (map_chars f s) = true.
Proof.
  intros Hf. induction s as [|c s IH]; simpl; [reflexivity|].
  intros H. apply andb_true_iff in H as [Hc Hs].
  rewrite (Hf c Hc), (IH Hs). reflexivity.
Qed.

Lemma all_chars_strip_leading (p : ascii -> bool) (c : ascii) (s : string) :
  all_chars p s = true -> all_chars p (strip_leading c s) = true.
Proof.
  destruct s as [|a s]; cbn; [reflexivity|].
  intros H. destruct (Ascii.eqb a c); [|exact H].
  apply andb_true_iff in H. tauto.
Qed.

Lemma is_name_char_lower (c : ascii) :
  is_name_char c = true -> is_name_char (char_toLowerCase c) = true.
Proof. destruct c as [[] [] [] [] [] [] [] []]; vm_compute; congruence. Qed.

Lemma is_name_char_mark (mark : ascii) (c : ascii) :
  is_name_char mark = true -> is_name_char c = true ->
  all_chars is_name_char
    (if is_upper c then String mark (String c EmptyString) else String c EmptyString) = true.
Proof. intros Hm Hc. destruct (is_upper c); cbn; rewrite ?Hm, Hc; reflexivity. Qed.

(** The snake form of a valid name is made of name characters. *)
Lemma toSnakeCase_chars (name : string) :
  all_chars is_name_char name = true -> all_chars is_name_char (toSnakeCase name) = true.
Proof.
  intros H. unfold toSnakeCase.
  apply all_chars_replace_class.
  { intros c Hc. destruct (is_hyphen c); cbn; [reflexivity|]. rewrite Hc. reflexivity. }
  apply all_chars_strip_leading. apply all_chars_map; [exact is_name_char_lower|].
  apply all_chars_replace_class; [|exact H].
  intros c Hc. apply is_name_char_mark; [reflexivity|exact Hc].
Qed.

Lemma valid_name_nonempty (name : string) : valid_name name = true -> nonempty name = true.
Proof. unfold valid_name. intros H. apply andb_true_iff in H as [H _]. exact H. Qed.

Lemma valid_name_no_clash (name : string) :
  valid_name name = true -> clashes (toSnakeCase name) = false.
Proof.
  unfold valid_name. intros H. apply andb_true_iff in H as [_ H].
  apply toSnakeCase_chars in H. unfold clashes.
  destruct (String.eqb_spec (toSnakeCase name) "pyproject.toml") as [E|_];
    [rewrite E in H; vm_compute in H; discriminate|].
  destruct (String.eqb_spec (toSnakeCase name) "README.md") as [E|_];
    [rewrite E in H; vm_compute in H; discriminate|].
  destruct (String.eqb_spec (toSnakeCase name) ".gitignore") as [E|_];
    [rewrite E in H; vm_compute in H; discriminate|].
  reflexivity.
Qed.

(** ** The enterprise pattern *)

Lemma python_enterprise_server_content (nameSnake namePascal : string) :
  python_enterprise_content (generatePythonEnterpriseServer nameSnake namePascal) = true.
Proof.
  unfold python_enterprise_content, generatePythonEnterpriseServer.
  repeat (apply andb_true_iff; split); find_in_pieces.
Qed.

Lemma typescript_enterprise_server_content (nameKebab namePascal : string) :
  typescript_enterprise_content (generateTypeScriptEnterpriseServer nameKebab namePascal) = true.
Proof.
  unfold typescript_enterprise_content, generateTypeScriptEnterpriseServer.
  repeat (apply andb_true_iff; split); find_in_pieces.
Qed.

Lemma server_py_path (name nameSnake : string) :
  path_join [name] [nameSnake; "server.py"] = path_join [name] [nameSnake] ++ ["server.py"].
Proof.
  unfold path_join. cbn [List.filter]. destruct (nonempty nameSnake); reflexivity.
Qed.

Lemma readFile_lookup fs p content :
  p <> [] -> fs !! p = Some (File content) -> readFile fs p = Some content.
Proof. intros Hp H. unfold readFile, stat. destruct p; [congruence|]. rewrite H. reflexivity. Qed.

(** C3, as the generators have it: with the enterprise pattern the Python
    server has the lifespan hook for startup and shutdown, the health_check
    tool, the authentication wiring under the OAUTH2_ENABLED flag and the
    system_prompt prompt, next to the hello tool and the settings resource;
    the TypeScript server has the health_check tool and the system prompt
    next to them; the Go and Rust generators do not look at the pattern and
    write the basic project. *)
Theorem enterprise_generation (Handlebars : string -> list (string * string) -> option string)
    (name : string) (tr : transport) (fs : gmap (list string) node) :
  valid_name name = true ->
  fresh fs [name] ->
  (exists fs' content,
     newCommand Handlebars None name python enterprise tr fs = Some fs'
     /\ readFile fs' (path_join [name] [toSnakeCase name; "server.py"]) = Some content
     /\ python_enterprise_content content = true)
  /\ (exists fs' content,
        newCommand Handlebars None name typescript enterprise tr fs = Some fs'
        /\ readFile fs' [name; "src"; "index.ts"] = Some content
        /\ typescript_enterprise_content content = true)
  /\ (exists fs',
        newCommand Handlebars None name go enterprise tr fs = Some fs'
        /\ newCommand Handlebars None name go basic tr fs = Some fs')
  /\ (exists fs',
        newCommand Handlebars None name rust enterprise tr fs = Some fs'
        /\ newCommand Handlebars None name rust basic tr fs = Some fs').
Proof.
  intros Hvalid Hfresh.
  pose proof (valid_name_nonempty name Hvalid) as Hname.
  pose proof (valid_name_no_clash name Hvalid) as Hclash.
  rewrite !(newCommand_fresh Handlebars name _ _ tr fs Hname Hfresh).
  unfold generateProject. repeat split.
  - rewrite (generatePythonProject_fresh _ _ _ _ _ _ Hclash Hfresh).
    eexists. eexists. split; [reflexivity|]. split.
    + rewrite server_py_path. apply readFile_lookup.
      { destruct (path_join [name] [toSnakeCase name]); discriminate. }
      unfold path_join. cbn [List.filter].
      destruct (nonempty (toSnakeCase name)); cbn [app];
        fs_lookup Hfresh; reflexivity.
    + apply python_enterprise_server_content.
  - rewrite (generateTypeScriptProject_fresh _ _ _ _ _ _ Hfresh).
    eexists. eexists. split; [reflexivity|]. split.
    + apply readFile_lookup; [discriminate|]. fs_lookup Hfresh. reflexivity.
    + apply typescript_enterprise_server_content.
  - rewrite !(generateGoProject_fresh _ _ _ _ _ _ Hfresh).
    eexists. split; reflexivity.
  - rewrite !(generateRustProject_fresh _ _ _ _ _ _ Hfresh).
    eexists. split; reflexivity.
Qed.

Lemma enterprise_generation_witness :
  exists fs' content,
    newCommand (fun text _ => Some text) None "hello-mcp" python enterprise stdio ∅ = Some fs'
    /\ readFile fs' (path_join ["hello-mcp"] [toSnakeCase "hello-mcp"; "server.py"]) = Some content
    /\ python_enterprise_content content = true.
Proof.
  refine (proj1 (enterprise_generation (fun text _ => Some text) "hello-mcp" stdio ∅ _ _)).
  - reflexivity.
  - intros p. apply lookup_empty.
Defined.

(** C3 as the specification has it fails on Go: the project generated with
    the enterprise pattern is the basic project, and its server names no
    health check, no prompt, no environment flag and no shutdown step. *)
Lemma enterprise_go_names_no_feature :
  newCommand (fun text _ => Some text) None "hello-mcp" go enterprise stdio ∅
  = newCommand (fun text _ => Some text) None "hello-mcp" go basic stdio ∅
  /\ (newCommand (fun text _ => Some text) None "hello-mcp" go enterprise stdio ∅
      ≫= fun fs => readFile fs ["hello-mcp"; "main.go"])
     = Some (main_go "hello_mcp" "HelloMcp")
  /\ mentions (main_go "hello_mcp" "HelloMcp") "health" = false
  /\ mentions (main_go "hello_mcp" "HelloMcp") "prompt" = false
  /\ mentions (main_go "hello_mcp" "HelloMcp") "env" = false
  /\ mentions (main_go "hello_mcp" "HelloMcp") "shutdown" = false
  /\ names_enterprise_features (main_go "hello_mcp" "HelloMcp") = false.
Proof. split; [reflexivity|]. repeat apply conj; vm_compute; reflexivity. Qed.

(** The same holds of Rust, and the TypeScript server has neither an
    environment flag nor a shutdown step. *)
Lemma enterprise_rust_typescript_features :
  names_enterprise_features (main_rs "hello_mcp" "HelloMcp") = false
  /\ mentions (generateTypeScriptEnterpriseServer "hello-mcp" "HelloMcp") "env" = false
  /\ mentions (generateTypeScriptEnterpriseServer "hello-mcp" "HelloMcp") "auth" = false
  /\ mentions (generateTypeScriptEnterpriseServer "hello-mcp" "HelloMcp") "shutdown" = false.
Proof. repeat apply conj; vm_compute; reflexivity. Qed.

(** The enterprise servers of Python and TypeScript replace the add tool of
    the basic pattern by the health check. *)
Lemma enterprise_drops_add :
  matchAll python_tool_re (generatePythonEnterpriseServer "hello_mcp" "HelloMcp")
  = ["hello"; "health_check"]
  /\ includes (generateTypeScriptBasicServer "hello-mcp" "HelloMcp") "name: 'add'," = true
  /\ includes (generateTypeScriptEnterpriseServer "hello-mcp" "HelloMcp") "name: 'add'," = false.
Proof. repeat apply conj; vm_compute; reflexivity. Qed.

(** ** Matching in a text with names inside *)

Lemma append_assoc (a b c : string) : ((a ++ b) ++ c = a ++ (b ++ c))%string.
Proof.
  induction a as [|x a IH]; [reflexivity|].
  change (String x ((a ++ b) ++ c) = String x (a ++ (b ++ c)))%string.
  f_equal. exact IH.
Qed.

Lemma length_append (a b : string) :
  String.length (a ++ b) = (String.length a + String.length b)%nat.
Proof.
  induction a as [|x a IH]; [reflexivity|].
  change (S (String.length (a ++ b)) = S (String.length a + String.length b)).
  f_equal. exact IH.
Qed.

Lemma greedy_open_agrees c ing k3 k :
  agrees k3 k -> agrees (greedy_open c ing k3) (greedy c ing k).
Proof.
  intros Hk acc s w. revert acc.
  induction s as [|a s IH]; intros acc; cbn [greedy_open]; [exact I|].
  change (String a s ++ w)%string with (String a (s ++ w)%string). cbn [greedy].
  destruct (c a).
  - specialize (IH (push ing a acc)).
    destruct (greedy_open c ing k3 (push ing a acc) s) as [cap rest| |].
    + rewrite IH. reflexivity.
    + rewrite IH. exact (Hk acc (String a s) w).
    + exact I.
  - exact (Hk acc (String a s) w).
Qed.

Lemma lazy_open_agrees c ing k3 k :
  agrees k3 k -> agrees (lazy_open c ing k3) (lazy c ing k).
Proof.
  intros Hk acc s w. revert acc.
  induction s as [|a s IH]; intros acc.
  - cbn [lazy_open]. pose proof (Hk acc EmptyString w) as H0.
    destruct (k3 acc EmptyString) as [cap rest| |]; [|exact I|exact I].
    change (EmptyString ++ w)%string with w in *.
    destruct w; cbn [lazy]; rewrite H0; reflexivity.
  - cbn [lazy_open]. pose proof (Hk acc (String a s) w) as H0.
    change (String a s ++ w)%string with (String a (s ++ w)%string) in *.
    destruct (k3 acc (String a s)) as [cap rest| |]; cbn [lazy]; [| |exact I].
    + rewrite H0. reflexivity.
    + rewrite H0. destruct (c a); [|reflexivity]. apply IH.
Qed.

Lemma exec_open_agrees r : forall ing, agrees (exec_open r ing) (exec r ing).
Proof.
  induction r as [|t r IH]; intros ing.
  - intros acc s w. reflexivity.
  - destruct t as [c [| | |]| |]; cbn [exec_open exec].
    + intros acc s w. destruct s as [|a s]; [exact I|].
      change (String a s ++ w)%string with (String a (s ++ w)%string).
      cbn [exec]. destruct (c a); [apply IH|reflexivity].
    + apply greedy_open_agrees, IH.
    + intros acc s w. destruct s as [|a s]; [exact I|].
      change (String a s ++ w)%string with (String a (s ++ w)%string).
      cbn [exec]. destruct (c a); [|reflexivity].
      apply (greedy_open_agrees c ing _ _ (IH ing)).
    + apply lazy_open_agrees, IH.
    + apply IH.
    + apply IH.
Qed.

Lemma scan_from_sound r t : forall skip caps k w,
  scan_from r skip t = Some (caps, k) ->
  matchAll_from r skip (t ++ w) = caps ++ matchAll_from r k w.
Proof.
  induction t as [|a t IH]; intros skip caps k w.
  - cbn [scan_from]. intros [= <- <-]. reflexivity.
  - change (String a t ++ w)%string with (String a (t ++ w)%string).
    cbn [scan_from]. destruct skip as [|n].
    + pose proof (exec_open_agrees r false [] (String a t) w) as Hexec.
      change (String a t ++ w)%string with (String a (t ++ w)%string) in Hexec.
      cbn [matchAll_from].
      destruct (exec_open r false [] (String a t)) as [cap rest| |]; [| |discriminate].
      * rewrite Hexec.
        destruct (scan_from r _ t) as [[caps' k']|] eqn:Hscan; [|discriminate].
        intros [= <- <-]. cbn [app]. f_equal.
        rewrite <- (IH _ _ _ w Hscan). f_equal.
        cbn [String.length]. rewrite !length_append. lia.
      * rewrite Hexec. apply IH.
    + cbn [matchAll_from]. apply IH.
Qed.

Lemma literal_fails_in_name p r' w : forall v ing acc,
  all_chars is_name_char v = true -> head_blocked p w = true ->
  exec (lit p ++ r') ing acc (v ++ w) = None.
Proof.
  intros v. revert p. induction v as [|a v IH]; intros p ing acc Hv Hw.
  - change (EmptyString ++ w)%string with w.
    destruct w as [|b w]; [discriminate|]. cbn [head_blocked] in Hw.
    destruct p as [|c p]; [discriminate|]. cbn [blocked] in Hw.
    apply andb_true_iff in Hw as [Hcb _]. apply negb_true_iff in Hcb.
    cbn [lit app exec]. rewrite Hcb. reflexivity.
  - change (String a v ++ w)%string with (String a (v ++ w)%string).
    cbn [all_chars] in Hv. apply andb_true_iff in Hv as [Ha Hv].
    destruct p as [|c p]; [destruct w; discriminate|].
    cbn [lit app exec]. destruct (Ascii.eqb_spec c a) as [->|_]; [|reflexivity].
    apply IH; [exact Hv|].
    destruct w as [|b w]; [discriminate|]. cbn [head_blocked blocked] in *.
    apply andb_true_iff in Hw as [_ Hw]. rewrite Ha in Hw. exact Hw.
Qed.

(** The search passes over a name when the literal that opens the pattern
    cannot start in it. *)
Lemma matchAll_from_name p r' v w :
  all_chars is_name_char v = true -> head_blocked p w = true ->
  matchAll_from (lit p ++ r') 0 (v ++ w) = matchAll_from (lit p ++ r') 0 w.
Proof.
  intros Hv Hw. induction v as [|a v IH]; [reflexivity|].
  change (String a v ++ w)%string with (String a (v ++ w)%string).
  pose proof (literal_fails_in_name p r' w (String a v) false [] Hv Hw) as Hfail.
  change (String a v ++ w)%string with (String a (v ++ w)%string) in Hfail.
  cbn [matchAll_from]. rewrite Hfail.
  cbn [all_chars] in Hv. apply andb_true_iff in Hv as [_ Hv]. apply IH, Hv.
Qed.

(** [matchAll] on a text of literal pieces and names: the pieces are scanned,
    the names are passed over. *)
Ltac scan_pieces :=
  unfold matchAll;
  repeat first
    [ erewrite scan_from_sound by (vm_compute; reflexivity)
    | rewrite matchAll_from_name by (assumption || (vm_compute; reflexivity)) ];
  vm_compute; reflexivity.

Lemma python_basic_analysis (nameSnake namePascal : string) :
  all_chars is_name_char nameSnake = true ->
  all_chars is_name_char namePascal = true ->
  let content := generatePythonBasicServer nameSnake namePascal in
  matchAll python_tool_re content = ["hello"; "add"]
  /\ matchAll python_resource_re content = ["config://settings"]
  /\ matchAll python_prompt_re content = [].
Proof.
  intros Hs Hp. cbv zeta. unfold generatePythonBasicServer.
  unfold python_tool_re, python_resource_re, python_prompt_re.
  repeat apply conj.
  - scan_pieces.
  - scan_pieces.
  - scan_pieces.
Qed.

Lemma python_enterprise_analysis (nameSnake namePascal : string) :
  all_chars is_name_char nameSnake = true ->
  all_chars is_name_char namePascal = true ->
  let content := generatePythonEnterpriseServer nameSnake namePascal in
  matchAll python_tool_re content = ["hello"; "health_check"]
  /\ matchAll python_resource_re content = ["config://settings"]
  /\ matchAll python_prompt_re content = ["system_prompt"].
Proof.
  intros Hs Hp. cbv zeta. unfold generatePythonEnterpriseServer.
  unfold python_tool_re, python_resource_re, python_prompt_re.
  repeat apply conj; scan_pieces.
Qed.

Lemma typescript_analysis (nameKebab namePascal : string) (pat : pattern) :
  all_chars is_name_char nameKebab = true ->
  all_chars is_name_char namePascal = true ->
  let content :=
    if is_enterprise pat
    then generateTypeScriptEnterpriseServer nameKebab namePascal
    else generateTypeScriptBasicServer nameKebab namePascal in
  matchAll typescript_tool_re content = []
  /\ matchAll typescript_resource_re content = []
  /\ matchAll typescript_prompt_re content = [].
Proof.
  intros Hk Hp. cbv zeta.
  unfold typescript_tool_re, typescript_resource_re, typescript_prompt_re.
  destruct (is_enterprise pat);
    unfold generateTypeScriptEnterpriseServer, generateTypeScriptBasicServer;
    repeat apply conj; scan_pieces.
Qed.

Lemma go_analysis (nameSnake namePascal : string) :
  all_chars is_name_char nameSnake = true ->
  all_chars is_name_char namePascal = true ->
  matchAll go_tool_re (main_go nameSnake namePascal) = ["hello"; "add"].
Proof. intros Hs Hp. unfold main_go, go_tool_re. scan_pieces. Qed.

Lemma rust_analysis (nameSnake namePascal : string) :
  all_chars is_name_char nameSnake = true ->
  all_chars is_name_char namePascal = true ->
  matchAll rust_tool_re (main_rs nameSnake namePascal) = ["hello"; "add"].
Proof. intros Hs Hp. unfold main_rs, rust_tool_re. scan_pieces. Qed.

Lemma is_name_char_upper (c : ascii) :
  is_name_char c = true -> is_name_char (char_toUpperCase c) = true.
Proof. destruct c as [[] [] [] [] [] [] [] []]; vm_compute; congruence. Qed.

Lemma toKebabCase_chars (name : string) :
  all_chars is_name_char name = true -> all_chars is_name_char (toKebabCase name) = true.
Proof.
  intros H. unfold toKebabCase.
  apply all_chars_replace_class.
  { intros c Hc. destruct (is_underscore c); cbn; [reflexivity|]. rewrite Hc. reflexivity. }
  apply all_chars_strip_leading. apply all_chars_map; [exact is_name_char_lower|].
  apply all_chars_replace_class; [|exact H].
  intros c Hc. apply is_name_char_mark; [reflexivity|exact Hc].
Qed.

Lemma split_class_chars (p sep : ascii -> bool) (s : string) :
  all_chars p s = true -> Forall (fun w => all_chars p w = true) (split_class sep s).
Proof.
  induction s as [|c s IH]; cbn [split_class all_chars].
  - intros _. repeat constructor.
  - intros H. apply andb_true_iff in H as [Hc Hs]. specialize (IH Hs).
    destruct (sep c); [constructor; [reflexivity|exact IH]|].
    destruct (split_class sep s) as [|w ws]; [repeat constructor; cbn; rewrite Hc; reflexivity|].
    apply Forall_cons_1 in IH as [Hw Hws].
    constructor; [cbn; rewrite Hc, Hw; reflexivity|exact Hws].
Qed.

Lemma capitalize_chars (w : string) :
  all_chars is_name_char w = true -> all_chars is_name_char (capitalize w) = true.
Proof.
  destruct w as [|c w]; [reflexivity|]. cbn [all_chars].
  intros H. apply andb_true_iff in H as [Hc Hw].
  unfold capitalize. cbn [charAt0 slice1]. rewrite all_chars_app.
  apply andb_true_iff. split.
  - cbn. rewrite (is_name_char_upper c Hc). reflexivity.
  - apply all_chars_map; [exact is_name_char_lower|exact Hw].
Qed.

Lemma toPascalCase_chars (name : string) :
  all_chars is_name_char name = true -> all_chars is_name_char (toPascalCase name) = true.
Proof.
  intros H. unfold toPascalCase.
  pose proof (split_class_chars is_name_char is_separator name H) as Hsplit.
  induction Hsplit as [|w ws Hw _ IH]; [reflexivity|].
  cbn [map join_empty fold_right]. rewrite all_chars_app, (capitalize_chars w Hw).
  exact IH.
Qed.

Lemma valid_name_chars (name : string) :
  valid_name name = true -> all_chars is_name_char name = true.
Proof. unfold valid_name. intros H. apply andb_true_iff in H. tauto. Qed.

(** ** The analyzer on generated projects *)

Lemma typescript_server_registrations (nameKebab namePascal : string) (pat : pattern) :
  let content :=
    if is_enterprise pat
    then generateTypeScriptEnterpriseServer nameKebab namePascal
    else generateTypeScriptBasicServer nameKebab namePascal in
  Forall (fun id => includes content ("        name: '" ++ id ++ "',") = true)
    (emitted_tools typescript pat ++ emitted_prompts typescript pat)
  /\ Forall (fun id => includes content ("        uri: '" ++ id ++ "',") = true)
       (emitted_resources typescript).
Proof.
  cbv zeta. unfold emitted_tools, emitted_prompts, emitted_resources.
  destruct (is_enterprise pat);
    unfold generateTypeScriptEnterpriseServer, generateTypeScriptBasicServer;
    split; repeat constructor; find_in_pieces.
Qed.

(** C1 at TypeScript: for every valid name the generated server registers
    its tools, its resource and, with the enterprise pattern, its prompt,
    and the analyzer of the generated directory finds none of them. *)
Theorem analyze_typescript_finds_nothing
    (Handlebars : string -> list (string * string) -> option string)
    (name : string) (pat : pattern) (tr : transport) (fs : gmap (list string) node) :
  valid_name name = true ->
  fresh fs [name] ->
  exists fs' content analysis,
    newCommand Handlebars None name typescript pat tr fs = Some fs'
    /\ readFile fs' [name; "src"; "index.ts"] = Some content
    /\ Forall (fun id => includes content ("        name: '" ++ id ++ "',") = true)
         (emitted_tools typescript pat ++ emitted_prompts typescript pat)
    /\ Forall (fun id => includes content ("        uri: '" ++ id ++ "',") = true)
         (emitted_resources typescript)
    /\ analyzeProject fs' [name] typescript = Some analysis
    /\ tools analysis = [] /\ resources analysis = [] /\ prompts analysis = [].
Proof.
  intros Hvalid Hfresh.
  pose proof (valid_name_nonempty name Hvalid) as Hname.
  pose proof (valid_name_chars name Hvalid) as Hchars.
  rewrite (newCommand_fresh Handlebars name _ _ tr fs Hname Hfresh).
  unfold generateProject.
  rewrite (generateTypeScriptProject_fresh _ _ _ _ _ _ Hfresh).
  destruct (typescript_server_registrations (toKebabCase name) (toPascalCase name) pat)
    as (Hn & Hu).
  destruct (typescript_analysis (toKebabCase name) (toPascalCase name) pat
              (toKebabCase_chars name Hchars) (toPascalCase_chars name Hchars))
    as (Ht & Hr & Hp).
  cbv zeta in Hn, Hu, Ht, Hr, Hp.
  set (content := if is_enterprise pat then _ else _) in *.
  unfold fresh in Hfresh. cbn [app] in Hfresh.
  eexists. exists content. eexists. split; [reflexivity|].
  assert (forall fs0 : gmap (list string) node,
            fs0 !! [name; "src"; "index.ts"] = Some (File content) ->
            readFile fs0 [name; "src"; "index.ts"] = Some content) as Hread.
  { intros fs0 H0. unfold readFile. cbn [stat]. rewrite H0. reflexivity. }
  split; [apply Hread; fs_lookup Hfresh; reflexivity|].
  split; [exact Hn|]. split; [exact Hu|].
  unfold analyzeProject, analyzeTypeScript, findFile, pathExists.
  cbn [path_join List.filter nonempty String.eqb negb app List.find stat].
  fs_lookup Hfresh. rewrite Hread by (fs_lookup Hfresh; reflexivity).
  cbn [mbind option_bind]. split; [reflexivity|].
  cbn [tools resources prompts push_tools push_resources push_prompts app].
  rewrite Ht, Hr, Hp. repeat apply conj; reflexivity.
Qed.

Lemma analyze_typescript_finds_nothing_witness :
  exists fs' content analysis,
    newCommand (fun text _ => Some text) None "hello-mcp" typescript basic stdio ∅ = Some fs'
    /\ readFile fs' ["hello-mcp"; "src"; "index.ts"] = Some content
    /\ Forall (fun id => includes content ("        name: '" ++ id ++ "',") = true)
         (emitted_tools typescript basic ++ emitted_prompts typescript basic)
    /\ Forall (fun id => includes content ("        uri: '" ++ id ++ "',") = true)
         (emitted_resources typescript)
    /\ analyzeProject fs' ["hello-mcp"] typescript = Some analysis
    /\ tools analysis = [] /\ resources analysis = [] /\ prompts analysis = [].
Proof.
  refine (analyze_typescript_finds_nothing (fun text _ => Some text)
            "hello-mcp" basic stdio ∅ eq_refl _).
  intros p. apply lookup_empty.
Defined.

(** The analyzer of Python looks for the package directory under the name
    of the project with underscores for hyphens, and the generator writes it
    under the snake form: a project named in Pascal case is analyzed as
    empty. *)
Lemma analyze_python_pascal_name :
  (newCommand (fun text _ => Some text) None "MyProject" python basic stdio ∅
   ≫= fun fs => analyzeProject fs ["MyProject"] python)
  = Some {| name := "MyProject"; language_of := python;
            tools := []; resources := []; prompts := [] |}.
Proof. vm_compute. reflexivity. Qed.

(** ** The validator on generated projects *)

Lemma validateCommon_generated fs p r :
  pathExists fs (path_join p ["README.md"]) = true ->
  pathExists fs (path_join p [".gitignore"]) = true ->
  pathExists fs (path_join p [".env"]) = false ->
  validateCommon fs p r = r.
Proof. unfold validateCommon. intros -> -> ->. reflexivity. Qed.

Lemma pyproject_declares_mcp (nameSnake : string) :
  includes (pyproject_toml nameSnake) "mcp" = true
  /\ includes (pyproject_toml nameSnake) "requires-python" = true.
Proof. unfold pyproject_toml. split; find_in_pieces. Qed.

Ltac fs_exists Hfresh :=
  unfold pathExists, path_join;
  cbn [List.filter nonempty String.eqb negb app stat];
  fs_lookup_ne Hfresh; reflexivity.


Lemma generated_servers_register_tools (nameSnake nameKebab namePascal : string) :
  includes (generatePythonBasicServer nameSnake namePascal) "@server.tool" = true
  /\ includes (generatePythonEnterpriseServer nameSnake namePascal) "@server.tool" = true
  /\ includes (generateTypeScriptBasicServer nameKebab namePascal) "ListToolsRequestSchema" = true
  /\ includes (generateTypeScriptEnterpriseServer nameKebab namePascal) "ListToolsRequestSchema"
     = true
  /\ includes (main_go nameSnake namePascal) "AddTool" = true
  /\ includes (main_rs nameSnake namePascal) "#[tool" = true.
Proof.
  unfold generatePythonBasicServer, generatePythonEnterpriseServer,
    generateTypeScriptBasicServer, generateTypeScriptEnterpriseServer, main_go, main_rs.
  repeat apply conj; find_in_pieces.
Qed.

Lemma generated_manifests_declare_mcp (nameSnake : string) :
  includes (go_mod nameSnake) "mcp-go" = true
  /\ includes (cargo_toml nameSnake) "rmcp" = true.
Proof. unfold go_mod, cargo_toml. split; find_in_pieces. Qed.

Lemma name_chars_differ (s t : string) :
  all_chars is_name_char s = true -> all_chars is_name_char t = false -> s <> t.
Proof. intros Hs Ht ->. congruence. Qed.

Ltac fs_read Hfresh :=
  apply readFile_lookup; [discriminate | fs_lookup_ne Hfresh; reflexivity].

Section GeneratedValidates.
Variable Handlebars : string -> list (string * string) -> option string.
Variable JSON_parse : string -> option json.

(** X21: generated projects that validate.  A generated project of any pattern
    validates without error and without warning in Go and in Rust for every
    valid name, in
    TypeScript when [JSON.parse] reads the dependency back from the
    generated manifest, and in Python when the snake form of the name is the
    name with underscores for hyphens, which is where the validator looks. *)
Lemma generated_project_validates (name : string) (lang : language) (pat : pattern)
    (tr : transport) (fs : gmap (list string) node) :
  valid_name name = true ->
  fresh fs [name] ->
  (lang = python -> toSnakeCase name = hyphens_to_underscores name) ->
  (lang = typescript ->
   declares_mcp_dependency JSON_parse typescript (package_json (toKebabCase name)) = true) ->
  exists fs',
    newCommand Handlebars None name lang pat tr fs = Some fs'
    /\ validateProject JSON_parse fs' [name] lang
       = Some {| valid := true; errors := []; warnings := [] |}.
Proof.
  intros Hvalid Hfresh Hpy Hts.
  pose proof (valid_name_nonempty name Hvalid) as Hname.
  pose proof (valid_name_no_clash name Hvalid) as Hclash.
  assert (all_chars is_name_char (toSnakeCase name) = true) as Hchars.
  { apply toSnakeCase_chars. unfold valid_name in Hvalid.
    apply andb_true_iff in Hvalid. tauto. }
  pose proof (name_chars_differ _ ".env" Hchars eq_refl) as Henv.
  destruct (generated_servers_register_tools (toSnakeCase name) (toKebabCase name)
              (toPascalCase name)) as (Hpb & Hpe & Htb & Hte & Hgo & Hrs).
  destruct (generated_manifests_declare_mcp (toSnakeCase name)) as (Hgomod & Hcargo).
  destruct (pyproject_declares_mcp (toSnakeCase name)) as (Hmcp & Hreq).
  rewrite (newCommand_fresh Handlebars name _ _ tr fs Hname Hfresh).
  unfold generateProject, validateProject.
  destruct lang.
  - (* python *)
    specialize (Hpy eq_refl).
    rewrite (generatePythonProject_fresh _ _ _ _ _ _ Hclash Hfresh).
    assert (nonempty (toSnakeCase name) = true) as Hne.
    { rewrite Hpy. destruct name as [|c name]; [discriminate|].
      unfold hyphens_to_underscores. cbn. destruct (is_hyphen c); reflexivity. }
    unfold path_join. cbn [List.filter]. rewrite Hne. cbn [app].
    unfold fresh in Hfresh. cbn [app] in Hfresh.
    eexists. split; [reflexivity|].
    rewrite validateCommon_generated by fs_exists Hfresh.
    unfold validatePython.
    change (basename [name]) with name. rewrite <- Hpy.
    unfold path_join. cbn [List.filter nonempty String.eqb negb app]. rewrite Hne. cbn [app].
    replace (pathExists _ [name; "pyproject.toml"]) with true by (symmetry; fs_exists Hfresh).
    cbn [negb].
    rewrite (readFile_lookup _ [name; "pyproject.toml"] (pyproject_toml (toSnakeCase name)))
      by (discriminate || (fs_lookup_ne Hfresh; reflexivity)).
    cbn [mbind option_bind]. rewrite Hmcp, Hreq. cbn [negb andb].
    cbn [List.find].
    replace (pathExists _ [name; toSnakeCase name; "server.py"]) with true
      by (symmetry; fs_exists Hfresh).
    erewrite readFile_lookup; [|discriminate|fs_lookup_ne Hfresh; reflexivity].
    cbn [mbind option_bind].
    destruct (is_enterprise pat); rewrite ?Hpb, ?Hpe; reflexivity.
  - (* typescript *)
    specialize (Hts eq_refl).
    rewrite (generateTypeScriptProject_fresh _ _ _ _ _ _ Hfresh).
    unfold fresh in Hfresh. cbn [app] in Hfresh.
    eexists. split; [reflexivity|].
    rewrite validateCommon_generated by fs_exists Hfresh.
    unfold validateTypeScript.
    cbn [path_join List.filter nonempty String.eqb negb app].
    replace (pathExists _ [name; "package.json"]) with true by (symmetry; fs_exists Hfresh).
    cbn [negb].
    rewrite (readFile_lookup _ [name; "package.json"] (package_json (toKebabCase name)))
      by (discriminate || (fs_lookup_ne Hfresh; reflexivity)).
    cbn [mbind option_bind].
    cbn [declares_mcp_dependency] in Hts.
    destruct (JSON_parse (package_json (toKebabCase name))) as [packageJson|]; [|discriminate].
    cbn [mbind option_bind].
    destruct (get_property packageJson "dependencies") as [deps|]; [|discriminate].
    destruct (get_property packageJson "devDependencies") as [devDeps|]; [|discriminate].
    cbn [mbind option_bind]. rewrite Hts. cbn [negb].
    replace (pathExists _ [name; "tsconfig.json"]) with true by (symmetry; fs_exists Hfresh).
    replace (pathExists _ [name; "src"; "index.ts"]) with true by (symmetry; fs_exists Hfresh).
    cbn [negb].
    erewrite readFile_lookup; [|discriminate|fs_lookup_ne Hfresh; reflexivity].
    cbn [mbind option_bind].
    destruct (is_enterprise pat); rewrite ?Htb, ?Hte; reflexivity.
  - (* go *)
    rewrite (generateGoProject_fresh _ _ _ _ _ _ Hfresh).
    unfold fresh in Hfresh. cbn [app] in Hfresh.
    eexists. split; [reflexivity|].
    rewrite validateCommon_generated by fs_exists Hfresh.
    unfold validateGo.
    cbn [path_join List.filter nonempty String.eqb negb app].
    replace (pathExists _ [name; "go.mod"]) with true by (symmetry; fs_exists Hfresh).
    cbn [negb].
    rewrite (readFile_lookup _ [name; "go.mod"] (go_mod (toSnakeCase name)))
      by (discriminate || (fs_lookup_ne Hfresh; reflexivity)).
    cbn [mbind option_bind]. rewrite Hgomod. cbn [negb andb].
    replace (pathExists _ [name; "main.go"]) with true by (symmetry; fs_exists Hfresh).
    cbn [negb].
    erewrite readFile_lookup; [|discriminate|fs_lookup_ne Hfresh; reflexivity].
    cbn [mbind option_bind]. rewrite Hgo. reflexivity.
  - (* rust *)
    rewrite (generateRustProject_fresh _ _ _ _ _ _ Hfresh).
    unfold fresh in Hfresh. cbn [app] in Hfresh.
    eexists. split; [reflexivity|].
    rewrite validateCommon_generated by fs_exists Hfresh.
    unfold validateRust.
    cbn [path_join List.filter nonempty String.eqb negb app].
    replace (pathExists _ [name; "Cargo.toml"]) with true by (symmetry; fs_exists Hfresh).
    cbn [negb].
    rewrite (readFile_lookup _ [name; "Cargo.toml"] (cargo_toml (toSnakeCase name)))
      by (discriminate || (fs_lookup_ne Hfresh; reflexivity)).
    cbn [mbind option_bind]. rewrite Hcargo. cbn [negb].
    replace (pathExists _ [name; "src"; "main.rs"]) with true by (symmetry; fs_exists Hfresh).
    cbn [negb].
    erewrite readFile_lookup; [|discriminate|fs_lookup_ne Hfresh; reflexivity].
    cbn [mbind option_bind]. rewrite Hrs. reflexivity.
Qed.
End GeneratedValidates.

(** ** Structural validator: when it returns *)

Lemma readFile_exists fs p :
  pathExists fs p = true -> stat fs p <> Some Dir -> exists text, readFile fs p = Some text.
Proof.
  unfold pathExists, readFile. destruct (stat fs p) as [[text|]|]; try congruence.
  intros _ _. exists text. reflexivity.
Qed.

Section ValidatorReturns.
Variable JSON_parse : string -> option json.

(** X23: validation returns a result whenever none of the paths it reads is a
    directory and, for TypeScript, the manifest parses to something other
    than [null].  For Python, whose validator reads the server under the
    name of the project directory, the project path has a segment. *)
Lemma validateProject_returns (fs : gmap (list string) node) (projectPath : list string)
    (lang : language) :
  (lang = python -> projectPath <> []) ->
  Forall (fun p => stat fs p <> Some Dir) (read_paths lang projectPath) ->
  (lang = typescript ->
   forall text, readFile fs (path_join projectPath ["package.json"]) = Some text ->
                exists packageJson, JSON_parse text = Some packageJson /\ packageJson <> JNull) ->
  is_Some (validateProject JSON_parse fs projectPath lang).
Proof.
  intros _ Hfiles Hparse. unfold validateProject.
  set (r0 := validateCommon fs projectPath _). clearbody r0.
  apply Forall_cons_1 in Hfiles as [Hmanifest Hentry].
  assert (forall p, In p (entry_point_paths lang projectPath) -> pathExists fs p = true ->
                    exists text, readFile fs p = Some text) as Hread.
  { intros p Hin Hex. apply readFile_exists; [exact Hex|].
    rewrite Forall_forall in Hentry. apply Hentry, list_elem_of_In, Hin. }
  destruct lang; cbn [manifest_file entry_point_paths] in *.
  - unfold validatePython.
    destruct (pathExists fs (path_join projectPath ["pyproject.toml"])) eqn:Hex;
      cbn [negb]; [|eexists; reflexivity].
    destruct (readFile_exists _ _ Hex Hmanifest) as [pyproject ->]. cbn [mbind option_bind].
    destruct (List.find (pathExists fs) _) as [serverPath|] eqn:Hfind; [|eexists; reflexivity].
    apply find_some in Hfind as [Hin Hsp].
    destruct (Hread serverPath Hin Hsp) as [content ->]. eexists. reflexivity.
  - unfold validateTypeScript.
    destruct (pathExists fs (path_join projectPath ["package.json"])) eqn:Hex;
      cbn [negb]; [|eexists; reflexivity].
    destruct (readFile_exists _ _ Hex Hmanifest) as [text Htext]. rewrite Htext.
    cbn [mbind option_bind].
    destruct (Hparse eq_refl text Htext) as (packageJson & -> & Hnull).
    cbn [mbind option_bind].
    assert (forall key, exists v, get_property packageJson key = Some v) as Hget.
    { intros key. destruct packageJson; try congruence; eexists; reflexivity. }
    destruct (Hget "dependencies") as [deps ->].
    destruct (Hget "devDependencies") as [devDeps ->]. cbn [mbind option_bind].
    destruct (pathExists fs (path_join projectPath ["src"; "index.ts"])) eqn:Hidx;
      cbn [negb]; [|eexists; reflexivity].
    destruct (Hread _ (or_introl eq_refl) Hidx) as [content ->]. eexists. reflexivity.
  - unfold validateGo.
    destruct (pathExists fs (path_join projectPath ["go.mod"])) eqn:Hex;
      cbn [negb]; [|eexists; reflexivity].
    destruct (readFile_exists _ _ Hex Hmanifest) as [goMod ->]. cbn [mbind option_bind].
    destruct (pathExists fs (path_join projectPath ["main.go"])) eqn:Hmain;
      cbn [negb]; [|eexists; reflexivity].
    destruct (Hread _ (or_introl eq_refl) Hmain) as [content ->]. eexists. reflexivity.
  - unfold validateRust.
    destruct (pathExists fs (path_join projectPath ["Cargo.toml"])) eqn:Hex;
      cbn [negb]; [|eexists; reflexivity].
    destruct (readFile_exists _ _ Hex Hmanifest) as [cargo ->]. cbn [mbind option_bind].
    destruct (pathExists fs (path_join projectPath ["src"; "main.rs"])) eqn:Hmain;
      cbn [negb]; [|eexists; reflexivity].
    destruct (Hread _ (or_introl eq_refl) Hmain) as [content ->]. eexists. reflexivity.
Qed.
End ValidatorReturns.

(** ** The materializer under the context of the new command *)

Lemma template_context_foo_bar (name : string) (pat : pattern) (tr : transport) :
  toSnakeCase name = "foo_bar" ->
  substitute_name (template_context name pat tr) "__projectNameSnake__" = "foo_bar"
  /\ substitute_name (template_context name pat tr) "__projectNameSnake__.conf.hbs"
     = "foo_bar.conf.hbs".
Proof.
  intros Hsnake. unfold substitute_name, template_context.
  cbn [fold_left fst snd]. rewrite Hsnake.
  assert (forall key value s,
            includes s ("__" ++ key ++ "__") = false ->
            replace_literal ("__" ++ key ++ "__") value s = s) as Hskip.
  { intros key value s. generalize ("__" ++ key ++ "__")%string. intros p.
    unfold replace_literal. generalize (@nil ascii).
    induction s as [|c s IH]; intros before; [reflexivity|].
    rewrite includes_cons. intros H. apply orb_false_iff in H as [Hp Hs].
    cbn [replace_literal_from]. rewrite Hp, (IH _ Hs). reflexivity. }
  split.
  - rewrite (Hskip "projectName") by (vm_compute; reflexivity).
    change (replace_literal ("__" ++ "projectNameSnake" ++ "__") "foo_bar" "__projectNameSnake__")
      with "foo_bar".
    rewrite !Hskip by (vm_compute; reflexivity). reflexivity.
  - rewrite (Hskip "projectName") by (vm_compute; reflexivity).
    change (replace_literal ("__" ++ "projectNameSnake" ++ "__") "foo_bar"
              "__projectNameSnake__.conf.hbs") with "foo_bar.conf.hbs".
    rewrite !Hskip by (vm_compute; reflexivity). reflexivity.
Qed.

(** The same template under [newCommand]: a project whose snake name is
    foo_bar gets the file at [foo_bar/foo_bar.conf]. *)
Lemma newCommand_materializes_foo_bar
    (Handlebars : string -> list (string * string) -> option string)
    (files : list entry) (content name : string) (lang : language) (pat : pattern)
    (tr : transport) (fs fs' : gmap (list string) node) :
  nonempty name = true ->
  toSnakeCase name = "foo_bar" ->
  has_file files ["__projectNameSnake__"; "__projectNameSnake__.conf.hbs"] content ->
  newCommand Handlebars (Some files) name lang pat tr fs = Some fs' ->
  is_file fs' [name; "foo_bar"; "foo_bar.conf"].
Proof.
  intros Hname Hsnake Hfile. unfold newCommand. rewrite (project_path name Hname).
  destruct (pathExists fs [name]); [discriminate|].
  destruct (ensureDir fs [name]) as [fs1|]; [cbn [mbind option_bind]|discriminate].
  intros Hcopy.
  pose proof (copyTemplateFiles_materializes Handlebars _ _ _ _ Hfile _ _ _ Hcopy) as H.
  cbn [materialized_path] in H.
  destruct (template_context_foo_bar name pat tr Hsnake) as [Hd Hf].
  rewrite Hd, Hf in H. exact H.
Qed.

Example newCommand_materializes_foo_bar_ex :
  toSnakeCase "FooBar" = "foo_bar" /\ toSnakeCase "foo-bar" = "foo_bar".
Proof. split; reflexivity. Qed.
(** ** The analyzer on generated projects, for every name *)

Section AnalyzeGenerated.
Variable Handlebars : string -> list (string * string) -> option string.

(** X22: generated projects that are analyzed in full.  For every valid name the
    analysis of a generated Go or Rust project gives the tools that the
    generator registered, and so does
    the analysis of a generated Python project when the snake form of the
    name is the name with underscores for hyphens, which is where the
    analyzer looks. *)
Lemma analyze_generated (name : string) (lang : language) (pat : pattern)
    (tr : transport) (fs : gmap (list string) node) :
  valid_name name = true ->
  fresh fs [name] ->
  lang <> typescript ->
  (lang = python -> toSnakeCase name = hyphens_to_underscores name) ->
  exists fs',
    newCommand Handlebars None name lang pat tr fs = Some fs'
    /\ analyzeProject fs' [name] lang
       = Some {| name := name; language_of := lang;
                 tools := emitted_tools lang pat;
                 resources := emitted_resources lang;
                 prompts := emitted_prompts lang pat |}.
Proof.
  intros Hvalid Hfresh Hlang Hpy.
  pose proof (valid_name_nonempty name Hvalid) as Hname.
  pose proof (valid_name_no_clash name Hvalid) as Hclash.
  pose proof (valid_name_chars name Hvalid) as Hchars.
  pose proof (toSnakeCase_chars name Hchars) as Hsnake.
  pose proof (toPascalCase_chars name Hchars) as Hpascal.
  pose proof (name_chars_differ _ "server.py" Hsnake eq_refl) as Hserver.
  rewrite (newCommand_fresh Handlebars name _ _ tr fs Hname Hfresh).
  unfold generateProject, analyzeProject. change (basename [name]) with name.
  destruct lang; [|congruence| |].
  - specialize (Hpy eq_refl).
    rewrite (generatePythonProject_fresh _ _ _ _ _ _ Hclash Hfresh).
    assert (nonempty (toSnakeCase name) = true) as Hne.
    { rewrite Hpy. destruct name as [|c name]; [discriminate|].
      unfold hyphens_to_underscores. cbn. destruct (is_hyphen c); reflexivity. }
    unfold path_join. cbn [List.filter]. rewrite Hne. cbn [app].
    unfold fresh in Hfresh. cbn [app] in Hfresh.
    eexists. split; [reflexivity|].
    unfold analyzePython, findFile. change (basename [name]) with name. rewrite <- Hpy.
    unfold path_join. cbn [List.filter nonempty String.eqb negb app]. rewrite Hne.
    cbn [app List.find].
    replace (pathExists _ [name; "server.py"]) with false by (symmetry; fs_exists Hfresh).
    replace (pathExists _ [name; toSnakeCase name; "server.py"]) with true
      by (symmetry; fs_exists Hfresh).
    erewrite readFile_lookup; [|discriminate|fs_lookup_ne Hfresh; reflexivity].
    cbn [mbind option_bind].
    unfold emitted_tools, emitted_resources, emitted_prompts.
    destruct (is_enterprise pat).
    + destruct (python_enterprise_analysis _ _ Hsnake Hpascal) as (-> & -> & ->). reflexivity.
    + destruct (python_basic_analysis _ _ Hsnake Hpascal) as (-> & -> & ->). reflexivity.
  - rewrite (generateGoProject_fresh _ _ _ _ _ _ Hfresh).
    unfold fresh in Hfresh. cbn [app] in Hfresh.
    eexists. split; [reflexivity|].
    unfold analyzeGo. cbn [path_join List.filter nonempty String.eqb negb app].
    replace (pathExists _ [name; "main.go"]) with true by (symmetry; fs_exists Hfresh).
    cbn [negb].
    erewrite readFile_lookup; [|discriminate|fs_lookup_ne Hfresh; reflexivity].
    cbn [mbind option_bind]. rewrite (go_analysis _ _ Hsnake Hpascal). reflexivity.
  - rewrite (generateRustProject_fresh _ _ _ _ _ _ Hfresh).
    unfold fresh in Hfresh. cbn [app] in Hfresh.
    eexists. split; [reflexivity|].
    unfold analyzeRust. cbn [path_join List.filter nonempty String.eqb negb app].
    replace (pathExists _ [name; "src"; "main.rs"]) with true by (symmetry; fs_exists Hfresh).
    cbn [negb].
    erewrite readFile_lookup; [|discriminate|fs_lookup_ne Hfresh; reflexivity].
    cbn [mbind option_bind]. rewrite (rust_analysis _ _ Hsnake Hpascal). reflexivity.
Qed.
End AnalyzeGenerated.

(** ** Python projects whose package directory is not where it is looked for *)

Section PythonPackageDirectory.
Variable Handlebars : string -> list (string * string) -> option string.
Variable JSON_parse : string -> option json.

(** C4 on Python: the generator writes the server under the snake form of
    the name and the validator looks for it under the name with underscores
    for hyphens, under [src] and in the project directory.  Whenever the
    snake form is none of these, the generated project, enterprise or not,
    is reported as lacking its server. *)
Theorem validate_python_misplaced_server (name : string) (pat : pattern) (tr : transport)
    (fs : gmap (list string) node) :
  valid_name name = true ->
  fresh fs [name] ->
  toSnakeCase name <> hyphens_to_underscores name ->
  toSnakeCase name <> "src" ->
  toSnakeCase name <> "" ->
  exists fs' r,
    newCommand Handlebars None name python pat tr fs = Some fs'
    /\ is_file fs' [name; toSnakeCase name; "server.py"]
    /\ validateProject JSON_parse fs' [name] python = Some r
    /\ errors r = ["Missing server.py file"]
    /\ valid r = false.
Proof.
  intros Hvalid Hfresh Hdir Hsrc Hempty.
  pose proof (valid_name_nonempty name Hvalid) as Hname.
  pose proof (valid_name_no_clash name Hvalid) as Hclash.
  pose proof (toSnakeCase_chars name (valid_name_chars name Hvalid)) as Hchars.
  pose proof (name_chars_differ _ ".env" Hchars eq_refl) as Henv.
  pose proof (name_chars_differ _ "server.py" Hchars eq_refl) as Hserver.
  destruct (pyproject_declares_mcp (toSnakeCase name)) as (Hmcp & Hreq).
  assert (nonempty (toSnakeCase name) = true) as Hne.
  { unfold nonempty. apply negb_true_iff, String.eqb_neq, Hempty. }
  rewrite (newCommand_fresh Handlebars name _ _ tr fs Hname Hfresh).
  unfold generateProject, validateProject.
  rewrite (generatePythonProject_fresh _ _ _ _ _ _ Hclash Hfresh).
  unfold path_join. cbn [List.filter]. rewrite Hne. cbn [app].
  unfold fresh in Hfresh. cbn [app] in Hfresh.
  eexists. eexists. split; [reflexivity|].
  split; [eexists; fs_lookup_ne Hfresh; reflexivity|].
  rewrite validateCommon_generated by fs_exists Hfresh.
  unfold validatePython. change (basename [name]) with name.
  assert (nonempty (hyphens_to_underscores name) = true) as Hne'.
  { destruct name as [|c name]; [discriminate|].
    unfold hyphens_to_underscores. cbn. destruct (is_hyphen c); reflexivity. }
  unfold path_join. cbn [List.filter nonempty String.eqb negb app]. rewrite Hne'. cbn [app].
  replace (pathExists _ [name; "pyproject.toml"]) with true by (symmetry; fs_exists Hfresh).
  cbn [negb].
  rewrite (readFile_lookup _ [name; "pyproject.toml"] (pyproject_toml (toSnakeCase name)))
    by (discriminate || (fs_lookup_ne Hfresh; reflexivity)).
  cbn [mbind option_bind]. rewrite Hmcp, Hreq. cbn [negb andb List.find].
  replace (pathExists _ [name; hyphens_to_underscores name; "server.py"]) with false
    by (symmetry; fs_exists Hfresh).
  replace (pathExists _ [name; "src"; "server.py"]) with false by (symmetry; fs_exists Hfresh).
  replace (pathExists _ [name; "server.py"]) with false by (symmetry; fs_exists Hfresh).
  split; [reflexivity|]. split; reflexivity.
Qed.

(** X25: the analyzer shares the mismatch of the validator: a generated
    Python project whose snake name is not its name with underscores for
    hyphens is analyzed as empty. *)
Lemma analyze_python_misplaced_server (name : string) (pat : pattern) (tr : transport)
    (fs : gmap (list string) node) :
  valid_name name = true ->
  fresh fs [name] ->
  toSnakeCase name <> hyphens_to_underscores name ->
  toSnakeCase name <> "" ->
  exists fs',
    newCommand Handlebars None name python pat tr fs = Some fs'
    /\ analyzeProject fs' [name] python
       = Some {| name := name; language_of := python;
                 tools := []; resources := []; prompts := [] |}.
Proof.
  intros Hvalid Hfresh Hdir Hempty.
  pose proof (valid_name_nonempty name Hvalid) as Hname.
  pose proof (valid_name_no_clash name Hvalid) as Hclash.
  pose proof (toSnakeCase_chars name (valid_name_chars name Hvalid)) as Hchars.
  pose proof (name_chars_differ _ "server.py" Hchars eq_refl) as Hserver.
  assert (nonempty (toSnakeCase name) = true) as Hne.
  { unfold nonempty. apply negb_true_iff, String.eqb_neq, Hempty. }
  rewrite (newCommand_fresh Handlebars name _ _ tr fs Hname Hfresh).
  unfold generateProject, analyzeProject.
  rewrite (generatePythonProject_fresh _ _ _ _ _ _ Hclash Hfresh).
  unfold path_join. cbn [List.filter]. rewrite Hne. cbn [app].
  unfold fresh in Hfresh. cbn [app] in Hfresh.
  eexists. split; [reflexivity|].
  unfold analyzePython, findFile. change (basename [name]) with name.
  assert (nonempty (hyphens_to_underscores name) = true) as Hne'.
  { destruct name as [|c name]; [discriminate|].
    unfold hyphens_to_underscores. cbn. destruct (is_hyphen c); reflexivity. }
  unfold path_join. cbn [List.filter nonempty String.eqb negb app]. rewrite Hne'.
  cbn [app List.find].
  replace (pathExists _ [name; "server.py"]) with false by (symmetry; fs_exists Hfresh).
  replace (pathExists _ [name; hyphens_to_underscores name; "server.py"]) with false
    by (symmetry; fs_exists Hfresh).
  reflexivity.
Qed.
End PythonPackageDirectory.

Lemma validate_python_misplaced_server_witness :
  exists fs' r,
    newCommand (fun text _ => Some text) None "MyProject" python enterprise stdio ∅ = Some fs'
    /\ is_file fs' ["MyProject"; toSnakeCase "MyProject"; "server.py"]
    /\ validateProject (fun _ => None) fs' ["MyProject"] python = Some r
    /\ errors r = ["Missing server.py file"]
    /\ valid r = false.
Proof.
  refine (validate_python_misplaced_server (fun text _ => Some text) (fun _ => None)
            "MyProject" enterprise stdio ∅ eq_refl _ _ _ _).
  - intros p. apply lookup_empty.
  - discriminate.
  - discriminate.
  - discriminate.
Defined.

(** * Further properties *)

(** ** Language detection *)

(** X1: [detectLanguage] answers with a language exactly when the manifest of
    that language exists and no manifest that is tried before it does
    (pyproject.toml, package.json, go.mod, Cargo.toml, in this order); it
    answers with nothing exactly when none of the four exists. *)
Theorem detectLanguage_first_manifest (fs : gmap (list string) node)
    (projectPath : list string) :
  (forall lang,
     detectLanguage fs projectPath = Some lang <->
     pathExists fs (path_join projectPath [manifest_file lang]) = true
     /\ forall other, (detection_rank other < detection_rank lang)%nat ->
                      pathExists fs (path_join projectPath [manifest_file other]) = false)
  /\ (detectLanguage fs projectPath = None <->
      forall lang, pathExists fs (path_join projectPath [manifest_file lang]) = false).
Proof.
  unfold detectLanguage.
  set (e := fun lang => pathExists fs (path_join projectPath [manifest_file lang])).
  change (pathExists fs (path_join projectPath ["pyproject.toml"])) with (e python).
  change (pathExists fs (path_join projectPath ["package.json"])) with (e typescript).
  change (pathExists fs (path_join projectPath ["go.mod"])) with (e go).
  change (pathExists fs (path_join projectPath ["Cargo.toml"])) with (e rust).
  change ((forall lang,
            (if e python then Some python
             else if e typescript then Some typescript
             else if e go then Some go
             else if e rust then Some rust else None) = Some lang <->
            e lang = true /\
            forall other, (detection_rank other < detection_rank lang)%nat -> e other = false)
         /\ ((if e python then Some python
              else if e typescript then Some typescript
              else if e go then Some go
              else if e rust then Some rust else None) = None <->
             forall lang, e lang = false)).
  clearbody e.
  assert (forall P : language -> Prop,
            (forall lang, P lang) <-> P python /\ P typescript /\ P go /\ P rust) as Hall.
  { intros P. split; [intros H; repeat split; apply H|].
    intros (H1 & H2 & H3 & H4) []; assumption. }
  split.
  - intros lang. rewrite Hall.
    destruct lang; cbn [detection_rank];
      destruct (e python), (e typescript), (e go), (e rust);
      split; intros H; try discriminate;
      try (repeat split; intros; try reflexivity; try lia; fail);
      try (destruct H as [H1 (H2 & H3 & H4 & H5)];
           first [discriminate H1
                 | discriminate (H2 ltac:(lia))
                 | discriminate (H3 ltac:(lia))
                 | discriminate (H4 ltac:(lia))
                 | reflexivity]).
  - rewrite Hall.
    destruct (e python), (e typescript), (e go), (e rust);
      split; intros H; try discriminate; try (repeat split; reflexivity);
      destruct H as (H1 & H2 & H3 & H4); discriminate.
Qed.

(** X2: a project generated for a valid name in a directory that has no
    entry of that name is detected as a project of the language it was
    generated for, whatever the pattern and the transport. *)
Theorem generated_project_detected
    (Handlebars : string -> list (string * string) -> option string)
    (name : string) (lang : language) (pat : pattern) (tr : transport)
    (fs : gmap (list string) node) :
  valid_name name = true ->
  fresh fs [name] ->
  exists fs',
    newCommand Handlebars None name lang pat tr fs = Some fs'
    /\ detectLanguage fs' [name] = Some lang.
Proof.
  intros Hvalid Hfresh.
  pose proof (valid_name_nonempty name Hvalid) as Hname.
  pose proof (valid_name_no_clash name Hvalid) as Hclash.
  pose proof (toSnakeCase_chars name (valid_name_chars name Hvalid)) as Hchars.
  pose proof (name_chars_differ _ "pyproject.toml" Hchars eq_refl) as Hpy.
  rewrite (newCommand_fresh Handlebars name _ _ tr fs Hname Hfresh).
  unfold generateProject, detectLanguage.
  destruct lang.
  - rewrite (generatePythonProject_fresh _ _ _ _ _ _ Hclash Hfresh).
    unfold fresh in Hfresh. cbn [app] in Hfresh.
    eexists. split; [reflexivity|].
    unfold path_join at 1. cbn [List.filter nonempty String.eqb negb app].
    replace (pathExists _ [name; "pyproject.toml"]) with true; [reflexivity|].
    symmetry. unfold pathExists, path_join. cbn [List.filter stat].
    destruct (nonempty (toSnakeCase name)); cbn [app]; fs_lookup_ne Hfresh; reflexivity.
  - rewrite (generateTypeScriptProject_fresh _ _ _ _ _ _ Hfresh).
    unfold fresh in Hfresh. cbn [app] in Hfresh.
    eexists. split; [reflexivity|].
    replace (pathExists _ (path_join [name] ["pyproject.toml"])) with false
      by (symmetry; fs_exists Hfresh).
    replace (pathExists _ (path_join [name] ["package.json"])) with true
      by (symmetry; fs_exists Hfresh).
    reflexivity.
  - rewrite (generateGoProject_fresh _ _ _ _ _ _ Hfresh).
    unfold fresh in Hfresh. cbn [app] in Hfresh.
    eexists. split; [reflexivity|].
    replace (pathExists _ (path_join [name] ["pyproject.toml"])) with false
      by (symmetry; fs_exists Hfresh).
    replace (pathExists _ (path_join [name] ["package.json"])) with false
      by (symmetry; fs_exists Hfresh).
    replace (pathExists _ (path_join [name] ["go.mod"])) with true
      by (symmetry; fs_exists Hfresh).
    reflexivity.
  - rewrite (generateRustProject_fresh _ _ _ _ _ _ Hfresh).
    unfold fresh in Hfresh. cbn [app] in Hfresh.
    eexists. split; [reflexivity|].
    replace (pathExists _ (path_join [name] ["pyproject.toml"])) with false
      by (symmetry; fs_exists Hfresh).
    replace (pathExists _ (path_join [name] ["package.json"])) with false
      by (symmetry; fs_exists Hfresh).
    replace (pathExists _ (path_join [name] ["go.mod"])) with false
      by (symmetry; fs_exists Hfresh).
    replace (pathExists _ (path_join [name] ["Cargo.toml"])) with true
      by (symmetry; fs_exists Hfresh).
    reflexivity.
Qed.

Lemma generated_project_detected_witness :
  exists fs',
    newCommand (fun text _ => Some text) None "my-server" rust enterprise sse ∅ = Some fs'
    /\ detectLanguage fs' ["my-server"] = Some rust.
Proof.
  refine (generated_project_detected (fun text _ => Some text) "my-server" rust enterprise sse ∅
            eq_refl _).
  intros p. apply lookup_empty.
Defined.

(** ** The analyzer and the validator on incomplete projects *)

(** X3: for a project path with a segment, whose last segment is the
    directory name of the project: when none of the places where the
    analyzer looks for the file of the language holds anything, the
    analysis succeeds with no tool, no resource and no prompt, under that
    directory name. *)
Theorem analyzeProject_without_entry_file (fs : gmap (list string) node)
    (projectPath : list string) (lang : language) :
  projectPath <> [] ->
  Forall (fun p => pathExists fs p = false) (analyzed_paths lang projectPath) ->
  analyzeProject fs projectPath lang
  = Some {| name := basename projectPath; language_of := lang;
            tools := []; resources := []; prompts := [] |}.
Proof.
  intros _ Hnone. unfold analyzeProject.
  destruct lang; cbn [analyzed_paths] in Hnone.
  - unfold analyzePython, findFile. cbn [app].
    rewrite (find_none_all _ _ Hnone). reflexivity.
  - unfold analyzeTypeScript, findFile. cbn [app].
    rewrite (find_none_all _ _ Hnone). reflexivity.
  - unfold analyzeGo. inversion Hnone as [|? ? H _]; subst. rewrite H. reflexivity.
  - unfold analyzeRust. inversion Hnone as [|? ? H _]; subst. rewrite H. reflexivity.
Qed.

Lemma analyzeProject_without_entry_file_witness :
  analyzeProject (<[ ["demo"; "package.json"] := File "{}" ]> (<[ ["demo"] := Dir ]> ∅))
    ["demo"] typescript
  = Some {| name := basename ["demo"]; language_of := typescript;
            tools := []; resources := []; prompts := [] |}.
Proof.
  apply analyzeProject_without_entry_file.
  - discriminate.
  - repeat constructor.
Defined.

Section MissingManifest.
Variable JSON_parse : string -> option json.

(** X4: when the manifest of the language is missing, validation stops at
    it: the result has the one error that names the manifest, [valid] is
    false, and the warnings are those of the common checks alone. *)
Theorem validateProject_missing_manifest (fs : gmap (list string) node)
    (projectPath : list string) (lang : language) :
  pathExists fs (path_join projectPath [manifest_file lang]) = false ->
  validateProject JSON_parse fs projectPath lang
  = Some {| valid := false;
            errors := [("Missing " ++ manifest_file lang)%string];
            warnings := warnings (validateCommon fs projectPath
                                    {| valid := true; errors := []; warnings := [] |}) |}.
Proof.
  intros Hmissing. unfold validateProject.
  destruct (errors_validateCommon fs projectPath
              {| valid := true; errors := []; warnings := [] |}) as [He Hv].
  set (r0 := validateCommon fs projectPath _) in *. cbn in He, Hv.
  destruct lang; cbn [manifest_file] in Hmissing;
    unfold validatePython, validateTypeScript, validateGo, validateRust;
    rewrite Hmissing; cbn [negb]; unfold set_invalid, push_error; cbn; rewrite He; reflexivity.
Qed.
End MissingManifest.

Lemma validateProject_missing_manifest_witness :
  validateProject (fun _ => None) (<[ ["demo"; "README.md"] := File "# demo" ]> ∅) ["demo"] go
  = Some {| valid := false;
            errors := [("Missing " ++ manifest_file go)%string];
            warnings := warnings (validateCommon (<[ ["demo"; "README.md"] := File "# demo" ]> ∅)
                                    ["demo"] {| valid := true; errors := []; warnings := [] |}) |}.
Proof.
  apply validateProject_missing_manifest.
  vm_compute. reflexivity.
Defined.

(** X5: the common checks only add warnings: the errors, [valid] and the
    warnings already there stay, and nothing is added exactly when README.md
    and .gitignore exist and .env does not. *)
Theorem validateCommon_warnings (fs : gmap (list string) node) (projectPath : list string)
    (r : ValidationResult) :
  errors (validateCommon fs projectPath r) = errors r
  /\ valid (validateCommon fs projectPath r) = valid r
  /\ (exists added, warnings (validateCommon fs projectPath r) = warnings r ++ added
                    /\ (length added <= 3)%nat)
  /\ (validateCommon fs projectPath r = r <->
      pathExists fs (path_join projectPath ["README.md"]) = true
      /\ pathExists fs (path_join projectPath [".gitignore"]) = true
      /\ pathExists fs (path_join projectPath [".env"]) = false).
Proof.
  assert (forall (ws added : list string), added <> [] -> ws ++ added <> ws) as Hgrow.
  { intros ws added Hne H. apply (f_equal (@length string)) in H.
    rewrite length_app in H. destruct added; [congruence|cbn in H; lia]. }
  unfold validateCommon.
  destruct (pathExists fs (path_join projectPath ["README.md"]));
    destruct (pathExists fs (path_join projectPath [".gitignore"]));
    destruct (pathExists fs (path_join projectPath [".env"]));
    cbn [negb push_warning errors valid warnings];
    (split; [reflexivity|]); (split; [reflexivity|]); split.
  all: match goal with
       | |- exists _, _ =>
           eexists; split;
           [rewrite <- ?app_assoc; first [reflexivity | symmetry; apply app_nil_r]
           |cbn; lia]
       | |- _ <-> _ => idtac
       end.
  all: split; [|intros (H1 & H2 & H3); try discriminate; destruct r; reflexivity].
  all: intros H; try (repeat split; reflexivity).
  all: exfalso; destruct r as [v e ws]; cbn in H; injection H as H;
    rewrite <- ?app_assoc in H; apply Hgrow in H; [exact H|discriminate].
Qed.

(** ** The diagram *)

Lemma capability_lines_nodes (title id : string) (items : list string) (i : nat)
    (item : string) :
  items !! i = Some item ->
  ("            " ++ id ++ index_text i ++ q "[~" ++ item ++ q "~]")%string
    ∈ capability_lines title id items
  /\ ("        SERVER --> " ++ id ++ index_text i)%string ∈ capability_lines title id items.
Proof.
  intros Hi. unfold capability_lines.
  destruct items as [|x items]; [discriminate|]. cbn [length Nat.ltb Nat.leb].
  split.
  - apply elem_of_app. right. apply elem_of_app. left.
    apply elem_of_lookup_imap. exists i, item. split; [reflexivity|exact Hi].
  - apply elem_of_app. right. apply elem_of_app. right. apply elem_of_app. right.
    apply elem_of_lookup_imap. exists i, item. split; [reflexivity|exact Hi].
Qed.

(** X6: every tool, resource and prompt of an analysis has, in the diagram,
    the node that carries its identifier and the edge from the server to that
    node; the node of the i-th tool is numbered Ti, that of the i-th
    resource Ri and that of the i-th prompt Pi, counting from 0. *)
Theorem diagram_lines_capability (analysis : ProjectAnalysis) (id : string)
    (items : list string) (i : nat) (item : string) :
  In (id, items) [("T", tools analysis); ("R", resources analysis); ("P", prompts analysis)] ->
  items !! i = Some item ->
  ("            " ++ id ++ index_text i ++ q "[~" ++ item ++ q "~]")%string
    ∈ diagram_lines analysis
  /\ ("        SERVER --> " ++ id ++ index_text i)%string ∈ diagram_lines analysis.
Proof.
  intros Hkind Hi. unfold diagram_lines.
  destruct Hkind as [[= <- <-]|[[= <- <-]|[[= <- <-]|[]]]].
  - destruct (capability_lines_nodes "Tools" "T" _ _ _ Hi) as [Hn He].
    split; repeat rewrite elem_of_app; right; right; left; assumption.
  - destruct (capability_lines_nodes "Resources" "R" _ _ _ Hi) as [Hn He].
    split; repeat rewrite elem_of_app; right; right; right; left; assumption.
  - destruct (capability_lines_nodes "Prompts" "P" _ _ _ Hi) as [Hn He].
    split; repeat rewrite elem_of_app; right; right; right; right; left; assumption.
Qed.

Lemma diagram_lines_capability_witness :
  let analysis := {| name := "demo"; language_of := go; tools := ["hello"; "add"];
                     resources := []; prompts := [] |} in
  ("            " ++ "T" ++ index_text 1 ++ q "[~" ++ "add" ++ q "~]")%string
    ∈ diagram_lines analysis
  /\ ("        SERVER --> " ++ "T" ++ index_text 1)%string ∈ diagram_lines analysis.
Proof.
  cbv zeta.
  apply (diagram_lines_capability
           {| name := "demo"; language_of := go; tools := ["hello"; "add"];
              resources := []; prompts := [] |} "T" ["hello"; "add"] 1 "add").
  - left. reflexivity.
  - reflexivity.
Defined.

Lemma capability_lines_marked (title id : string) (items : list string) (line : string) :
  line ∈ capability_lines title id items ->
  String.get 8 line = Some "s"%char ->
  line = (q "        subgraph ~" ++ title ++ q "~")%string /\ items <> [].
Proof.
  unfold capability_lines. destruct items as [|x items]; cbn [length Nat.ltb Nat.leb].
  { intros H. apply elem_of_nil in H. destruct H. }
  rewrite !elem_of_app, !elem_of_lookup_imap, !list_elem_of_singleton.
  intros [H|[(i & y & -> & _)|[->|(i & y & -> & _)]]] Hs.
  - split; [exact H|discriminate].
  - vm_compute in Hs. discriminate.
  - vm_compute in Hs. discriminate.
  - vm_compute in Hs. discriminate.
Qed.

(** Among the lines that are joined, the line that opens the Tools, the
    Resources or the Prompts block stands if and only if the list is not
    empty. *)
Lemma capability_sections_listed (analysis : ProjectAnalysis) :
  (q "        subgraph ~Tools~" ∈ diagram_lines analysis <-> tools analysis <> [])
  /\ (q "        subgraph ~Resources~" ∈ diagram_lines analysis <-> resources analysis <> [])
  /\ (q "        subgraph ~Prompts~" ∈ diagram_lines analysis <-> prompts analysis <> []).
Proof.
  assert (forall line,
            line ∈ diagram_lines analysis -> String.get 8 line = Some "s"%char ->
            (line = q "        subgraph ~Tools~" /\ tools analysis <> [])
            \/ (line = q "        subgraph ~Resources~" /\ resources analysis <> [])
            \/ (line = q "        subgraph ~Prompts~" /\ prompts analysis <> [])) as Hmarked.
  { intros line. unfold diagram_lines.
    rewrite !elem_of_app, !elem_of_cons, !elem_of_nil.
    intros [[->|[->|[->|[]]]]|[[->|[]]|[H|[H|[H|[->|[->|[->|[]]]]]]]]] Hs;
      try (vm_compute in Hs; discriminate).
    - left. exact (capability_lines_marked _ _ _ _ H Hs).
    - right. left. exact (capability_lines_marked _ _ _ _ H Hs).
    - right. right. exact (capability_lines_marked _ _ _ _ H Hs). }
  assert (forall title id items,
            items <> [] ->
            (q "        subgraph ~" ++ title ++ q "~")%string ∈ capability_lines title id items)
    as Hopen.
  { intros title id [|x items] Hne; [congruence|].
    unfold capability_lines. cbn [length Nat.ltb Nat.leb]. apply elem_of_app. left.
    apply list_elem_of_singleton. reflexivity. }
  unfold diagram_lines in Hopen |- *.
  split; [|split]; split.
  - intros Hin. destruct (Hmarked _ Hin eq_refl) as [[_ H]|[[H _]|[H _]]];
      [exact H|vm_compute in H; discriminate|vm_compute in H; discriminate].
  - intros Hne. rewrite !elem_of_app. right. right. left. exact (Hopen "Tools" "T" _ Hne).
  - intros Hin. destruct (Hmarked _ Hin eq_refl) as [[H _]|[[_ H]|[H _]]];
      [vm_compute in H; discriminate|exact H|vm_compute in H; discriminate].
  - intros Hne. rewrite !elem_of_app. right. right. right. left.
    exact (Hopen "Resources" "R" _ Hne).
  - intros Hin. destruct (Hmarked _ Hin eq_refl) as [[H _]|[[H _]|[_ H]]];
      [vm_compute in H; discriminate|vm_compute in H; discriminate|exact H].
  - intros Hne. rewrite !elem_of_app. right. right. right. right. left.
    exact (Hopen "Prompts" "P" _ Hne).
Qed.

(** ** The diagram as a text *)

Lemma text_lines_one_line (s : string) : one_line s = true -> text_lines s = [s].
Proof.
  unfold text_lines, one_line. induction s as [|c s IH]; [reflexivity|].
  cbn [all_chars split_class]. intros H. apply andb_true_iff in H as [Hc Hs].
  apply negb_true_iff in Hc. rewrite Hc, (IH Hs). reflexivity.
Qed.

Lemma text_lines_break (a b : string) :
  one_line a = true -> text_lines (a ++ newline ++ b) = a :: text_lines b.
Proof.
  unfold text_lines, one_line. induction a as [|c a IH].
  - intros _. reflexivity.
  - change (String c a ++ newline ++ b)%string with (String c (a ++ newline ++ b)%string).
    cbn [all_chars split_class]. intros H. apply andb_true_iff in H as [Hc Ha].
    apply negb_true_iff in Hc. rewrite Hc, (IH Ha). reflexivity.
Qed.

(** Splitting at the line breaks undoes the join when no line holds one. *)
Lemma text_lines_join_lines (lines : list string) :
  lines <> [] -> Forall (fun line => one_line line = true) lines ->
  text_lines (join_lines lines) = lines.
Proof.
  intros Hne Hlines. induction Hlines as [|line rest Hline Hrest IH]; [congruence|].
  destruct rest as [|line' rest].
  - cbn [join_lines]. apply text_lines_one_line, Hline.
  - change (join_lines (line :: line' :: rest))
      with (line ++ newline ++ join_lines (line' :: rest))%string.
    rewrite (text_lines_break _ _ Hline), IH by discriminate. reflexivity.
Qed.

Lemma one_line_app (a b : string) : one_line (a ++ b) = one_line a && one_line b.
Proof. apply all_chars_app. Qed.

Lemma index_text_one_line (i : nat) : one_line (index_text i) = true.
Proof.
  unfold index_text. generalize (Nat.to_uint i). intros d.
  induction d; cbn [NilEmpty.string_of_uint]; [reflexivity|..]; exact IHd.
Qed.

Lemma capability_lines_one_line (title id : string) (items : list string) (line : string) :
  one_line title = true -> one_line id = true ->
  Forall (fun item => one_line item = true) items ->
  line ∈ capability_lines title id items -> one_line line = true.
Proof.
  intros Htitle Hid Hitems. unfold capability_lines.
  destruct (0 <? length items)%nat; [|intros H; inversion H].
  rewrite !elem_of_app, !elem_of_lookup_imap, !list_elem_of_singleton.
  intros [->|[(i & item & -> & Hi)|[->|(i & item & -> & Hi)]]].
  - rewrite !one_line_app, Htitle. reflexivity.
  - rewrite Forall_lookup in Hitems.
    rewrite !one_line_app, Hid, index_text_one_line, (Hitems i item Hi). reflexivity.
  - reflexivity.
  - rewrite !one_line_app, Hid, index_text_one_line. reflexivity.
Qed.

Lemma diagram_lines_one_line (analysis : ProjectAnalysis) :
  one_line (name analysis) = true ->
  Forall (fun item => one_line item = true)
    (tools analysis ++ resources analysis ++ prompts analysis) ->
  Forall (fun line => one_line line = true) (diagram_lines analysis).
Proof.
  intros Hname Hitems.
  apply Forall_app in Hitems as [Htools Hitems]. apply Forall_app in Hitems as [Hres Hprompts].
  unfold diagram_lines. repeat apply Forall_app_2.
  - repeat constructor. rewrite !one_line_app, Hname. reflexivity.
  - repeat constructor. rewrite !one_line_app, Hname.
    destruct (language_of analysis); reflexivity.
  - apply Forall_forall. intros line.
    apply capability_lines_one_line; [reflexivity|reflexivity|exact Htools].
  - apply Forall_forall. intros line.
    apply capability_lines_one_line; [reflexivity|reflexivity|exact Hres].
  - apply Forall_forall. intros line.
    apply capability_lines_one_line; [reflexivity|reflexivity|exact Hprompts].
  - repeat constructor.
Qed.

(** X7: when neither the name of the project nor any identifier holds a
    line break, the lines of the text that [generateMermaidDiagram] returns
    are the lines it has joined, and among them the opening line of the
    Tools block stands exactly when the analysis has a tool, that of the
    Resources block exactly when it has a resource, and that of the Prompts
    block exactly when it has a prompt. *)
Theorem diagram_text_sections (analysis : ProjectAnalysis) :
  one_line (name analysis) = true ->
  Forall (fun item => one_line item = true)
    (tools analysis ++ resources analysis ++ prompts analysis) ->
  text_lines (generateMermaidDiagram analysis) = diagram_lines analysis
  /\ (q "        subgraph ~Tools~" ∈ text_lines (generateMermaidDiagram analysis)
      <-> tools analysis <> [])
  /\ (q "        subgraph ~Resources~" ∈ text_lines (generateMermaidDiagram analysis)
      <-> resources analysis <> [])
  /\ (q "        subgraph ~Prompts~" ∈ text_lines (generateMermaidDiagram analysis)
      <-> prompts analysis <> []).
Proof.
  intros Hname Hitems.
  assert (text_lines (generateMermaidDiagram analysis) = diagram_lines analysis) as ->.
  { unfold generateMermaidDiagram. apply text_lines_join_lines.
    - unfold diagram_lines. discriminate.
    - apply diagram_lines_one_line; assumption. }
  split; [reflexivity|]. apply capability_sections_listed.
Qed.

Lemma diagram_text_sections_witness :
  let analysis := {| name := "demo"; language_of := go; tools := ["hello"; "add"];
                     resources := []; prompts := [] |} in
  text_lines (generateMermaidDiagram analysis) = diagram_lines analysis
  /\ (q "        subgraph ~Tools~" ∈ text_lines (generateMermaidDiagram analysis)
      <-> tools analysis <> [])
  /\ (q "        subgraph ~Resources~" ∈ text_lines (generateMermaidDiagram analysis)
      <-> resources analysis <> [])
  /\ (q "        subgraph ~Prompts~" ∈ text_lines (generateMermaidDiagram analysis)
      <-> prompts analysis <> []).
Proof.
  cbv zeta.
  apply (diagram_text_sections
           {| name := "demo"; language_of := go; tools := ["hello"; "add"];
              resources := []; prompts := [] |}).
  - reflexivity.
  - repeat constructor.
Defined.

(** ** The commands *)

Lemma exited_print (o : output) (w : world) : exited (print o w) = exited w.
Proof. reflexivity. Qed.

Lemma exited_exit (status : nat) (w : world) : exited (exit status w) = Some status.
Proof. reflexivity. Qed.

Lemma files_print_each (f : string -> output) (l : list string) (w : world) :
  files (fold_left (fun w e => print (f e) w) l w) = files w.
Proof. revert w. induction l as [|e l IH]; intros w; [reflexivity|]. cbn [fold_left]. now rewrite IH. Qed.

Lemma exited_print_each (f : string -> output) (l : list string) (w : world) :
  exited (fold_left (fun w e => print (f e) w) l w) = exited w.
Proof. revert w. induction l as [|e l IH]; intros w; [reflexivity|]. cbn [fold_left]. now rewrite IH. Qed.

Ltac world_simpl :=
  repeat first [ rewrite files_print | rewrite exited_print | rewrite files_exit
               | rewrite exited_exit | rewrite files_print_each
               | rewrite exited_print_each ].

Section CommandProperties.
Variable JSON_parse : string -> option json.
Variable caught_message : string.

(** X8: the diagram command writes at most one file, the one of the [--file]
    option, and only when the output format is not mermaid; what it writes
    for svg and for png is the Mermaid text itself.  In every other run,
    failed or not, the files are left as they were. *)
Theorem diagramCommand_files (project : list string) (output : diagram_format)
    (file : option (list string)) (w : world) :
  let w' := diagramCommand caught_message project output file w in
  files w' = files w
  \/ exists outputPath lang analysis,
       output <> mermaid
       /\ file = Some outputPath
       /\ detectLanguage (files w) project = Some lang
       /\ analyzeProject (files w) project lang = Some analysis
       /\ files w' = <[outputPath := File (generateMermaidDiagram analysis)]> (files w)
       /\ exited w' = exited w.
Proof.
  cbv zeta. unfold diagramCommand.
  destruct (pathExists (files w) project); cbn [negb]; [|left; reflexivity].
  cbn [print files].
  destruct (detectLanguage (files w) project) as [lang|] eqn:Hlang; [|left; reflexivity].
  destruct (analyzeProject (files w) project lang) as [analysis|] eqn:Han;
    [|left; reflexivity].
  destruct file as [outputPath|]; [|destruct output; left; reflexivity].
  destruct output; cbn [print files console exited];
    try (left; reflexivity);
    (destruct (writeFile (files w) outputPath (generateMermaidDiagram analysis)) as [fs'|] eqn:Hw;
     [|left; reflexivity]);
    right; exists outputPath, lang, analysis;
    (split; [discriminate|]); (split; [reflexivity|]); (split; [reflexivity|]);
    (split; [exact Han|]); (split; [|reflexivity]); cbn [print files];
    unfold writeFile in Hw;
    destruct (stat (files w) (removelast outputPath)) as [[|]|]; try discriminate;
    destruct (stat (files w) outputPath) as [[|]|]; try discriminate;
    injection Hw as <-; reflexivity.
Qed.

(** X9: the validate command never changes a file, with or without
    [--fix]; the option makes no difference to the run.  A run that starts
    with no exit status ends with status 1 exactly when the project path is
    missing, or no language is detected, or the validation throws, or its
    result holds an error; warnings alone never make it fail. *)
Theorem validateCommand_outcome (project : list string) (fix_option : bool) (w : world) :
  exited w = None ->
  let w' := validateCommand JSON_parse caught_message project fix_option w in
  files w' = files w
  /\ validateCommand JSON_parse caught_message project (negb fix_option) w = w'
  /\ (exited w' = Some 1%nat <->
      pathExists (files w) project = false
      \/ detectLanguage (files w) project = None
      \/ exists lang,
           detectLanguage (files w) project = Some lang
           /\ (validateProject JSON_parse (files w) project lang = None
               \/ exists r, validateProject JSON_parse (files w) project lang = Some r
                            /\ errors r <> [])).
Proof.
  intros Hrun. cbv zeta.
  split; [|split; [reflexivity|]].
  - unfold validateCommand.
    destruct (pathExists (files w) project); cbn [negb]; [|reflexivity].
    destruct (detectLanguage _ project) as [lang|]; [|reflexivity].
    destruct (validateProject JSON_parse _ project lang) as [r|]; [|reflexivity].
    destruct (valid r && (length (warnings r) =? 0)%nat); [reflexivity|].
    destruct (errors r) as [|e es], (warnings r) as [|x xs];
      cbn [length Nat.ltb Nat.leb]; world_simpl; reflexivity.
  - unfold validateCommand.
    destruct (pathExists (files w) project); cbn [negb];
      [|split; [intros _; left; reflexivity|reflexivity]].
    change (files (print _ (print _ (print _ (print _ w))))) with (files w).
    destruct (detectLanguage (files w) project) as [lang|] eqn:Hlang;
      [|split; [intros _; right; left; reflexivity|reflexivity]].
    destruct (validateProject JSON_parse (files w) project lang) as [r|] eqn:Hr;
      [|split; [intros _; right; right; exists lang; split; [reflexivity|left; exact Hr]
               |reflexivity]].
    assert (consistent r) as Hc.
    { revert Hr. unfold validateProject.
      assert (consistent (validateCommon (files w) project
                            {| valid := true; errors := []; warnings := [] |})) as Hc
        by auto using validateCommon_consistent with validator.
      destruct lang;
        eauto using validatePython_consistent, validateTypeScript_consistent,
          validateGo_consistent, validateRust_consistent. }
    match goal with |- _ <-> ?R => assert (R <-> errors r <> []) as -> end.
    { split.
      - intros [H|[H|(lang0 & [= <-] & [H|(r0 & H & He)])]]; try discriminate; congruence.
      - intros He. right. right. exists lang. split; [reflexivity|].
        right. exists r. split; [exact Hr|exact He]. }
    unfold consistent in Hc.
    destruct (valid r) eqn:Hv; cbn [andb].
    + rewrite (proj1 Hc eq_refl). cbn [length Nat.ltb Nat.leb].
      destruct (warnings r) as [|x xs]; cbn [length Nat.eqb Nat.ltb Nat.leb];
        world_simpl; rewrite Hrun; split; congruence.
    + assert (errors r <> []) as He by (intros H; apply Hc in H; discriminate).
      destruct (errors r) as [|e es]; [congruence|]. cbn [length Nat.ltb Nat.leb].
      world_simpl. split; [discriminate|reflexivity].
Qed.

(** X10: a run of the add command that starts with no exit status ends
    with status 1 exactly when the type is none of tool, resource and
    prompt, or the server path is missing, or no language is detected;
    otherwise it ends with no exit status and has printed the snippet. *)
Theorem addCommand_exit (type name : string) (server : list string) (w : world) :
  exited w = None ->
  let w' := addCommand type name server w in
  (exited w' = Some 1%nat <->
   parse_AddType type = None
   \/ pathExists (files w) server = false
   \/ detectLanguage (files w) server = None)
  /\ (exited w' = Some 1%nat \/ exited w' = None).
Proof.
  intros Hrun. cbv zeta. unfold addCommand.
  destruct (parse_AddType type) as [t|]; [|split; [split; auto|left; reflexivity]].
  destruct (pathExists (files w) server); cbn [negb];
    [|split; [split; auto|left; reflexivity]].
  destruct (detectLanguage (files w) server) as [lang|];
    [|split; [split; auto|left; reflexivity]].
  assert (forall w0, exited (match lang with
                             | python => addToPython server t name w0
                             | typescript => addToTypeScript server t name w0
                             | go => addToGo server t name w0
                             | rust => addToRust server t name w0
                             end) = exited w0) as Hadd
    by (intros w0; destruct lang; reflexivity).
  world_simpl. rewrite Hadd. world_simpl. rewrite Hrun.
  split; [|right; reflexivity].
  split; [discriminate|]. intros [H|[H|H]]; discriminate.
Qed.
End CommandProperties.

Lemma validateCommand_outcome_witness :
  let w := {| files := <[ ["demo"; "go.mod"] := File "module demo" ]> (<[ ["demo"] := Dir ]> ∅);
              console := []; exited := None |} in
  let w' := validateCommand (fun _ => None) "EISDIR" ["demo"] true w in
  files w' = files w
  /\ validateCommand (fun _ => None) "EISDIR" ["demo"] (negb true) w = w'
  /\ (exited w' = Some 1%nat <->
      pathExists (files w) ["demo"] = false
      \/ detectLanguage (files w) ["demo"] = None
      \/ exists lang,
           detectLanguage (files w) ["demo"] = Some lang
           /\ (validateProject (fun _ => None) (files w) ["demo"] lang = None
               \/ exists r, validateProject (fun _ => None) (files w) ["demo"] lang = Some r
                            /\ errors r <> [])).
Proof.
  apply (validateCommand_outcome (fun _ => None) "EISDIR" ["demo"] true).
  reflexivity.
Defined.

Lemma addCommand_exit_witness :
  let w := {| files := <[ ["demo"; "go.mod"] := File "module demo" ]> (<[ ["demo"] := Dir ]> ∅);
              console := []; exited := None |} in
  let w' := addCommand "tool" "fetch" ["demo"] w in
  (exited w' = Some 1%nat <->
   parse_AddType "tool" = None
   \/ pathExists (files w) ["demo"] = false
   \/ detectLanguage (files w) ["demo"] = None)
  /\ (exited w' = Some 1%nat \/ exited w' = None).
Proof.
  apply (addCommand_exit "tool" "fetch" ["demo"]).
  reflexivity.
Defined.

(** ** The package root *)

Lemma app_snoc_split {A : Type} (rest mid rest' : list A) (x : A) :
  rest ++ [x] = mid ++ rest' ->
  (rest' = [] /\ mid = rest ++ [x])
  \/ exists rest'', rest' = rest'' ++ [x] /\ rest = mid ++ rest''.
Proof.
  intros H. induction rest' as [|y rest'' _] using rev_ind.
  - left. split; [reflexivity|]. rewrite app_nil_r in H. symmetry. exact H.
  - right. exists rest''. rewrite app_assoc in H.
    apply app_inj_tail in H as [H ->]. split; [reflexivity|exact H].
Qed.

Section PackageRoot.
Variable JSON_parse : string -> option json.

Lemma search_package_root_step (fs : gmap (list string) node) (x : string)
    (parent : list string) (found : option (list string)) :
  search_package_root JSON_parse fs (x :: parent) = Some found ->
  (found = Some (rev (x :: parent)) /\ is_package_root JSON_parse fs (rev (x :: parent)))
  \/ (search_package_root JSON_parse fs parent = Some found
      /\ ~ is_package_root JSON_parse fs (rev (x :: parent))).
Proof.
  cbn [search_package_root]. set (dir := rev (x :: parent)).
  unfold is_package_root.
  destruct (pathExists fs (path_join dir ["package.json"])) eqn:Hex.
  - destruct (readFile fs (path_join dir ["package.json"])) as [text|];
      [cbn [mbind option_bind]|discriminate].
    destruct (JSON_parse text) as [pkg|] eqn:Hpkg; [cbn [mbind option_bind]|discriminate].
    destruct (get_property pkg "name") as [pkg_name|] eqn:Hname;
      [cbn [mbind option_bind]|discriminate].
    assert (pkg_name <> Some (JString "mcpforge") ->
            ~ exists text0 pkg0, Some text = Some text0 /\ JSON_parse text0 = Some pkg0
                                 /\ get_property pkg0 "name" = Some (Some (JString "mcpforge")))
      as Hother.
    { intros Hne (text0 & pkg0 & [= <-] & H1 & H2). congruence. }
    destruct pkg_name as [[| | |s| |]|]; try (intros H; right; split; [exact H|];
                                              apply Hother; discriminate).
    destruct (String.eqb_spec s "mcpforge") as [->|Hs].
    + intros [= <-]. left. split; [reflexivity|]. exists text, pkg. auto.
    + intros H. right. split; [exact H|]. apply Hother. congruence.
  - intros H. right. split; [exact H|]. intros (text & pkg & Hread & _).
    unfold readFile in Hread. unfold pathExists in Hex.
    destruct (stat fs (path_join dir ["package.json"])); discriminate.
Qed.

Lemma search_package_root_found (fs : gmap (list string) node) (rdir dir : list string) :
  search_package_root JSON_parse fs rdir = Some (Some dir) ->
  exists rest,
    rev rdir = dir ++ rest /\ dir <> [] /\ is_package_root JSON_parse fs dir
    /\ forall mid rest', rest = mid ++ rest' -> mid <> [] ->
                         ~ is_package_root JSON_parse fs (dir ++ mid).
Proof.
  induction rdir as [|x parent IH]; [discriminate|].
  intros H. apply search_package_root_step in H as [[[= ->] Hroot]|[H Hnot]].
  - exists []. rewrite app_nil_r. split; [reflexivity|]. split.
    { cbn [rev]. intros Hnil. apply app_eq_nil in Hnil as [_ Hnil]. discriminate. }
    split; [exact Hroot|]. intros mid rest' Hsplit Hmid.
    symmetry in Hsplit. apply app_eq_nil in Hsplit as [-> _]. congruence.
  - destruct (IH H) as (rest & Hrev & Hdir & Hroot & Hnearest).
    exists (rest ++ [x]). cbn [rev]. rewrite Hrev, <- app_assoc.
    split; [reflexivity|]. split; [exact Hdir|]. split; [exact Hroot|].
    intros mid rest' Hsplit Hmid.
    apply app_snoc_split in Hsplit as [[-> ->]|(rest'' & -> & ->)].
    + cbn [rev] in Hnot. rewrite Hrev, <- app_assoc in Hnot. exact Hnot.
    + apply (Hnearest mid rest''); [reflexivity|exact Hmid].
Qed.

Lemma search_package_root_none (fs : gmap (list string) node) (rdir : list string) :
  search_package_root JSON_parse fs rdir = Some None ->
  forall pre rest, rev rdir = pre ++ rest -> pre <> [] ->
                   ~ is_package_root JSON_parse fs pre.
Proof.
  induction rdir as [|x parent IH]; intros H pre rest Hsplit Hpre.
  - cbn [rev] in Hsplit. symmetry in Hsplit. apply app_eq_nil in Hsplit as [-> _]. congruence.
  - apply search_package_root_step in H as [[[=] _]|[H Hnot]].
    cbn [rev] in Hsplit, Hnot.
    apply app_snoc_split in Hsplit as [[-> ->]|(rest'' & -> & Hparent)].
    + exact Hnot.
    + apply (IH H pre rest''); [exact Hparent|exact Hpre].
Qed.

(** X11: when [findPackageRoot] returns, the directory it gives is the
    start directory or one of its ancestors.  It is the nearest of them,
    the start directory included and the root left out, whose package.json
    parses to an object named mcpforge; when there is none, it is the start
    directory itself. *)
Theorem findPackageRoot_nearest (fs : gmap (list string) node) (startDir dir : list string) :
  findPackageRoot JSON_parse fs startDir = Some dir ->
  (exists rest,
     startDir = dir ++ rest /\ dir <> [] /\ is_package_root JSON_parse fs dir
     /\ forall mid rest', rest = mid ++ rest' -> mid <> [] ->
                          ~ is_package_root JSON_parse fs (dir ++ mid))
  \/ (dir = startDir
      /\ forall pre rest, startDir = pre ++ rest -> pre <> [] ->
                          ~ is_package_root JSON_parse fs pre).
Proof.
  unfold findPackageRoot.
  destruct (search_package_root JSON_parse fs (rev startDir)) as [[found|]|] eqn:Hsearch;
    cbn [mbind option_bind]; [| |discriminate]; intros [= <-].
  - left. apply search_package_root_found in Hsearch. rewrite rev_involutive in Hsearch.
    exact Hsearch.
  - right. split; [reflexivity|]. intros pre rest Hsplit.
    apply (search_package_root_none fs (rev startDir) Hsearch pre rest).
    rewrite rev_involutive. exact Hsplit.
Qed.

Lemma search_package_root_damaged (fs : gmap (list string) node) (rest pre : list string) :
  pre <> [] ->
  pathExists fs (path_join pre ["package.json"]) = true ->
  (forall text, readFile fs (path_join pre ["package.json"]) = Some text ->
                JSON_parse text = None \/ JSON_parse text = Some JNull) ->
  (forall mid rest', rest = mid ++ rest' -> mid <> [] ->
                     pathExists fs (path_join (pre ++ mid) ["package.json"]) = false) ->
  search_package_root JSON_parse fs (rev (pre ++ rest)) = None.
Proof.
  intros Hpre Hex Hbad. induction rest as [|x rest IH] using rev_ind; intros Hclear.
  - rewrite app_nil_r. destruct (rev pre) as [|x parent] eqn:Hrev.
    { apply (f_equal (@rev string)) in Hrev. rewrite rev_involutive in Hrev. contradiction. }
    cbn [search_package_root]. rewrite <- Hrev, rev_involutive, Hex.
    destruct (readFile fs _) as [text|]; [cbn [mbind option_bind]|reflexivity].
    destruct (Hbad text eq_refl) as [->| ->]; reflexivity.
  - rewrite app_assoc, rev_unit. cbn [search_package_root].
    assert (rev (x :: rev (pre ++ rest)) = pre ++ rest ++ [x]) as ->.
    { cbn [rev]. rewrite rev_involutive, <- app_assoc. reflexivity. }
    rewrite (Hclear (rest ++ [x]) []);
      [|rewrite app_nil_r; reflexivity
       |intros H; apply app_eq_nil in H as [_ H]; discriminate].
    apply IH. intros mid rest' -> Hmid.
    apply (Hclear mid (rest' ++ [x])); [rewrite app_assoc; reflexivity|exact Hmid].
Qed.

(** X12: [findPackageRoot] throws when, on the way up from the start
    directory, the first package.json that it meets is a directory, or does
    not parse, or parses to [null]: a damaged manifest in an ancestor
    directory makes the search fail, whatever stands above it. *)
Theorem findPackageRoot_throws (fs : gmap (list string) node) (pre rest : list string) :
  pre <> [] ->
  pathExists fs (path_join pre ["package.json"]) = true ->
  (forall text, readFile fs (path_join pre ["package.json"]) = Some text ->
                JSON_parse text = None \/ JSON_parse text = Some JNull) ->
  (forall mid rest', rest = mid ++ rest' -> mid <> [] ->
                     pathExists fs (path_join (pre ++ mid) ["package.json"]) = false) ->
  findPackageRoot JSON_parse fs (pre ++ rest) = None.
Proof.
  intros Hpre Hex Hbad Hclear. unfold findPackageRoot.
  rewrite (search_package_root_damaged fs rest pre Hpre Hex Hbad Hclear). reflexivity.
Qed.
End PackageRoot.

Lemma findPackageRoot_nearest_witness :
  let fs : gmap (list string) node :=
    <[ ["opt"; "mcpforge"; "package.json"] := File "{}" ]> ∅ in
  let JSON_parse := fun _ : string => Some (JObject [("name", JString "mcpforge")]) in
  (exists rest,
     ["opt"; "mcpforge"; "dist"; "commands"] = ["opt"; "mcpforge"] ++ rest
     /\ ["opt"; "mcpforge"] <> [] /\ is_package_root JSON_parse fs ["opt"; "mcpforge"]
     /\ forall mid rest', rest = mid ++ rest' -> mid <> [] ->
                          ~ is_package_root JSON_parse fs (["opt"; "mcpforge"] ++ mid))
  \/ (["opt"; "mcpforge"] = ["opt"; "mcpforge"; "dist"; "commands"]
      /\ forall pre rest, ["opt"; "mcpforge"; "dist"; "commands"] = pre ++ rest -> pre <> [] ->
                          ~ is_package_root JSON_parse fs pre).
Proof.
  apply findPackageRoot_nearest. vm_compute. reflexivity.
Defined.

Lemma findPackageRoot_throws_witness :
  findPackageRoot (fun _ => None)
    (<[ ["home"; "package.json"] := File "{" ]> ∅) (["home"] ++ ["mcpforge"; "dist"]) = None.
Proof.
  apply (findPackageRoot_throws (fun _ => None)
           (<[ ["home"; "package.json"] := File "{" ]> ∅) ["home"] ["mcpforge"; "dist"]).
  - discriminate.
  - vm_compute. reflexivity.
  - intros text _. left. reflexivity.
  - intros mid rest' Hsplit Hmid.
    destruct mid as [|a mid]; [congruence|]. injection Hsplit as <- Hsplit.
    destruct mid as [|b mid]; [vm_compute; reflexivity|]. injection Hsplit as <- Hsplit.
    destruct mid; [vm_compute; reflexivity|discriminate].
Defined.

(** ** The three forms of a name *)

Lemma all_chars_replace_all (p cls : ascii -> bool) (f : ascii -> string) (s : string) :
  (forall c, all_chars p (if cls c then f c else String c EmptyString) = true) ->
  all_chars p (replace_class cls f s) = true.
Proof.
  intros Hf. induction s as [|c s IH]; [reflexivity|].
  cbn [replace_class]. rewrite all_chars_app, (Hf c), IH. reflexivity.
Qed.

Lemma char_lower_not_upper (c : ascii) : is_upper (char_toLowerCase c) = false.
Proof. destruct c as [[] [] [] [] [] [] [] []]; vm_compute; reflexivity. Qed.

Lemma char_lower_separator (c : ascii) :
  is_separator (char_toLowerCase c) = is_separator c.
Proof. destruct c as [[] [] [] [] [] [] [] []]; vm_compute; reflexivity. Qed.

Lemma char_upper_separator (c : ascii) :
  is_separator (char_toUpperCase c) = is_separator c.
Proof. destruct c as [[] [] [] [] [] [] [] []]; vm_compute; reflexivity. Qed.

Lemma toLowerCase_no_upper (s : string) : all_chars no_upper (toLowerCase s) = true.
Proof.
  induction s as [|c s IH]; [reflexivity|].
  unfold toLowerCase in *. cbn [map_chars all_chars]. unfold no_upper at 1.
  rewrite char_lower_not_upper, IH. reflexivity.
Qed.

Lemma all_chars_weaken (p p' : ascii -> bool) (s : string) :
  (forall c, p c = true -> p' c = true) -> all_chars p s = true -> all_chars p' s = true.
Proof.
  intros Hp. induction s as [|c s IH]; [reflexivity|]. cbn [all_chars].
  intros H. apply andb_true_iff in H as [Hc Hs]. rewrite (Hp c Hc), (IH Hs). reflexivity.
Qed.

Lemma replace_class_free (p cls : ascii -> bool) (mark : ascii) (s : string) :
  p mark = true ->
  (forall c, cls c = false -> p c = true) ->
  all_chars p (replace_class cls (fun _ => String mark EmptyString) s) = true.
Proof.
  intros Hm Hp. apply all_chars_replace_all. intros c.
  destruct (cls c) eqn:Hc; cbn [all_chars]; [rewrite Hm|rewrite (Hp c Hc)]; reflexivity.
Qed.

Lemma replace_class_keeps (p cls : ascii -> bool) (mark : ascii) (s : string) :
  p mark = true -> all_chars p s = true ->
  all_chars p (replace_class cls (fun _ => String mark EmptyString) s) = true.
Proof.
  intros Hm. apply all_chars_replace_class. intros c Hc.
  destruct (cls c); cbn [all_chars]; [rewrite Hm|rewrite Hc]; reflexivity.
Qed.

Lemma all_chars_and (p p' : ascii -> bool) (s : string) :
  all_chars p s = true -> all_chars p' s = true ->
  all_chars (fun c => p c && p' c) s = true.
Proof.
  induction s as [|c s IH]; [reflexivity|]. cbn [all_chars].
  intros H H'. apply andb_true_iff in H as [Hc Hs]. apply andb_true_iff in H' as [Hc' Hs'].
  rewrite Hc, Hc', (IH Hs Hs'). reflexivity.
Qed.

Lemma capitalize_free (w : string) : all_chars pascal_char w = true ->
  all_chars pascal_char (capitalize w) = true.
Proof.
  destruct w as [|c w]; [reflexivity|]. cbn [all_chars].
  intros H. apply andb_true_iff in H as [Hc Hw].
  unfold capitalize. cbn [charAt0 slice1]. rewrite all_chars_app.
  apply andb_true_iff. split.
  - unfold toUpperCase. cbn [map_chars all_chars]. unfold pascal_char in *.
    rewrite char_upper_separator, Hc. reflexivity.
  - apply all_chars_map; [|exact Hw]. intros a Ha. unfold pascal_char in *.
    rewrite char_lower_separator. exact Ha.
Qed.

Lemma split_class_free (sep : ascii -> bool) (s : string) :
  Forall (fun w => all_chars (fun c => negb (sep c)) w = true) (split_class sep s).
Proof.
  induction s as [|c s IH]; cbn [split_class]; [repeat constructor|].
  destruct (sep c) eqn:Hc; [constructor; [reflexivity|exact IH]|].
  destruct (split_class sep s) as [|w ws]; [repeat constructor; cbn; rewrite Hc; reflexivity|].
  apply Forall_cons_1 in IH as [Hw Hws]. constructor; [|exact Hws].
  cbn [all_chars]. rewrite Hc, Hw. reflexivity.
Qed.

Lemma replace_class_app (cls : ascii -> bool) (f : ascii -> string) (a b : string) :
  replace_class cls f (a ++ b) = (replace_class cls f a ++ replace_class cls f b)%string.
Proof.
  induction a as [|c a IH]; [reflexivity|]. cbn [replace_class].
  change (String c a ++ b)%string with (String c (a ++ b)%string). cbn [replace_class].
  rewrite IH, append_assoc. reflexivity.
Qed.

Lemma map_chars_app (f : ascii -> ascii) (a b : string) :
  map_chars f (a ++ b) = (map_chars f a ++ map_chars f b)%string.
Proof.
  induction a as [|c a IH]; [reflexivity|].
  change (String c a ++ b)%string with (String c (a ++ b)%string). cbn [map_chars].
  rewrite IH. reflexivity.
Qed.


Lemma replace_class_id (cls : ascii -> bool) (f : ascii -> string) (s : string) :
  all_chars (fun c => negb (cls c)) s = true -> replace_class cls f s = s.
Proof.
  induction s as [|c s IH]; [reflexivity|]. cbn [all_chars replace_class].
  intros H. apply andb_true_iff in H as [Hc Hs]. apply negb_true_iff in Hc.
  rewrite Hc, (IH Hs). reflexivity.
Qed.

Lemma separators_twice (cls cls' : ascii -> bool) (mark mark' : ascii) (s : string) :
  (forall c, cls' c = true ->
             replace_class cls (fun _ => String mark EmptyString) (String mark' EmptyString)
             = replace_class cls (fun _ => String mark EmptyString) (String c EmptyString)) ->
  replace_class cls (fun _ => String mark EmptyString)
    (replace_class cls' (fun _ => String mark' EmptyString) s)
  = replace_class cls (fun _ => String mark EmptyString) s.
Proof.
  intros Hsub. induction s as [|c s IH]; [reflexivity|]. cbn [replace_class].
  rewrite replace_class_app, IH. f_equal.
  destruct (cls' c) eqn:Hc'; [rewrite (Hsub c Hc')|]; cbn [replace_class];
    destruct (cls c); reflexivity.
Qed.

(** The marked and lower-cased texts of the snake and of the kebab form
    differ in their separators only. *)
Lemma marked_forms_agree (cls : ascii -> bool) (mark : ascii) (s : string) :
  (if cls "-"%char then mark else "-"%char) = (if cls "_"%char then mark else "_"%char) ->
  replace_class cls (fun _ => String mark EmptyString)
    (toLowerCase (replace_class is_upper (fun c => String "-" (String c EmptyString)) s))
  = replace_class cls (fun _ => String mark EmptyString)
      (toLowerCase (replace_class is_upper (fun c => String "_" (String c EmptyString)) s)).
Proof.
  intros Hm. unfold toLowerCase.
  induction s as [|c s IH]; [reflexivity|]. cbn [replace_class].
  rewrite !map_chars_app, !replace_class_app, IH. f_equal.
  destruct (is_upper c); [|reflexivity].
  cbn [map_chars replace_class].
  change (char_toLowerCase "-") with "-"%char. change (char_toLowerCase "_") with "_"%char.
  destruct (cls "-"%char), (cls "_"%char); cbn in Hm |- *; rewrite ?Hm; try reflexivity;
    rewrite <- ?Hm; reflexivity.
Qed.

Lemma strip_marked (cls : ascii -> bool) (mark : ascii) (s : string) :
  (if cls "-"%char then mark else "-"%char) = (if cls "_"%char then mark else "_"%char) ->
  leading_separator s = false ->
  replace_class cls (fun _ => String mark EmptyString)
    (strip_leading "-"
       (toLowerCase (replace_class is_upper (fun c => String "-" (String c EmptyString)) s)))
  = replace_class cls (fun _ => String mark EmptyString)
      (strip_leading "_"
         (toLowerCase (replace_class is_upper (fun c => String "_" (String c EmptyString)) s))).
Proof.
  intros Hm Hs. destruct s as [|c s]; [reflexivity|]. cbn [leading_separator] in Hs.
  pose proof (marked_forms_agree cls mark s Hm) as Hrest.
  cbn [replace_class]. unfold toLowerCase in *. rewrite !map_chars_app.
  destruct (is_upper c) eqn:Hc.
  - cbn [map_chars].
    change (char_toLowerCase "-") with "-"%char. change (char_toLowerCase "_") with "_"%char.
    change (String ?a (String ?b EmptyString) ++ ?w)%string with (String a (String b w)).
    cbn [strip_leading]. rewrite !Ascii.eqb_refl.
    cbn [replace_class]. rewrite Hrest. reflexivity.
  - cbn [map_chars]. change (String ?a EmptyString ++ ?w)%string with (String a w).
    cbn [strip_leading].
    assert (Ascii.eqb (char_toLowerCase c) "-" = false
            /\ Ascii.eqb (char_toLowerCase c) "_" = false) as [-> ->].
    { revert Hs Hc. clear. destruct c as [[] [] [] [] [] [] [] []]; vm_compute; auto. }
    cbn [replace_class]. rewrite Hrest. reflexivity.
Qed.

(** X14: for a name that does not start with a hyphen or an underscore,
    the snake form is the kebab form with underscores for hyphens, and the
    kebab form is the snake form with hyphens for underscores. *)
Theorem snake_and_kebab_forms (str : string) :
  leading_separator str = false ->
  hyphens_to_underscores (toKebabCase str) = toSnakeCase str
  /\ underscores_to_hyphens (toSnakeCase str) = toKebabCase str.
Proof.
  intros Hs. unfold hyphens_to_underscores, underscores_to_hyphens, toKebabCase, toSnakeCase.
  split.
  - rewrite separators_twice.
    + apply (strip_marked is_hyphen "_" str); [reflexivity|exact Hs].
    + intros c Hc. apply Ascii.eqb_eq in Hc as ->. reflexivity.
  - rewrite separators_twice.
    + symmetry. apply (strip_marked is_underscore "-" str); [reflexivity|exact Hs].
    + intros c Hc. apply Ascii.eqb_eq in Hc as ->. reflexivity.
Qed.

Lemma snake_and_kebab_forms_witness :
  hyphens_to_underscores (toKebabCase "myWeather_api-v2") = toSnakeCase "myWeather_api-v2"
  /\ underscores_to_hyphens (toSnakeCase "myWeather_api-v2") = toKebabCase "myWeather_api-v2".
Proof. apply snake_and_kebab_forms. reflexivity. Defined.

Lemma toSnakeCase_alphabet (str : string) : all_chars snake_char (toSnakeCase str) = true.
Proof.
  unfold toSnakeCase, snake_char. apply all_chars_and.
  - apply replace_class_keeps; [reflexivity|]. apply all_chars_strip_leading.
    apply toLowerCase_no_upper.
  - apply replace_class_free; [reflexivity|]. intros c Hc. rewrite Hc. reflexivity.
Qed.

Lemma toKebabCase_alphabet (str : string) : all_chars kebab_char (toKebabCase str) = true.
Proof.
  unfold toKebabCase, kebab_char. apply all_chars_and.
  - apply replace_class_keeps; [reflexivity|]. apply all_chars_strip_leading.
    apply toLowerCase_no_upper.
  - apply replace_class_free; [reflexivity|]. intros c Hc. rewrite Hc. reflexivity.
Qed.

Lemma toPascalCase_alphabet (str : string) : all_chars pascal_char (toPascalCase str) = true.
Proof.
  unfold toPascalCase.
  pose proof (split_class_free is_separator str) as Hsplit.
  induction Hsplit as [|w ws Hw _ IH]; [reflexivity|].
  cbn [map join_empty fold_right]. rewrite all_chars_app, (capitalize_free w Hw).
  exact IH.
Qed.

(** X13: whatever the string, its snake form holds no capital letter and
    no hyphen, its kebab form no capital letter and no underscore, and its
    Pascal form neither hyphen nor underscore. *)
Theorem naming_forms_alphabets (str : string) :
  all_chars snake_char (toSnakeCase str) = true
  /\ all_chars kebab_char (toKebabCase str) = true
  /\ all_chars pascal_char (toPascalCase str) = true.
Proof.
  split; [apply toSnakeCase_alphabet|].
  split; [apply toKebabCase_alphabet|apply toPascalCase_alphabet].
Qed.

(** A second pass over a form only strips one more leading separator. *)
Lemma toSnakeCase_again (str : string) :
  toSnakeCase (toSnakeCase str) = strip_leading "_" (toSnakeCase str).
Proof.
  pose proof (toSnakeCase_alphabet str) as H. set (r := toSnakeCase str) in *.
  unfold toSnakeCase.
  rewrite (replace_upper_id "_" r), (toLowerCase_id r);
    try (apply (all_chars_weaken snake_char); [|exact H];
         intros c Hc; apply andb_true_iff in Hc as [Hc _]; exact Hc).
  apply replace_class_id. apply all_chars_strip_leading.
  apply (all_chars_weaken snake_char); [|exact H].
  intros c Hc. apply andb_true_iff in Hc as [_ Hc]. exact Hc.
Qed.

Lemma toKebabCase_again (str : string) :
  toKebabCase (toKebabCase str) = strip_leading "-" (toKebabCase str).
Proof.
  pose proof (toKebabCase_alphabet str) as H. set (r := toKebabCase str) in *.
  unfold toKebabCase.
  rewrite (replace_upper_id "-" r), (toLowerCase_id r);
    try (apply (all_chars_weaken kebab_char); [|exact H];
         intros c Hc; apply andb_true_iff in Hc as [Hc _]; exact Hc).
  apply replace_class_id. apply all_chars_strip_leading.
  apply (all_chars_weaken kebab_char); [|exact H].
  intros c Hc. apply andb_true_iff in Hc as [_ Hc]. exact Hc.
Qed.

Lemma form_keeps_plain_start (cls : ascii -> bool) (mark sep : ascii) (str : string) :
  is_separator mark = true -> is_separator sep = true ->
  (forall c, cls c = true -> is_separator c = true) ->
  leading_separator str = false ->
  leading_separator
    (replace_class cls (fun _ => String mark EmptyString)
       (strip_leading sep
          (toLowerCase
             (replace_class is_upper (fun c => String sep (String c EmptyString)) str))))
  = false.
Proof.
  intros Hmark Hsep Hcls Hs. destruct str as [|c s]; [reflexivity|].
  cbn [leading_separator] in Hs. cbn [replace_class]. unfold toLowerCase.
  rewrite map_chars_app.
  assert (cls (char_toLowerCase c) = false) as Hlow.
  { destruct (cls (char_toLowerCase c)) eqn:H; [|reflexivity].
    apply Hcls in H. rewrite char_lower_separator in H. congruence. }
  destruct (is_upper c) eqn:Hc.
  - cbn [map_chars].
    change (String ?a (String ?b EmptyString) ++ ?w)%string with (String a (String b w)).
    assert (char_toLowerCase sep = sep) as ->.
    { revert Hsep. clear. unfold is_separator, is_hyphen, is_underscore. intros H.
      apply orb_true_iff in H as [H|H]; apply Ascii.eqb_eq in H as ->; reflexivity. }
    cbn [strip_leading]. rewrite Ascii.eqb_refl. cbn [replace_class]. rewrite Hlow.
    change (String ?a EmptyString ++ ?w)%string with (String a w).
    cbn [leading_separator]. rewrite char_lower_separator. exact Hs.
  - cbn [map_chars]. change (String ?a EmptyString ++ ?w)%string with (String a w).
    cbn [strip_leading].
    assert (Ascii.eqb (char_toLowerCase c) sep = false) as ->.
    { apply Ascii.eqb_neq. intros E. rewrite <- E, char_lower_separator in Hsep. congruence. }
    cbn [replace_class]. rewrite Hlow.
    change (String ?a EmptyString ++ ?w)%string with (String a w).
    cbn [leading_separator]. rewrite char_lower_separator. exact Hs.
Qed.

Lemma strip_leading_plain (sep : ascii) (s : string) :
  is_separator sep = true -> leading_separator s = false -> strip_leading sep s = s.
Proof.
  intros Hsep Hs. destruct s as [|c s]; [reflexivity|]. cbn [leading_separator] in Hs.
  cbn [strip_leading]. destruct (Ascii.eqb_spec c sep) as [->|_]; [congruence|reflexivity].
Qed.

(** X15: the snake form and the kebab form of a name that does not start
    with a hyphen or an underscore are fixed points: the snake form of the
    snake form is the snake form, and likewise for the kebab form. *)
Theorem naming_forms_idempotent (str : string) :
  leading_separator str = false ->
  toSnakeCase (toSnakeCase str) = toSnakeCase str
  /\ toKebabCase (toKebabCase str) = toKebabCase str.
Proof.
  intros Hs. rewrite toSnakeCase_again, toKebabCase_again. split.
  - apply strip_leading_plain; [reflexivity|]. unfold toSnakeCase.
    apply form_keeps_plain_start; try reflexivity; [|exact Hs].
    intros c Hc. unfold is_separator. rewrite Hc. reflexivity.
  - apply strip_leading_plain; [reflexivity|]. unfold toKebabCase.
    apply form_keeps_plain_start; try reflexivity; [|exact Hs].
    intros c Hc. unfold is_separator. rewrite Hc. apply orb_true_r.
Qed.

Lemma naming_forms_idempotent_witness :
  toSnakeCase (toSnakeCase "myWeather_api-v2") = toSnakeCase "myWeather_api-v2"
  /\ toKebabCase (toKebabCase "myWeather_api-v2") = toKebabCase "myWeather_api-v2".
Proof. apply naming_forms_idempotent. reflexivity. Defined.

(** ** What the generator leaves alone *)

Lemma stays_under_refl (seg : string) (fs : gmap (list string) node) : stays_under seg fs fs.
Proof. split; intros p H; [reflexivity|exact H]. Qed.

Lemma stays_under_trans (seg : string) (fs1 fs2 fs3 : gmap (list string) node) :
  stays_under seg fs1 fs2 -> stays_under seg fs2 fs3 -> stays_under seg fs1 fs3.
Proof.
  intros [H12 D12] [H23 D23]. split.
  - intros p Hp. rewrite (H23 p Hp). apply H12, Hp.
  - intros p Hp. apply D23, D12, Hp.
Qed.

Lemma writeFile_stays_under (seg : string) (fs fs' : gmap (list string) node)
    (p : list string) (content : string) :
  head p = Some seg -> writeFile fs p content = Some fs' -> stays_under seg fs fs'.
Proof.
  intros Hp H. split.
  - intros q Hq. apply writeFile_lookup in H as [-> _].
    apply lookup_insert_ne. congruence.
  - intros q Hq. unfold writeFile in H.
    destruct (stat fs (removelast p)) as [[]|]; try discriminate.
    destruct p as [|s p]; [discriminate|]. cbn [stat] in H.
    destruct (fs !! (s :: p)) as [[]|] eqn:Hold; try discriminate;
      injection H as <-; rewrite lookup_insert_ne; congruence.
Qed.

Lemma mkdirs_stays_under (seg : string) (rest : list string) :
  forall (fs fs' : gmap (list string) node) (pre : list string),
    head (pre ++ rest) = Some seg -> mkdirs fs pre rest = Some fs' -> stays_under seg fs fs'.
Proof.
  induction rest as [|d rest IH]; intros fs fs' pre Hhead; cbn [mkdirs].
  - intros [= <-]. apply stays_under_refl.
  - assert (head ((pre ++ [d]) ++ rest) = Some seg) as Hnext
      by (rewrite <- app_assoc; exact Hhead).
    assert (head (pre ++ [d]) = Some seg) as Hhere
      by (destruct pre; [exact Hhead|exact Hhead]).
    destruct (fs !! (pre ++ [d])) as [[]|] eqn:Hold; [discriminate| |].
    + apply IH, Hnext.
    + intros H. eapply stays_under_trans; [|exact (IH _ _ _ Hnext H)].
      split; intros q Hq; rewrite lookup_insert_ne; congruence.
Qed.

Lemma ensureDir_stays_under (seg : string) (fs fs' : gmap (list string) node)
    (p : list string) :
  head p = Some seg -> ensureDir fs p = Some fs' -> stays_under seg fs fs'.
Proof. intros Hp. apply (mkdirs_stays_under seg p fs fs' []). exact Hp. Qed.

(** Every step of a generator is under the project directory. *)
Ltac generator_steps seg H :=
  repeat match type of H with
         | mbind _ _ = Some _ => apply bind_Some in H as (? & ?Hstep & H)
         end;
  repeat match goal with
         | Hstep : writeFile ?fs ?p ?c = Some ?fs1 |- _ =>
             apply (writeFile_stays_under seg fs fs1 p c (eq_refl (Some seg))) in Hstep
         | Hstep : ensureDir ?fs ?p = Some ?fs1 |- _ =>
             apply (ensureDir_stays_under seg fs fs1 p (eq_refl (Some seg))) in Hstep
         end;
  repeat match goal with
         | Hstep : stays_under seg ?fs ?fs1 |- stays_under seg ?fs _ =>
             apply (stays_under_trans seg fs fs1); [exact Hstep|]; clear Hstep
         end;
  try apply stays_under_refl.

Lemma generateProject_stays_under (seg name : string) (lang : language) (pat : pattern)
    (tr : transport) (fs fs' : gmap (list string) node) :
  generateProject [seg] name lang pat tr fs = Some fs' -> stays_under seg fs fs'.
Proof.
  unfold generateProject. destruct lang; intros H.
  - unfold generatePythonProject in H. generator_steps seg H.
  - unfold generateTypeScriptProject in H. generator_steps seg H.
  - unfold generateGoProject in H. generator_steps seg H.
  - unfold generateRustProject in H. generator_steps seg H.
Qed.

(** X16: a run of [newCommand] that generates a project for a valid name
    starts from a working directory with nothing at that name, leaves a
    directory there, and changes nothing else: every path that does not
    start with the name holds what it held before. *)
Theorem newCommand_touches_project_only
    (Handlebars : string -> list (string * string) -> option string)
    (name : string) (lang : language) (pat : pattern) (tr : transport)
    (fs fs' : gmap (list string) node) :
  valid_name name = true ->
  newCommand Handlebars None name lang pat tr fs = Some fs' ->
  fs !! [name] = None
  /\ fs' !! [name] = Some Dir
  /\ same_outside name fs fs'.
Proof.
  intros Hvalid. unfold newCommand.
  rewrite (project_path name (valid_name_nonempty name Hvalid)).
  unfold pathExists, stat, ensureDir. cbn [mkdirs app].
  destruct (fs !! [name]) as [n|] eqn:Hname; [discriminate|].
  cbn [mbind option_bind]. intros H.
  destruct (generateProject_stays_under _ _ _ _ _ _ _ H) as [Hout Hdirs].
  split; [reflexivity|]. split.
  - apply Hdirs, lookup_insert_eq.
  - intros p Hp. rewrite (Hout p Hp). apply lookup_insert_ne.
    intros <-. apply Hp. reflexivity.
Qed.

Lemma newCommand_touches_project_only_witness :
  let fs : gmap (list string) node := <[ ["notes.txt"] := File "keep" ]> ∅ in
  let fs' : gmap (list string) node :=
    <[ ["demo"; ".gitignore"] := File (go_gitignore "demo") ]>
      (<[ ["demo"; "README.md"] := File (go_readme "demo" "Demo") ]>
      (<[ ["demo"; "main.go"] := File (main_go "demo" "Demo") ]>
      (<[ ["demo"; "go.mod"] := File (go_mod "demo") ]>
      (<[ ["demo"] := Dir ]> fs)))) in
  fs !! ["demo"] = None
  /\ fs' !! ["demo"] = Some Dir
  /\ same_outside "demo" fs fs'.
Proof.
  cbv zeta.
  assert (fresh (<[ ["notes.txt"] := File "keep" ]> ∅) ["demo"]) as Hfresh.
  { intros p. rewrite lookup_insert_ne by discriminate. apply lookup_empty. }
  apply (newCommand_touches_project_only (fun text _ => Some text) "demo" go basic stdio
           (<[ ["notes.txt"] := File "keep" ]> ∅) _ eq_refl).
  rewrite (newCommand_fresh _ "demo" go basic stdio _ eq_refl Hfresh).
  exact (generateGoProject_fresh "demo" "demo" "Demo" basic stdio _ Hfresh).
Defined.

(** ** The snippets of the add command under the analyzer *)

Lemma exec_lit (p : string) (r : list tok) (acc : list ascii) (s : string) :
  exec (lit p ++ r) false acc (p ++ s) = exec r false acc s.
Proof.
  induction p as [|c p IH]; [reflexivity|].
  change (String c p ++ s)%string with (String c (p ++ s)%string).
  cbn [lit app exec push]. rewrite Ascii.eqb_refl. exact IH.
Qed.

(** A greedy repetition that runs over [v] and stops at what follows goes on
    from there when the rest of the pattern matches there. *)
Lemma greedy_run (c : ascii -> bool) (k : list ascii -> string -> option (string * string))
    (w : string) (res : string * string) :
  (forall b w', w = String b w' -> c b = false) ->
  forall (v : string) (acc : list ascii),
    all_chars c v = true ->
    k (rev (list_ascii_of_string v) ++ acc) w = Some res ->
    greedy c true k acc (v ++ w) = Some res.
Proof.
  intros Hw. induction v as [|a v IH]; intros acc Hv Hk.
  - change (EmptyString ++ w)%string with w. cbn [list_ascii_of_string rev app] in Hk.
    destruct w as [|b w]; cbn [greedy]; [exact Hk|]. rewrite (Hw b w eq_refl). exact Hk.
  - change (String a v ++ w)%string with (String a (v ++ w)%string).
    cbn [all_chars] in Hv. apply andb_true_iff in Hv as [Ha Hv].
    cbn [greedy]. rewrite Ha. rewrite (IH (push true a acc) Hv); [reflexivity|].
    cbn [list_ascii_of_string rev push] in Hk |- *. rewrite <- app_assoc in Hk. exact Hk.
Qed.

(** A lazy repetition goes over [u] when the rest of the pattern, which
    begins with the class [stop] after the group, finds none of [stop] in
    [u]. *)
Lemma lazy_run (c stop : ascii -> bool) (r : list tok) (w : string) (res : string * string) :
  forall (u : string) (acc : list ascii),
    all_chars (fun a => c a && negb (stop a)) u = true ->
    exec (Close :: Atom stop Once :: r) true (rev (list_ascii_of_string u) ++ acc) w = Some res ->
    lazy c true (exec (Close :: Atom stop Once :: r) true) acc (u ++ w) = Some res.
Proof.
  induction u as [|a u IH]; intros acc Hu Hk.
  - change (EmptyString ++ w)%string with w. cbn [list_ascii_of_string rev app] in Hk.
    destruct w as [|b w]; cbn [lazy]; rewrite Hk; reflexivity.
  - change (String a u ++ w)%string with (String a (u ++ w)%string).
    cbn [all_chars] in Hu. apply andb_true_iff in Hu as [Ha Hu].
    apply andb_true_iff in Ha as [Hc Hstop]. apply negb_true_iff in Hstop.
    cbn [lazy]. cbn [exec]. rewrite Hstop, Hc. apply IH; [exact Hu|].
    cbn [list_ascii_of_string rev push] in Hk |- *. rewrite <- app_assoc in Hk. exact Hk.
Qed.

Lemma capture_of_string (v : string) :
  string_of_list_ascii (rev (rev (list_ascii_of_string v) ++ [])) = v.
Proof. rewrite app_nil_r, rev_involutive. apply string_of_list_ascii_of_string. Qed.

(** The group [(class+)] between its opening and what follows. *)
Lemma exec_group_plus (c : ascii -> bool) (r : list tok) (v w : string)
    (res : string * string) :
  v <> EmptyString -> all_chars c v = true ->
  (forall b w', w = String b w' -> c b = false) ->
  exec r false (rev (list_ascii_of_string v)) w = Some res ->
  exec (Open :: Atom c Plus :: Close :: r) false [] (v ++ w) = Some res.
Proof.
  intros Hne Hv Hw Hk. destruct v as [|a v]; [congruence|].
  change (String a v ++ w)%string with (String a (v ++ w)%string).
  cbn [all_chars] in Hv. apply andb_true_iff in Hv as [Ha Hv].
  cbn [exec]. rewrite Ha. apply greedy_run; [exact Hw|exact Hv|].
  cbn [exec push]. cbn [list_ascii_of_string rev] in Hk. exact Hk.
Qed.

Lemma matchAll_from_skip (r : list tok) (w : string) :
  forall u : string, matchAll_from r (String.length u) (u ++ w) = matchAll_from r 0 w.
Proof.
  induction u as [|a u IH]; [reflexivity|].
  change (String a u ++ w)%string with (String a (u ++ w)%string).
  cbn [String.length matchAll_from]. exact IH.
Qed.

(** A match over [u] is recorded and the search goes on behind it. *)
Lemma matchAll_from_hit (r : list tok) (u w cap : string) :
  u <> EmptyString ->
  exec r false [] (u ++ w) = Some (cap, w) ->
  matchAll_from r 0 (u ++ w) = cap :: matchAll_from r 0 w.
Proof.
  intros Hne Hexec. destruct u as [|a u]; [congruence|].
  change (String a u ++ w)%string with (String a (u ++ w)%string) in *.
  cbn [matchAll_from]. rewrite Hexec. f_equal.
  cbn [String.length]. rewrite length_append.
  replace (S (String.length u + String.length w) - String.length w - 1)%nat
    with (String.length u) by lia.
  apply matchAll_from_skip.
Qed.

Lemma name_char_word_or_hyphen (c : ascii) :
  is_name_char c = true -> is_word_or_hyphen c = true.
Proof. destruct c as [[] [] [] [] [] [] [] []]; vm_compute; congruence. Qed.

Lemma name_char_no_quote (c : ascii) : is_name_char c = true -> is_quote c = false.
Proof. destruct c as [[] [] [] [] [] [] [] []]; vm_compute; congruence. Qed.

Lemma snake_char_word (c : ascii) :
  is_name_char c = true ->
  is_word (char_toLowerCase (if is_hyphen c then "_" else c)) = true.
Proof. destruct c as [[] [] [] [] [] [] [] []]; vm_compute; congruence. Qed.

Lemma snippet_snake_word (name : string) :
  all_chars is_name_char name = true -> all_chars is_word (snippet_snake name) = true.
Proof.
  unfold snippet_snake, hyphens_to_underscores, toLowerCase.
  induction name as [|c s IH]; [reflexivity|]. cbn [all_chars replace_class].
  intros H. apply andb_true_iff in H as [Hc Hs].
  rewrite map_chars_app, all_chars_app, (IH Hs), andb_true_r.
  pose proof (snake_char_word c Hc) as Hw.
  destruct (is_hyphen c); cbn [map_chars all_chars]; rewrite Hw; reflexivity.
Qed.

Lemma snippet_snake_nonempty (name : string) :
  name <> EmptyString -> snippet_snake name <> EmptyString.
Proof.
  destruct name as [|c s]; [congruence|]. intros _.
  unfold snippet_snake, hyphens_to_underscores, toLowerCase. cbn [replace_class].
  rewrite map_chars_app. destruct (is_hyphen c); discriminate.
Qed.

Lemma word_name_char (c : ascii) : is_word c = true -> is_name_char c = true.
Proof. destruct c as [[] [] [] [] [] [] [] []]; vm_compute; congruence. Qed.

Lemma valid_name_parts (name : string) :
  valid_name name = true -> name <> EmptyString /\ all_chars is_name_char name = true.
Proof.
  unfold valid_name. intros H. apply andb_true_iff in H as [Hne Hchars].
  split; [|exact Hchars]. intros ->. discriminate.
Qed.

Lemma exec_closing_quote (b : ascii) (v w : string) (r : list tok) (rest : string) :
  is_quote b = true ->
  exec r false (rev (list_ascii_of_string v)) w = Some (v, rest) ->
  exec (Atom is_quote Once :: r) false (rev (list_ascii_of_string v)) (String b w)
  = Some (v, rest).
Proof. intros Hb Hr. cbn [exec push]. rewrite Hb. exact Hr. Qed.

Lemma exec_end (v w : string) :
  exec [] false (rev (list_ascii_of_string v)) w = Some (v, w).
Proof. cbn [exec]. rewrite rev_involutive, string_of_list_ascii_of_string. reflexivity. Qed.

(** The text [A ++ M ++ v ++ C ++ W], where nothing is found in [A] and a
    match begins at [M] and ends behind [C], gives the capture of that
    match and what is found in [W]. *)
Lemma matchAll_from_piece_hit (r : list tok) (A M v C W cap : string) :
  scan_from r 0 A = Some ([], 0%nat) ->
  M <> EmptyString ->
  exec r false [] (M ++ v ++ C ++ W) = Some (cap, W) ->
  matchAll_from r 0 ((A ++ M) ++ v ++ C ++ W) = cap :: matchAll_from r 0 W.
Proof.
  intros HA HM Hexec.
  rewrite (append_assoc A M). rewrite (scan_from_sound r A 0 [] 0 _ HA). cbn [app].
  replace (M ++ v ++ C ++ W)%string with ((M ++ v ++ C) ++ W)%string in *
    by (rewrite !append_assoc; reflexivity).
  apply matchAll_from_hit; [|exact Hexec].
  destruct M; [congruence|discriminate].
Qed.

Lemma go_tool_prefix (T : string) :
  exec go_tool_re false [] (q "mcp.NewTool(~" ++ T)
  = exec [Open; Atom is_word_or_hyphen Plus; Close; Atom is_quote Once] false [] T.
Proof.
  unfold go_tool_re.
  change (q "mcp.NewTool(~" ++ T)%string with ("mcp.NewTool(" ++ String double_quote T)%string.
  rewrite exec_lit. reflexivity.
Qed.

Lemma snippet_pascal_chars (name : string) :
  all_chars is_name_char name = true ->
  all_chars is_name_char (snippet_pascal name) = true.
Proof.
  intros H. unfold snippet_pascal, join_empty.
  pose proof (split_class_chars is_name_char is_hyphen name H) as Hsplit.
  induction Hsplit as [|w ws Hw _ IH]; [reflexivity|].
  cbn [map fold_right]. rewrite !all_chars_app, IH, andb_true_r.
  destruct w as [|c w]; [reflexivity|]. cbn [all_chars] in Hw.
  apply andb_true_iff in Hw as [Hc Hw]. cbn [charAt0 slice1].
  unfold toUpperCase. cbn [map_chars all_chars].
  rewrite (is_name_char_upper c Hc), Hw. reflexivity.
Qed.


(** The step at the piece where the pattern matches: [nM] characters before
    the name and [nC] characters behind it belong to the match. *)
Ltac piece_hit r v cap nM nC :=
  match goal with
  | |- matchAll_from _ 0 (?P0 ++ v ++ ?P1 ++ ?R)%string = _ =>
      let A := eval vm_compute in (substring 0 (String.length P0 - nM) P0) in
      let M := eval vm_compute in (substring (String.length P0 - nM) nM P0) in
      let C := eval vm_compute in (substring 0 nC P1) in
      let P1' := eval vm_compute in (substring nC (String.length P1 - nC) P1) in
      change P0 with (A ++ M)%string; change P1 with (C ++ P1')%string;
      rewrite (append_assoc C P1' R);
      rewrite (matchAll_from_piece_hit r A M v C (P1' ++ R) cap);
      [ | vm_compute; reflexivity | discriminate | ]
  end.

Ltac head_of_text :=
  let b := fresh "b" in
  let w' := fresh "w'" in
  let Hw := fresh "Hw" in
  intros b w' Hw;
  change (String ?a ?s ++ ?R)%string with (String a (s ++ R)%string) in Hw;
  injection Hw as <- _; reflexivity.

Lemma greedy_single (c : ascii -> bool) (ing : bool)
    (k : list ascii -> string -> option (string * string)) (acc : list ascii)
    (a b : ascii) (s : string) (res : string * string) :
  c a = true -> c b = false ->
  k (push ing a acc) (String b s) = Some res ->
  greedy c ing k acc (String a (String b s)) = Some res.
Proof. intros Ha Hb Hk. cbn [greedy]. rewrite Ha, Hb, Hk. reflexivity. Qed.

Lemma rust_tool_prefix (T : string) (res : string * string) :
  exec [Open; Atom is_word_or_hyphen Plus; Close; Atom is_quote Once] false [] T = Some res ->
  exec rust_tool_re false [] (q "#[tool(name = ~" ++ T) = Some res.
Proof.
  intros H. unfold rust_tool_re.
  change (q "#[tool(name = ~" ++ T)%string
    with ("#[tool(name" ++ String " " (String "=" (String " " (String double_quote T))))%string.
  rewrite exec_lit. cbn [app exec].
  apply greedy_single; [reflexivity|reflexivity|].
  cbn [lit app exec push]. rewrite Ascii.eqb_refl.
  apply greedy_single; [reflexivity|reflexivity|].
  exact H.
Qed.

(** The line break and indentation between a decorator and its function. *)
Lemma blank_line_def (r : list tok) (T : string) :
  exec (blank_line ++ lit "async def " ++ r) false [] (q "
async def " ++ T) = exec r false [] T.
Proof.
  change (q "
async def " ++ T)%string with (String (ascii_of_nat 10) ("async def " ++ T))%string.
  rewrite <- (exec_lit "async def " r [] T). reflexivity.
Qed.

Lemma python_tool_prefix (T : string) :
  exec python_tool_re false [] (q "@server.tool()
async def " ++ T) = exec [Open; Atom is_word Plus; Close] false [] T.
Proof.
  unfold python_tool_re.
  change (q "@server.tool()
async def " ++ T)%string with ("@server.tool()" ++ q "
async def " ++ T)%string.
  rewrite exec_lit. apply blank_line_def.
Qed.

Lemma python_prompt_prefix (T : string) :
  exec python_prompt_re false [] (q "@server.prompt()
async def " ++ T) = exec [Open; Atom is_word Plus; Close] false [] T.
Proof.
  unfold python_prompt_re.
  change (q "@server.prompt()
async def " ++ T)%string with ("@server.prompt()" ++ q "
async def " ++ T)%string.
  rewrite exec_lit. apply blank_line_def.
Qed.

Lemma python_resource_prefix (T : string) :
  exec python_resource_re false [] (q "@server.resource(~" ++ T)
  = exec ([Open; Atom is_dot LazyStar; Close; Atom is_quote Once] ++ lit ")") false [] T.
Proof.
  unfold python_resource_re.
  change (q "@server.resource(~" ++ T)%string
    with ("@server.resource(" ++ String double_quote T)%string.
  rewrite exec_lit. reflexivity.
Qed.

Lemma word_plain (c : ascii) : is_word c = true -> is_dot c && negb (is_quote c) = true.
Proof. destruct c as [[] [] [] [] [] [] [] []]; vm_compute; congruence. Qed.

Section Snippets.
Variable name : string.
Hypothesis Hvalid : valid_name name = true.


Lemma go_tool_snippet_found : matchAll go_tool_re (generateGoSnippet tool name) = [name].
Proof.
  destruct (valid_name_parts name Hvalid) as [Hne Hchars].
  pose proof (all_chars_map _ _ _ is_name_char_lower (snippet_pascal_chars name Hchars)) as Hlow.
  unfold generateGoSnippet, go_tool_snippet, matchAll.
  set (low := map_chars char_toLowerCase (snippet_pascal name)) in *.
  change (toLowerCase (snippet_pascal name)) with low. clearbody low.
  piece_hit go_tool_re name name 13%nat 1%nat.
  - f_equal. unfold go_tool_re. scan_pieces.
  - refine (eq_trans (go_tool_prefix _) _).
    change (String ?b EmptyString ++ ?W)%string with (String b W).
    apply exec_group_plus;
      [ exact Hne
      | exact (all_chars_weaken _ _ _ name_char_word_or_hyphen Hchars)
      | intros b w' [= <- _]; reflexivity
      | ].
    apply exec_closing_quote; [reflexivity|]. apply exec_end.
Qed.

Lemma rust_tool_snippet_found : matchAll rust_tool_re (generateRustSnippet tool name) = [name].
Proof.
  destruct (valid_name_parts name Hvalid) as [Hne Hchars].
  pose proof (snippet_pascal_chars name Hchars) as Hpascal.
  pose proof (all_chars_weaken _ _ _ word_name_char (snippet_snake_word name Hchars)) as Hsnake.
  unfold generateRustSnippet, rust_tool_snippet, matchAll.
  set (pascal := snippet_pascal name) in *. set (snake := snippet_snake name) in *.
  clearbody pascal snake.
  unfold rust_tool_re at 1.
  erewrite scan_from_sound by (vm_compute; reflexivity).
  rewrite matchAll_from_name by (assumption || (vm_compute; reflexivity)).
  cbn [app]. change (lit "#[tool(name" ++ _) with rust_tool_re.
  piece_hit rust_tool_re name name 15%nat 1%nat.
  - f_equal. unfold rust_tool_re. scan_pieces.
  - apply rust_tool_prefix.
    change (String ?b EmptyString ++ ?W)%string with (String b W).
    apply exec_group_plus;
      [ exact Hne
      | exact (all_chars_weaken _ _ _ name_char_word_or_hyphen Hchars)
      | intros b w' [= <- _]; reflexivity
      | ].
    apply exec_closing_quote; [reflexivity|]. apply exec_end.
Qed.
Lemma python_tool_snippet_found :
  matchAll python_tool_re (generatePythonSnippet tool name) = [snippet_snake name].
Proof.
  destruct (valid_name_parts name Hvalid) as [Hne Hchars].
  pose proof (snippet_snake_word name Hchars) as Hword.
  pose proof (snippet_snake_nonempty name Hne) as Hsnake.
  unfold generatePythonSnippet, python_tool_snippet, matchAll.
  set (snake := snippet_snake name) in *. clearbody snake.
  piece_hit python_tool_re snake snake 25%nat 0%nat.
  - f_equal. unfold python_tool_re. scan_pieces.
  - refine (eq_trans (python_tool_prefix _) _).
    change (EmptyString ++ ?W)%string with W.
    apply exec_group_plus; [exact Hsnake|exact Hword|head_of_text|apply exec_end].
Qed.

Lemma python_prompt_snippet_found :
  matchAll python_prompt_re (generatePythonSnippet prompt name)
  = [(snippet_snake name ++ "_prompt")%string].
Proof.
  destruct (valid_name_parts name Hvalid) as [Hne Hchars].
  pose proof (snippet_snake_word name Hchars) as Hword.
  pose proof (snippet_snake_nonempty name Hne) as Hsnake.
  unfold generatePythonSnippet, python_prompt_snippet, matchAll.
  set (snake := snippet_snake name) in *. clearbody snake.
  piece_hit python_prompt_re snake (snake ++ "_prompt")%string 27%nat 7%nat.
  - f_equal. unfold python_prompt_re. scan_pieces.
  - refine (eq_trans (python_prompt_prefix _) _).
    rewrite <- (append_assoc snake).
    apply exec_group_plus.
    + destruct snake; [congruence|discriminate].
    + rewrite all_chars_app, Hword. reflexivity.
    + head_of_text.
    + apply exec_end.
Qed.

Lemma python_resource_snippet_found :
  matchAll python_resource_re (generatePythonSnippet resource name)
  = [("resource://" ++ snippet_snake name)%string].
Proof.
  destruct (valid_name_parts name Hvalid) as [Hne Hchars].
  pose proof (snippet_snake_word name Hchars) as Hword.
  pose proof (all_chars_weaken _ _ _ word_name_char Hword) as Hsnake.
  unfold generatePythonSnippet, python_resource_snippet, matchAll.
  set (snake := snippet_snake name) in *. clearbody snake.
  piece_hit python_resource_re snake ("resource://" ++ snake)%string 29%nat 2%nat.
  - f_equal. unfold python_resource_re. scan_pieces.
  - match goal with
    | |- exec _ _ _ (?M ++ ?X)%string = _ =>
        change (M ++ X)%string with (q "@server.resource(~" ++ ("resource://" ++ X))%string
    end.
    rewrite python_resource_prefix. cbn [app exec].
    rewrite <- (append_assoc "resource://" snake).
    apply lazy_run.
    + rewrite all_chars_app. apply andb_true_iff. split; [reflexivity|].
      exact (all_chars_weaken _ _ _ word_plain Hword).
    + change (String ?a (String ?b EmptyString) ++ ?W)%string with (String a (String b W)).
      cbn [exec lit push]. change (is_quote double_quote) with true. cbn iota.
      rewrite Ascii.eqb_refl. cbn [exec]. rewrite capture_of_string. reflexivity.
Qed.

(** The patterns of the other two kinds find nothing in a Python snippet. *)
Lemma python_snippets_apart :
  matchAll python_resource_re (generatePythonSnippet tool name) = []
  /\ matchAll python_prompt_re (generatePythonSnippet tool name) = []
  /\ matchAll python_tool_re (generatePythonSnippet resource name) = []
  /\ matchAll python_prompt_re (generatePythonSnippet resource name) = []
  /\ matchAll python_tool_re (generatePythonSnippet prompt name) = []
  /\ matchAll python_resource_re (generatePythonSnippet prompt name) = [].
Proof.
  destruct (valid_name_parts name Hvalid) as [Hne Hchars].
  pose proof (all_chars_weaken _ _ _ word_name_char (snippet_snake_word name Hchars)) as Hsnake.
  unfold generatePythonSnippet, python_tool_snippet, python_resource_snippet,
    python_prompt_snippet, python_tool_re, python_resource_re, python_prompt_re.
  set (snake := snippet_snake name) in *. clearbody snake.
  repeat apply conj; scan_pieces.
Qed.

(** X19: the analyzer of TypeScript recognises nothing of what the add
    command prints for TypeScript: in none of the three snippets does any
    of its three patterns find a tool, a resource or a prompt. *)
Theorem typescript_snippets_not_analyzed (type : AddType) :
  matchAll typescript_tool_re (generateTypeScriptSnippet type name) = []
  /\ matchAll typescript_resource_re (generateTypeScriptSnippet type name) = []
  /\ matchAll typescript_prompt_re (generateTypeScriptSnippet type name) = [].
Proof.
  destruct (valid_name_parts name Hvalid) as [Hne Hchars].
  unfold typescript_tool_re, typescript_resource_re, typescript_prompt_re.
  destruct type; unfold generateTypeScriptSnippet, typescript_tool_snippet,
    typescript_resource_snippet, typescript_prompt_snippet;
    repeat apply conj; scan_pieces.
Qed.
End Snippets.

(** X17: the analyzer of Python recognises what the add command prints for
    Python: in the snippet of a tool it finds one tool, under the snake form
    of the name that the snippet gives to the function; in the snippet of a
    resource one resource, under resource:// and that form; in the snippet
    of a prompt one prompt, under that form followed by _prompt; and
    nothing of the other two kinds in any of them. *)
Theorem python_snippets_analyzed (name : string) :
  valid_name name = true ->
  let snake := snippet_snake name in
  let found (type : AddType) :=
    (matchAll python_tool_re (generatePythonSnippet type name),
     matchAll python_resource_re (generatePythonSnippet type name),
     matchAll python_prompt_re (generatePythonSnippet type name)) in
  found tool = ([snake], [], [])
  /\ found resource = ([], [("resource://" ++ snake)%string], [])
  /\ found prompt = ([], [], [(snake ++ "_prompt")%string]).
Proof.
  intros Hvalid. cbv zeta.
  destruct (python_snippets_apart name Hvalid) as (H1 & H2 & H3 & H4 & H5 & H6).
  rewrite (python_tool_snippet_found name Hvalid), (python_resource_snippet_found name Hvalid),
    (python_prompt_snippet_found name Hvalid), H1, H2, H3, H4, H5, H6.
  repeat split.
Qed.

Lemma python_snippets_analyzed_witness :
  let snake := snippet_snake "get-weather" in
  let found (type : AddType) :=
    (matchAll python_tool_re (generatePythonSnippet type "get-weather"),
     matchAll python_resource_re (generatePythonSnippet type "get-weather"),
     matchAll python_prompt_re (generatePythonSnippet type "get-weather")) in
  found tool = ([snake], [], [])
  /\ found resource = ([], [("resource://" ++ snake)%string], [])
  /\ found prompt = ([], [], [(snake ++ "_prompt")%string]).
Proof. apply (python_snippets_analyzed "get-weather"). reflexivity. Defined.

(** X18: the analyzers of Go and of Rust recognise the tool snippets of the
    add command under the name as it was given, hyphens and capitals
    included; the snippets that the command prints for a resource and for a
    prompt in these languages are comments, in which they find nothing. *)
Theorem go_rust_snippets_analyzed (name : string) :
  valid_name name = true ->
  matchAll go_tool_re (generateGoSnippet tool name) = [name]
  /\ matchAll rust_tool_re (generateRustSnippet tool name) = [name]
  /\ (forall type, type <> tool ->
        matchAll go_tool_re (generateGoSnippet type name) = []
        /\ matchAll rust_tool_re (generateRustSnippet type name) = []).
Proof.
  intros Hvalid.
  split; [exact (go_tool_snippet_found name Hvalid)|].
  split; [exact (rust_tool_snippet_found name Hvalid)|].
  intros [] Htype; [congruence| |]; split; vm_compute; reflexivity.
Qed.

Lemma go_rust_snippets_analyzed_witness :
  matchAll go_tool_re (generateGoSnippet tool "get-Weather_v2") = ["get-Weather_v2"]
  /\ matchAll rust_tool_re (generateRustSnippet tool "get-Weather_v2") = ["get-Weather_v2"]
  /\ (forall type, type <> tool ->
        matchAll go_tool_re (generateGoSnippet type "get-Weather_v2") = []
        /\ matchAll rust_tool_re (generateRustSnippet type "get-Weather_v2") = []).
Proof. apply (go_rust_snippets_analyzed "get-Weather_v2"). reflexivity. Defined.

Lemma typescript_snippets_not_analyzed_witness :
  matchAll typescript_tool_re (generateTypeScriptSnippet tool "get-weather") = []
  /\ matchAll typescript_resource_re (generateTypeScriptSnippet tool "get-weather") = []
  /\ matchAll typescript_prompt_re (generateTypeScriptSnippet tool "get-weather") = [].
Proof. apply (typescript_snippets_not_analyzed "get-weather"). reflexivity. Defined.

(** ** The dependency check of the Python validator *)

Lemma includes_fastmcp (s : string) :
  includes s "fastmcp" = true -> includes s "mcp" = true.
Proof.
  induction s as [|c s IH]; [discriminate|].
  intros H. rewrite includes_cons in H. apply orb_true_iff in H as [H|H];
    [|rewrite includes_cons, (IH H); apply orb_true_r].
  - assert (exists rest, String c s = ("fastmcp" ++ rest)%string) as [rest ->].
    { revert H. generalize (String c s). intros t. clear.
      do 7 (destruct t as [|? t]; [discriminate|]; cbn [String.prefix];
            match goal with |- (if ?d then _ else _) = _ -> _ =>
              destruct d as [<-|]; [|discriminate] end).
      intros _. exists t. reflexivity. }
    apply (includes_app_r "fast" ("mcp" ++ rest) "mcp").
    destruct rest; reflexivity.
Qed.

Section PythonDependency.
Variable JSON_parse : string -> option json.

(** X20: the dependency check of the Python validator asks for no more
    than the letters mcp somewhere in pyproject.toml, the name of the
    project included: the second alternative, fastmcp, never decides.  The
    result holds the dependency error exactly when the text of the manifest
    does not contain mcp. *)
Theorem validatePython_dependency_check (fs : gmap (list string) node)
    (projectPath : list string) (text : string) (r : ValidationResult) :
  readFile fs (path_join projectPath ["pyproject.toml"]) = Some text ->
  validateProject JSON_parse fs projectPath python = Some r ->
  (In "Missing MCP dependency (mcp or fastmcp)" (errors r) <-> includes text "mcp" = false).
Proof.
  intros Hread. unfold validateProject.
  destruct (errors_validateCommon fs projectPath
              {| valid := true; errors := []; warnings := [] |}) as [He _].
  set (r0 := validateCommon fs projectPath _) in *. cbn [errors] in He. clearbody r0.
  unfold validatePython. rewrite (pathExists_readFile _ _ _ Hread), Hread.
  cbn [negb mbind option_bind].
  assert (negb (includes text "mcp") && negb (includes text "fastmcp")
          = negb (includes text "mcp")) as ->.
  { destruct (includes text "mcp") eqn:Hm; [reflexivity|].
    destruct (includes text "fastmcp") eqn:Hf; [|reflexivity].
    apply includes_fastmcp in Hf. congruence. }
  destruct (includes text "mcp") eqn:Hm; cbn [negb];
    destruct (negb (includes text "requires-python"));
    (destruct (List.find (pathExists fs) _) as [serverPath|];
     [destruct (readFile fs serverPath) as [content|]; [cbn [mbind option_bind]|discriminate];
      destruct (negb (includes content "@server.tool") && negb (includes content ".tool("))|]);
    intros [= <-]; cbn [errors set_invalid push_error push_warning]; rewrite He; cbn [app];
    (split;
     [ first [ reflexivity
             | intros Hin; repeat (destruct Hin as [Hin|Hin]; [discriminate Hin|]);
               destruct Hin ]
     | first [ discriminate | intros _; left; reflexivity ] ]).
Qed.
End PythonDependency.

Lemma validatePython_dependency_check_witness :
  let fs : gmap (list string) node :=
    <[ ["hello-mcp"; "pyproject.toml"] := File "[project]
name = 'hello-mcp'
dependencies = []" ]> (<[ ["hello-mcp"] := Dir ]> ∅) in
  let r := {| valid := false; errors := ["Missing server.py file"];
              warnings := ["Missing README.md"; "Missing .gitignore";
                           "Missing requires-python in pyproject.toml"] |} in
  In "Missing MCP dependency (mcp or fastmcp)" (errors r)
  <-> includes "[project]
name = 'hello-mcp'
dependencies = []" "mcp" = false.
Proof.
  cbv zeta.
  apply (validatePython_dependency_check (fun _ => None)
           (<[ ["hello-mcp"; "pyproject.toml"] := File "[project]
name = 'hello-mcp'
dependencies = []" ]> (<[ ["hello-mcp"] := Dir ]> ∅)) ["hello-mcp"]).
  - vm_compute. reflexivity.
  - vm_compute. reflexivity.
Defined.

(** ** Generated projects: witnesses *)

Lemma generated_project_validates_witness :
  exists fs',
    newCommand (fun text _ => Some text) None "hello-mcp" rust enterprise stdio ∅ = Some fs'
    /\ validateProject (fun _ => None) fs' ["hello-mcp"] rust
       = Some {| valid := true; errors := []; warnings := [] |}.
Proof.
  refine (generated_project_validates (fun text _ => Some text) (fun _ => None)
            "hello-mcp" rust enterprise stdio ∅ eq_refl _ _ _).
  - intros p. apply lookup_empty.
  - discriminate.
  - discriminate.
Defined.

Lemma analyze_generated_witness :
  exists fs',
    newCommand (fun text _ => Some text) None "hello-mcp" go basic stdio ∅ = Some fs'
    /\ analyzeProject fs' ["hello-mcp"] go
       = Some {| name := "hello-mcp"; language_of := go;
                 tools := emitted_tools go basic;
                 resources := emitted_resources go;
                 prompts := emitted_prompts go basic |}.
Proof.
  refine (analyze_generated (fun text _ => Some text) "hello-mcp" go basic stdio ∅
            eq_refl _ _ _).
  - intros p. apply lookup_empty.
  - discriminate.
  - discriminate.
Defined.

Lemma analyze_python_misplaced_server_witness :
  exists fs',
    newCommand (fun text _ => Some text) None "MyProject" python basic stdio ∅ = Some fs'
    /\ analyzeProject fs' ["MyProject"] python
       = Some {| name := "MyProject"; language_of := python;
                 tools := []; resources := []; prompts := [] |}.
Proof.
  refine (analyze_python_misplaced_server (fun text _ => Some text) "MyProject" basic stdio ∅
            eq_refl _ _ _).
  - intros p. apply lookup_empty.
  - discriminate.
  - discriminate.
Defined.

Lemma validateProject_returns_witness :
  is_Some (validateProject (fun _ => None)
             (<[ ["demo"; "go.mod"] := File "module demo" ]> (<[ ["demo"] := Dir ]> ∅))
             ["demo"] go).
Proof.
  apply validateProject_returns.
  - intros _. discriminate.
  - repeat constructor; discriminate.
  - discriminate.
Defined.

Lemma addCommand_prints_snippet_witness :
  let w := {| files := <[ ["demo"; "go.mod"] := File "module demo" ]> (<[ ["demo"] := Dir ]> ∅);
              console := []; exited := None |} in
  In (Log (generateGoSnippet tool "fetch")) (console (addCommand "tool" "fetch" ["demo"] w))
  /\ exited (addCommand "tool" "fetch" ["demo"] w) = exited w.
Proof.
  cbv zeta.
  apply (addCommand_prints_snippet tool "fetch" ["demo"]
           {| files := <[ ["demo"; "go.mod"] := File "module demo" ]> (<[ ["demo"] := Dir ]> ∅);
              console := []; exited := None |} go).
  - reflexivity.
  - vm_compute. reflexivity.
Defined.

(** ** A manifest that does not parse *)

Section MalformedManifest.
Variable JSON_parse : string -> option json.
Variable caught_message : string.

(** X26: for a TypeScript project whose package.json is not JSON, or is the
    JSON text null, validation does not report an error of the project: it
    throws, and the validate command prints that the validation failed,
    with the message of what was thrown, and ends with status 1. *)
Theorem validateCommand_malformed_manifest (project : list string) (fix_option : bool)
    (w : world) (text : string) :
  detectLanguage (files w) project = Some typescript ->
  pathExists (files w) project = true ->
  readFile (files w) (path_join project ["package.json"]) = Some text ->
  JSON_parse text = None \/ JSON_parse text = Some JNull ->
  validateProject JSON_parse (files w) project typescript = None
  /\ validateCommand JSON_parse caught_message project fix_option w
     = {| files := files w;
          console := console w ++ [Log ""; Log "MCPForge - Validating project"; Log "";
                                   Spinner "Analyzing project..."; Spinner "Validation failed";
                                   Error caught_message];
          exited := Some 1%nat |}.
Proof.
  intros Hlang Hproject Hread Hparse.
  assert (validateProject JSON_parse (files w) project typescript = None) as Hthrow.
  { unfold validateProject, validateTypeScript.
    rewrite (pathExists_readFile _ _ _ Hread), Hread. cbn [negb mbind option_bind].
    destruct Hparse as [-> | ->]; reflexivity. }
  split; [exact Hthrow|].
  unfold validateCommand. rewrite Hproject. cbn [negb].
  change (files (print _ (print _ (print _ (print _ w))))) with (files w).
  rewrite Hlang, Hthrow. unfold exit, print. cbn [files console exited].
  rewrite <- !app_assoc. reflexivity.
Qed.
End MalformedManifest.

Lemma validateCommand_malformed_manifest_witness :
  let w := {| files := <[ ["demo"; "package.json"] := File "{ name: demo" ]>
                         (<[ ["demo"] := Dir ]> ∅);
              console := []; exited := None |} in
  validateProject (fun _ => None) (files w) ["demo"] typescript = None
  /\ validateCommand (fun _ => None) "Unexpected token" ["demo"] false w
     = {| files := files w;
          console := console w ++ [Log ""; Log "MCPForge - Validating project"; Log "";
                                   Spinner "Analyzing project..."; Spinner "Validation failed";
                                   Error "Unexpected token"];
          exited := Some 1%nat |}.
Proof.
  cbv zeta.
  apply (validateCommand_malformed_manifest (fun _ => None) "Unexpected token" ["demo"] false
           {| files := <[ ["demo"; "package.json"] := File "{ name: demo" ]>
                         (<[ ["demo"] := Dir ]> ∅);
              console := []; exited := None |} "{ name: demo").
  - vm_compute. reflexivity.
  - vm_compute. reflexivity.
  - vm_compute. reflexivity.
  - left. reflexivity.
Defined.
